(** * OpenAI-compatible front end over Bedrock Claude: model and properties

    A shallow embedding of [aws-claude.py]: the request validator
    [validate_bedrock_request], the retry loop [invoke_with_retry], the
    two POST handlers [completions] and [chat_completions] with their
    stream generators, the debug log as far as it changes requests and
    replies, and the line splitter [stream_iter_lines].

    Conventions of the embedding.
    - JSON values are [pyval]; JSON objects (Python dicts) are
      [gmap string pyval].  [json.dumps] followed by [json.loads] is the
      identity on these values, so a request body is kept as the dict it
      serialises.
    - JSON numbers are integers.  The float literal [1.0] used as the
      default of [temperature] and [top_p] is written [PInt 1]; numbers with
      a fractional part are outside the model.
    - The code computes in floats at three places: [int(n / 2)] and
      [int(n * 0.8)] on the token limit, and the delay of the retry loop.
      A float is the rational it denotes, and [float_round] rounds a
      rational to binary64.  The delay is rounded as the code rounds it.
      The two truncated products are the exact [int_half] and [int_08],
      which are what binary64 gives for [0 <= n < 2^50] (lemmas
      [float_int_half_exact] and [float_int_08_exact]); the handlers cap
      the token limit at 128000 before they multiply, and the statements
      on the validator, which does not, say where they need the bound.
      From about [1.8e308] on the conversion of [n] to a float raises
      [OverflowError]; such token limits are outside the model.
    - Python exceptions are values of [exn]; code that can raise returns in
      [res], and a handler runs in [io], which adds the early [return] of a
      reply and the log of backend calls and sleeps.
    - The clock ([time.time()]) feeds only the [id] and [created] fields of
      the replies; these two fields are left out of the reply records.
    - Strings are sequences of code points below 256; [len], slicing and
      [strip] work on them.  The one literal of the code with other
      characters is the mark of the debug log, see [CUT_MARK].
    - Seconds are rationals: the jitter is any rational, and the delay is
      the binary64 sum the code sleeps. *)

From Stdlib Require Import ZArith QArith Qminmax Qround Qabs Qpower Lia Lqa.
From stdpp Require Import gmap strings list fin_maps.

Set Warnings "-register-all".
Set Default Proof Using "Type".

(* ------------------------------------------------------------------ *)
(** ** Python values *)

Inductive pyval :=
| PNone
| PBool (b : bool)
| PInt (z : Z)
| PStr (s : string)
| PList (l : list pyval)
| PDict (d : gmap string pyval).

Inductive exn :=
| TypeError
| AttributeError
| ValueError
| ClientError (code msg : string)
| OtherError (name : string).

Inductive res (A : Type) :=
| Ok (a : A)
| Raise (e : exn).
Arguments Ok {A} a.
Arguments Raise {A} e.

#[global] Instance res_ret : MRet res := λ A a, Ok a.
#[global] Instance res_bind : MBind res := λ A B f m,
  match m with Ok a => f a | Raise e => Raise e end.

(** Truth value of an object ([bool(v)], [if v:], [not v]). *)
Definition truthy (v : pyval) : bool :=
  match v with
  | PNone => false
  | PBool b => b
  | PInt z => negb (z =? 0)%Z
  | PStr s => negb (String.eqb s "")
  | PList l => match l with [] => false | _ => true end
  | PDict d => negb (Nat.eqb (size d) 0)
  end.

(** [v == 'lit'] for a string literal. *)
Definition eq_str (v : pyval) (lit : string) : bool :=
  match v with PStr s => String.eqb s lit | _ => false end.

(** [v is False]. *)
Definition is_False (v : pyval) : bool :=
  match v with PBool false => true | _ => false end.

(** Numbers as Python compares and adds them: [bool] is a subclass of
    [int]. *)
Definition as_num (v : pyval) : option Z :=
  match v with
  | PInt z => Some z
  | PBool b => Some (if b then 1 else 0)%Z
  | _ => None
  end.

(** [a > b] where [b] is an integer literal; ordering a string, a list, a
    dict or [None] against an [int] is a [TypeError]. *)
Definition py_gt (a : pyval) (b : Z) : res bool :=
  match as_num a with
  | Some z => Ok (b <? z)%Z
  | None => Raise TypeError
  end.

(** [max(a, v)] for an integer literal [a]: the comparison [v > a] decides,
    and the result is an [int] (a [bool] never exceeds a literal [>= 1]). *)
Definition py_max (a : Z) (v : pyval) : res Z :=
  match as_num v with
  | Some z => Ok (Z.max a z)
  | None => Raise TypeError
  end.

(** *** Floats

    A binary64 number is the rational it denotes.  [float_round x] is the
    binary64 nearest to [x], ties to the even mantissa: 53 significant
    bits, down to the exponent [-1074] of the subnormal numbers.
    Magnitudes from [2^1024] on, where binary64 overflows, are outside
    it. *)

(** [floor(log2 |x|)] for [x] other than zero. *)
Definition binade (x : Q) : Z :=
  let a := Qabs x in
  if Qle_bool 1 a then Z.log2 (Qfloor a) else (- Z.log2_up (Qceiling (/ a)))%Z.

(** The distance of the binary64 numbers around [x]. *)
Definition ulp (x : Q) : Q := Qpower 2 (Z.max (binade x - 52) (-1074)).

Definition round_half_even (q : Q) : Z :=
  let f := Qfloor q in
  match (q - inject_Z f ?= 1 # 2)%Q with
  | Lt => f
  | Eq => if Z.even f then f else (f + 1)%Z
  | Gt => (f + 1)%Z
  end.

Definition float_round (x : Q) : Q :=
  inject_Z (round_half_even (x / ulp x)) * ulp x.

(** [x + y] and [x * y] on floats, [float(n)], [a / b] on integers (the
    quotient rounded once), [int(x)] on a float, and the literal [0.8]. *)
Definition float_add (x y : Q) : Q := float_round (x + y).
Definition float_mul (x y : Q) : Q := float_round (x * y).
Definition float_of_int (n : Z) : Q := float_round (inject_Z n).
Definition true_divide (a b : Z) : Q := float_round (inject_Z a / inject_Z b).
Definition int_of_float (x : Q) : Z := if Qle_bool 0 x then Qfloor x else Qceiling x.
Definition FLOAT_08 : Q := float_round (8 # 10).

(** [int(n / 2)] and [int(n * 0.8)] on an integer [n], as the code
    computes them. *)
Definition float_int_half (n : Z) : Z := int_of_float (true_divide n 2).
Definition float_int_08 (n : Z) : Z :=
  int_of_float (float_mul (float_of_int n) FLOAT_08).

(** The same two in exact arithmetic, truncated towards zero.  The
    model computes with these; they are the values of [float_int_half]
    and [float_int_08] for [0 <= n < 2^50] (lemmas [float_int_half_exact]
    and [float_int_08_exact]), and no longer from about [2e15] on, where
    [n * 0.8] is rounded to an integer above [trunc(4n/5)]. *)
Definition int_half (n : Z) : Z := Z.quot n 2.
Definition int_08 (n : Z) : Z := Z.quot (4 * n) 5.

(** Token limits below this bound are in the range where [int_half] and
    [int_08] are what the code computes. *)
Definition EXACT_LIMIT : Z := 2 ^ 50.

(** [d.get(k, default)] on a dict. *)
Definition dict_get (d : gmap string pyval) (k : string) (dflt : pyval) : pyval :=
  match d !! k with Some v => v | None => dflt end.

(** [k in d] on a dict. *)
Definition dict_has (d : gmap string pyval) (k : string) : bool :=
  match d !! k with Some _ => true | None => false end.

(** [v.get(k, default)] on any object: only a dict has [get]. *)
Definition py_get (v : pyval) (k : string) (dflt : pyval) : res pyval :=
  match v with
  | PDict d => Ok (dict_get d k dflt)
  | _ => Raise AttributeError
  end.

(** [lit in s]: substring test. *)
Fixpoint contains (lit s : string) : bool :=
  String.prefix lit s ||
  match s with
  | EmptyString => false
  | String _ rest => contains lit rest
  end.

(** [k in v] for a string literal [k]: key of a dict, substring of a
    string, element of a list; other objects are not containers. *)
Definition py_in (k : string) (v : pyval) : res bool :=
  match v with
  | PDict d => Ok (dict_has d k)
  | PStr s => Ok (contains k s)
  | PList l => Ok (existsb (λ x, eq_str x k) l)
  | _ => Raise TypeError
  end.

(** [v[k]] for a string literal [k]. *)
Definition py_index (v : pyval) (k : string) : res pyval :=
  match v with
  | PDict d => match d !! k with Some x => Ok x | None => Raise (OtherError "KeyError") end
  | _ => Raise TypeError
  end.

(** Iteration ([for item in v]).  Iterating a string yields its
    characters, iterating a dict its keys; the order of the keys is that of
    the map here, and the loops below raise on every string item alike. *)
Definition py_iter (v : pyval) : res (list pyval) :=
  match v with
  | PList l => Ok l
  | PStr s => Ok ((λ c, PStr (String c EmptyString)) <$> String.list_ascii_of_string s)
  | PDict d => Ok ((λ kv, PStr kv.1) <$> map_to_list d)
  | _ => Raise TypeError
  end.

(** Whitespace as [str.strip()] sees it, on code points below 256.
    Whitespace beyond them, such as U+3000, is not in the strings of the
    model. *)
Definition is_space (c : Ascii.ascii) : bool :=
  let n := Ascii.nat_of_ascii c in
  ((9 <=? n) && (n <=? 13)) || ((28 <=? n) && (n <=? 32))
  || (n =? 133) || (n =? 160).

Fixpoint lstrip (s : string) : string :=
  match s with
  | EmptyString => EmptyString
  | String c rest => if is_space c then lstrip rest else s
  end.

Fixpoint rstrip (s : string) : string :=
  match s with
  | EmptyString => EmptyString
  | String c rest =>
      match rstrip rest with
      | EmptyString => if is_space c then EmptyString else String c EmptyString
      | r => String c r
      end
  end.

Definition strip (s : string) : string := rstrip (lstrip s).

(** [v.strip()]: a method of strings only. *)
Definition py_strip (v : pyval) : res string :=
  match v with
  | PStr s => Ok (strip s)
  | _ => Raise AttributeError
  end.

(** [a + b] on strings ([content += item.get('text', '')]). *)
Definition str_add (a : string) (b : pyval) : res string :=
  match b with
  | PStr s => Ok (a +:+ s)
  | _ => Raise TypeError
  end.

(** [' '.join(l)]: every element must be a string. *)
Fixpoint join_space (l : list pyval) : res string :=
  match l with
  | [] => Ok ""
  | [x] => match x with PStr s => Ok s | _ => Raise TypeError end
  | x :: rest =>
      match x with
      | PStr s => r ← join_space rest; Ok (s +:+ " " +:+ r)
      | _ => Raise TypeError
      end
  end.

(** [isinstance(v, list)]. *)
Definition is_list (v : pyval) : bool :=
  match v with PList _ => true | _ => false end.

(* ------------------------------------------------------------------ *)
(** ** Configuration *)

Definition DEFAULT_MAX_TOKENS : Z := 4096.
Definition MAX_OUTPUT_TOKENS : Z := 128000.

(** The alias table, in the order the source lists it: the reverse lookup
    of [invoke_with_retry] takes the first alias of a backend id. *)
Definition MODEL_MAPPING : list (string * string) :=
  [ ("claude-3-7-sonnet", "us.anthropic.claude-3-7-sonnet-20250219-v1:0");
    ("claude-3-7-sonnet-thinking", "us.anthropic.claude-3-7-sonnet-20250219-v1:0");
    ("claude-3-opus", "anthropic.claude-3-opus-20240229-v1:0");
    ("claude-3-5-sonnet", "anthropic.claude-3-5-sonnet-20240620-v1:0");
    ("claude-3-sonnet", "anthropic.claude-3-sonnet-20240229-v1:0");
    ("claude-3-haiku", "anthropic.claude-3-haiku-20240307-v1:0");
    ("claude-2", "anthropic.claude-v2:1");
    ("claude-instant", "anthropic.claude-instant-v1") ].

Definition DEFAULT_MODEL_ID : string :=
  "us.anthropic.claude-3-7-sonnet-20250219-v1:0".

Definition MAX_RETRIES : nat := 5.
Definition BASE_DELAY : Q := 1.
Definition MAX_DELAY : Q := 30.

Fixpoint assoc (k : string) (l : list (string * string)) : option string :=
  match l with
  | [] => None
  | (k', v) :: rest => if String.eqb k' k then Some v else assoc k rest
  end.

(** [MODEL_MAPPING.get(model_name, DEFAULT_MODEL_ID)]: a list or a dict is
    not hashable; any other non-string key is simply absent. *)
Definition mapping_get (model_name : pyval) : res string :=
  match model_name with
  | PStr s => Ok (default DEFAULT_MODEL_ID (assoc s MODEL_MAPPING))
  | PList _ | PDict _ => Raise TypeError
  | _ => Ok DEFAULT_MODEL_ID
  end.

(** [next((k for k, v in MODEL_MAPPING.items() if v == model_id), '')]. *)
Fixpoint reverse_lookup (model_id : string) (l : list (string * string)) : string :=
  match l with
  | [] => ""
  | (k, v) :: rest => if String.eqb v model_id then k else reverse_lookup model_id rest
  end.

(* ------------------------------------------------------------------ *)
(** ** Replies and the log of backend activity *)

Inductive delta :=
| DContent (text : pyval)
| DThinking (text : pyval)
| DEmpty.

Record chat_chunk := {
  chunk_model : pyval;
  chunk_delta : delta;
  chunk_finish_reason : pyval }.

Record text_chunk := {
  tchunk_text : pyval;
  tchunk_finish_reason : pyval }.

(** One server-sent event: [data: <json>] or the literal [data: [DONE]]. *)
Inductive sse :=
| SseText (c : text_chunk)
| SseChat (c : chat_chunk)
| SseDone.

Record usage := {
  prompt_tokens : nat;
  completion_tokens : nat;
  total_tokens : nat;
  thinking_tokens : option nat }.

Record completion_response := {
  cr_model : pyval;
  cr_text : pyval;
  cr_finish_reason : pyval;
  cr_thinking : option pyval;
  cr_usage : usage }.

Record chat_response := {
  ch_model : pyval;
  ch_content : pyval;
  ch_finish_reason : pyval;
  ch_thinking : option pyval;
  ch_usage : usage }.

Inductive errmsg :=
| ErrText (s : string)
| ErrUncaught (e : exn)
| ErrStreamingUnsupported (e : exn)
| ErrStream (e : exn).

(** A streamed body lists the events the generator yields; [aborted] holds
    the exception that ended the generator early, if one did. *)
Inductive reply_body :=
| ErrorBody (m : errmsg)
| CompletionBody (c : completion_response)
| ChatBody (c : chat_response)
| EventStream (events : list sse) (aborted : option exn).

Inductive reply := Reply (status : nat) (body : reply_body).

Inductive backend_op := InvokeModel | InvokeModelWithResponseStream.

Inductive event :=
| Call (op : backend_op) (modelId : string) (body : gmap string pyval)
| Sleep (seconds : Q).

Inductive outcome (A : Type) :=
| Returns (a : A)
| Fails (e : exn).
Arguments Returns {A} a.
Arguments Fails {A} e.

(** Handler code: a value, an early [return] of a reply, or an exception,
    together with the backend activity so far. *)
Inductive step (A : Type) :=
| Val (a : A)
| Return (r : reply)
| Throw (e : exn).
Arguments Val {A} a.
Arguments Return {A} r.
Arguments Throw {A} e.

Definition io (A : Type) : Type := step A * list event.

#[global] Instance io_ret : MRet io := λ A a, (Val a, []).
#[global] Instance io_bind : MBind io := λ A B f m,
  match m with
  | (Val a, t) => let '(r, t') := f a in (r, t ++ t')
  | (Return r, t) => (Return r, t)
  | (Throw e, t) => (Throw e, t)
  end.

Definition lift {A} (m : res A) : io A :=
  match m with Ok a => (Val a, []) | Raise e => (Throw e, []) end.

Definition return_ {A} (r : reply) : io A := (Return r, []).

(** [try: m except ...:] where every handler returns a reply; [handler]
    answers [None] for an exception no clause matches. *)
Definition catch {A} (m : io A) (handler : exn → option reply) : io A :=
  match m with
  | (Throw e, t) =>
      match handler e with
      | Some r => (Return r, t)
      | None => (Throw e, t)
      end
  | _ => m
  end.

(** The handler's outermost [except Exception]: HTTP 500 with [str(e)]. *)
Definition run (m : io reply) : reply * list event :=
  match m with
  | (Val r, t) => (r, t)
  | (Return r, t) => (r, t)
  | (Throw e, t) => (Reply 500 (ErrorBody (ErrUncaught e)), t)
  end.

(* ------------------------------------------------------------------ *)
(** ** The service *)

Section Service.

(** [DEBUG_MODE] is read once from the environment at start-up. *)
Variable DEBUG_MODE : bool.

(** Python's [int(s)] on a string, [None] where it raises [ValueError];
    [str(v)]; and the tokenizer behind [count_tokens], [None] where the
    encoder rejects the text. *)
Variable int_of_str : string → option Z.
Variable str_of : pyval → string.
Variable encode_length : string → option nat.

(** The backend: what the [k]-th call of an operation answers for a model
    id and a body.  [uniform k] is the [k]-th draw of
    [random.uniform(0, 1)]. *)
Variable invoke_model : nat → string → gmap string pyval → outcome pyval.
Variable invoke_model_with_response_stream :
  nat → string → gmap string pyval → outcome (list pyval).
Variable uniform : nat → Q.

(** [int(v)], [None] where it raises [ValueError] or [TypeError] (the two
    are always caught together). *)
Definition py_int (v : pyval) : option Z :=
  match v with
  | PInt z => Some z
  | PBool b => Some (if b then 1 else 0)%Z
  | PStr s => int_of_str s
  | _ => None
  end.

Definition enabled_thinking (budget : Z) : gmap string pyval :=
  {[ "type" := PStr "enabled"; "budget_tokens" := PInt budget ]}.

(** Lines 207-236: the [thinking] entry brought to the standard shape. *)
Definition checked_thinking (thinking : pyval) : gmap string pyval :=
  let thinking :=
    match thinking with
    | PDict d => d
    | _ => enabled_thinking 4000
    end in
  let thinking :=
    if negb (dict_has thinking "type")
       || negb (eq_str (dict_get thinking "type" PNone) "enabled")
    then <["type" := PStr "enabled"]> thinking
    else thinking in
  match thinking !! "budget_tokens" with
  | None => <["budget_tokens" := PInt 4000]> thinking
  | Some b =>
      match py_int b with
      | Some budget =>
          let budget := if (budget <? 1024)%Z then 1024%Z else budget in
          <["budget_tokens" := PInt budget]> thinking
      | None => <["budget_tokens" := PInt 4000]> thinking
      end
  end.

(** Lines 181-305.  The conversions [int(...)] sit in [try] blocks that
    catch [ValueError] and [TypeError] and fall back to a default.  The
    product [int(max_tokens * 0.8)] of line 269, reached for the thinking
    alias without a [thinking] entry, is the exact [int_08] here: it is
    what the code computes for [max_tokens] below [EXACT_LIMIT], and for a
    [max_tokens] too large for a float the code raises [OverflowError]
    there and returns nothing. *)
Definition validate_bedrock_request (params : gmap string pyval) : gmap string pyval :=
  let validated_params := params in
  let model_is_thinking :=
    if dict_has validated_params "_model_name"
       && eq_str (dict_get validated_params "_model_name" PNone) "claude-3-7-sonnet-thinking"
    then true
    else if dict_has validated_params "messages"
            && is_list (dict_get validated_params "messages" PNone)
    then dict_has validated_params "model"
         && eq_str (dict_get validated_params "model" PNone) "claude-3-7-sonnet-thinking"
    else false in
  let is_thinking_enabled := dict_has validated_params "thinking" in
  let validated_params :=
    match validated_params !! "thinking" with
    | Some thinking => <["thinking" := PDict (checked_thinking thinking)]> validated_params
    | None => validated_params
    end in
  let validated_params :=
    if (is_thinking_enabled || model_is_thinking) && dict_has validated_params "max_tokens"
    then match py_int (dict_get validated_params "max_tokens" PNone) with
         | Some max_tokens =>
             if (max_tokens <? 1024)%Z
             then <["max_tokens" := PInt 1024]> validated_params
             else validated_params
         | None => <["max_tokens" := PInt 4096]> validated_params
         end
    else validated_params in
  let validated_params :=
    if model_is_thinking && negb (dict_has validated_params "thinking")
    then
      if negb (is_False (dict_get validated_params "thinking" PNone))
      then
        let max_tokens :=
          default DEFAULT_MAX_TOKENS
            (py_int (dict_get validated_params "max_tokens" (PInt DEFAULT_MAX_TOKENS))) in
        let '(max_tokens, validated_params) :=
          if (max_tokens <? 1024)%Z
          then (1024%Z, <["max_tokens" := PInt 1024]> validated_params)
          else (max_tokens, validated_params) in
        let thinking_budget :=
          Z.max 1024 (Z.min (int_08 max_tokens) (max_tokens - 1)) in
        <["thinking" := PDict (enabled_thinking thinking_budget)]> validated_params
      else validated_params
    else validated_params in
  match validated_params !! "thinking" with
  | Some (PDict thinking) =>
      if truthy (PDict thinking)
      then
        let '(thinking_budget, validated_params) :=
          match py_int (dict_get thinking "budget_tokens" (PInt 0)) with
          | Some b => (b, validated_params)
          | None =>
              (4000%Z,
               <["thinking" := PDict (<["budget_tokens" := PInt 4000]> thinking)]>
                 validated_params)
          end in
        let max_tokens :=
          default DEFAULT_MAX_TOKENS
            (py_int (dict_get validated_params "max_tokens" (PInt DEFAULT_MAX_TOKENS))) in
        let validated_params :=
          if (max_tokens <=? thinking_budget)%Z
          then <["max_tokens" := PInt (thinking_budget + 1)]> validated_params
          else validated_params in
        if dict_has validated_params "top_p"
        then delete "top_p" validated_params
        else validated_params
      else validated_params
  | _ => validated_params
  end.

(** Lines 312-350: in debug mode the body is validated and replaced before
    it is sent.  The block sits in a [try] whose handler logs the error
    and sends the body as it came.  On the values of the model the one
    statement of the block that can raise is the product of line 269, for
    a token limit too large for a float; with token limits below that the
    handler is never entered. *)
Definition debug_body (modelId : string) (body : gmap string pyval) : gmap string pyval :=
  let body_dict := body in
  let model_name := reverse_lookup modelId MODEL_MAPPING in
  let body_dict :=
    if negb (String.eqb model_name "")
    then <["_model_name" := PStr model_name]> body_dict
    else body_dict in
  let body_dict := validate_bedrock_request body_dict in
  if dict_has body_dict "_model_name"
  then delete "_model_name" body_dict
  else body_dict.

(** The loop [while retries <= MAX_RETRIES].  [remaining] counts the iterations
    the guard still admits; [invoke_with_retry] starts it at
    [MAX_RETRIES + 1], so that it reaches [0] exactly when the guard fails.
    Leaving the loop by its guard ends the function without a value. *)
Fixpoint retry_loop {A} (op : backend_op)
    (func : nat → string → gmap string pyval → outcome A)
    (modelId : string) (body : gmap string pyval)
    (remaining retries : nat) : res (option A) * list event :=
  match remaining with
  | 0 => (Ok None, [])
  | S remaining =>
      if retries <=? MAX_RETRIES then
        match func retries modelId body with
        | Returns response => (Ok (Some response), [Call op modelId body])
        | Fails (ClientError error_code error_msg) =>
            if String.eqb error_code "ThrottlingException" && (retries <? MAX_RETRIES)
            then
              let delay :=
                Qmin MAX_DELAY
                  (float_add (BASE_DELAY * inject_Z (2 ^ Z.of_nat retries))
                     (uniform retries)) in
              let '(r, t) := retry_loop op func modelId body remaining (S retries) in
              (r, Call op modelId body :: Sleep delay :: t)
            else (Raise (ClientError error_code error_msg), [Call op modelId body])
        | Fails e => (Raise e, [Call op modelId body])
        end
      else (Ok None, [])
  end.

Definition invoke_with_retry {A} (op : backend_op)
    (func : nat → string → gmap string pyval → outcome A)
    (modelId : string) (body : gmap string pyval) : res (option A) * list event :=
  let body := if DEBUG_MODE then debug_body modelId body else body in
  retry_loop op func modelId body (S MAX_RETRIES) 0.

(** [response['body']] after [invoke_with_retry]; subscripting [None] is a
    [TypeError]. *)
Definition call_backend {A} (op : backend_op)
    (func : nat → string → gmap string pyval → outcome A)
    (modelId : string) (body : gmap string pyval) : io A :=
  match invoke_with_retry op func modelId body with
  | (Ok (Some response), t) => (Val response, t)
  | (Ok None, t) => (Throw TypeError, t)
  | (Raise e, t) => (Throw e, t)
  end.

(** *** The debug log

    [log_request_info] and [log_response_info] cut long texts for the log
    on a shallow copy ([.copy()]) of the request or reply.  The copy
    shares the message and choice objects with the original, so what the
    log cuts inside them is cut in the request the handler goes on to
    read and in the reply it sends.  Outside debug mode neither function
    touches anything. *)

(** The mark put after a cut text, the literal ['... [截断]'].  Its two
    CJK characters are beyond code point 255 and stand here as their
    UTF-8 bytes: the mark has 12 characters here and 8 in Python, so a cut
    text is 4 longer here.  Nothing below depends on more than the mark
    being non-blank. *)
Definition CUT_MARK : string := "... [截断]".

(** [v[:200] + '... [截断]'] where [v] is a string of more than 200
    characters; any other value is left alone. *)
Definition cut_long (v : pyval) : pyval :=
  match v with
  | PStr s =>
      if 200 <? String.length s
      then PStr (String.substring 0 200 s +:+ CUT_MARK)
      else v
  | _ => v
  end.

(** Lines 118-120 on one message. *)
Definition logged_message (msg : pyval) : pyval :=
  match msg with
  | PDict d =>
      match d !! "content" with
      | Some (PStr s) =>
          if 200 <? String.length s
          then PDict (<["content" := cut_long (PStr s)]> d)
          else msg
      | _ => msg
      end
  | _ => msg
  end.

(** The request as the handler finds it after [log_request_info]. *)
Definition log_request_info (request_data : gmap string pyval) : gmap string pyval :=
  if DEBUG_MODE
  then
    match request_data !! "messages" with
    | Some (PList messages) =>
        <["messages" := PList (logged_message <$> messages)]> request_data
    | _ => request_data
    end
  else request_data.

(** The texts of a reply as they are after [log_response_info]. *)
Definition log_response_info (v : pyval) : pyval :=
  if DEBUG_MODE then cut_long v else v.

Definition num (v : pyval) : res Z :=
  match as_num v with
  | Some z => Ok z
  | None => Raise TypeError
  end.

Definition py_str (v : pyval) : string :=
  match v with
  | PStr s => s
  | _ => str_of v
  end.

Definition count_tokens (text : pyval) : res nat :=
  match text with
  | PStr s =>
      match encode_length s with
      | Some n => Ok n
      | None => Raise ValueError
      end
  | _ => Raise TypeError
  end.

(** What a handler has settled when it turns to the backend: the alias
    and the backend id, whether a thinking trace is to be read from the
    answer (['claude-3-7' in model_name and use_thinking_mode]), and the
    body. *)
Record backend_request := {
  model_name : pyval;
  model_id : string;
  reads_thinking : bool;
  bed_params : gmap string pyval }.

(** *** Building the backend request

    The block guarded by ['claude-3-7' in model_name] has the same text in
    both handlers (lines 469-509 and 754-794). *)

Definition thinking_budget (req : gmap string pyval) (max_tokens : pyval) : res Z :=
  thinking_budget ←
    (if truthy (dict_get req "max_thinking_tokens" PNone)
     then Ok (dict_get req "max_thinking_tokens" PNone)
     else if truthy (dict_get req "thinking_max_tokens" PNone)
     then Ok (dict_get req "thinking_max_tokens" PNone)
     else if truthy (dict_get req "max_thinking_length" PNone)
     then Ok (dict_get req "max_thinking_length" PNone)
     else n ← num max_tokens; Ok (PInt (Z.max 4000 (int_half n))));
  thinking_budget ← py_max 1024 thinking_budget;
  n ← num max_tokens;
  if (n <=? thinking_budget)%Z
  then Ok (int_08 n)
  else Ok thinking_budget.

Definition claude_37_features (req : gmap string pyval) (max_tokens : pyval)
    (use_thinking_mode : bool) (enable_extended_output : pyval)
    (bed_params : gmap string pyval) : res (gmap string pyval) :=
  bed_params ←
    (if use_thinking_mode
     then b ← thinking_budget req max_tokens;
          Ok (<["thinking" := PDict (enabled_thinking b)]> bed_params)
     else Ok bed_params);
  bed_params ←
    (if truthy enable_extended_output
     then big ← py_gt max_tokens 64000;
          Ok (if big : bool
              then <["anthropic_beta" := PList [PStr "output-128k-2025-02-19"]]> bed_params
              else bed_params)
     else Ok bed_params);
  if truthy (dict_get req "enable_computer_use" (PBool false))
  then
    let beta :=
      match bed_params !! "anthropic_beta" with
      | Some (PList l) => l
      | _ => []
      end in
    Ok (<["anthropic_beta" := PList (beta ++ [PStr "computer_20250212"])]> bed_params)
  else Ok bed_params.

(** Lines 428-437 (and 699-708). *)
Definition thinking_mode (req : gmap string pyval) (model_name : pyval) : bool :=
  let use_thinking_mode := eq_str model_name "claude-3-7-sonnet-thinking" in
  let use_thinking_mode :=
    if use_thinking_mode && is_False (dict_get req "thinking" PNone)
    then false
    else use_thinking_mode in
  if truthy (dict_get req "thinking" (PBool false))
  then true
  else use_thinking_mode.

(** *** Reading a completed backend payload (lines 561-602 and 925-966) *)

Fixpoint concat_text (items : list pyval) (content : string) : res string :=
  match items with
  | [] => Ok content
  | item :: rest =>
      ty ← py_get item "type" PNone;
      if eq_str ty "text"
      then t ← py_get item "text" (PStr "");
           content ← str_add content t;
           concat_text rest content
      else concat_text rest content
  end.

Definition extract_content (bed_response : pyval) : res pyval :=
  has ← py_in "content" bed_response;
  listed ← (if has : bool
            then c ← py_index bed_response "content"; Ok (is_list c)
            else Ok false);
  if listed : bool
  then
    c ← py_index bed_response "content";
    items ← py_iter c;
    s ← concat_text items "";
    Ok (PStr s)
  else
    content ← py_get bed_response "completion" (PStr "");
    if negb (truthy content)
    then
      content_obj ← py_get bed_response "content" PNone;
      match content_obj with
      | PList (first :: _) => py_get first "text" (PStr "")
      | _ => Ok (PStr (if truthy content_obj then py_str content_obj else ""))
      end
    else Ok content.

Fixpoint thinking_blocks (items : list pyval) : res (list pyval) :=
  match items with
  | [] => Ok []
  | item :: rest =>
      ty ← py_get item "type" PNone;
      if eq_str ty "thinking"
      then b ← py_get item "thinking" (PStr "");
           bs ← thinking_blocks rest;
           Ok (b :: bs)
      else thinking_blocks rest
  end.

Definition extract_thinking (bed_response : pyval) : res pyval :=
  has ← py_in "thinking" bed_response;
  thinking_content ←
    (if has : bool
     then t ← py_get bed_response "thinking" (PDict ∅); py_get t "text" (PStr "")
     else Ok (PStr ""));
  look ← (if negb (truthy thinking_content)
          then py_in "content" bed_response
          else Ok false);
  if look : bool
  then
    c ← py_get bed_response "content" (PList []);
    items ← py_iter c;
    blocks ← thinking_blocks items;
    match blocks with
    | [] => Ok thinking_content
    | _ => s ← join_space blocks; Ok (PStr s)
    end
  else Ok thinking_content.

(** Lines 604-608 (and 968-973, where [prompt] is the joined messages). *)
Definition token_usage (prompt content thinking_content : pyval) : res usage :=
  prompt_tokens ← count_tokens prompt;
  completion_tokens ← count_tokens content;
  thinking_tokens ←
    (if truthy thinking_content then count_tokens thinking_content else Ok 0);
  let total_tokens := prompt_tokens + completion_tokens + thinking_tokens in
  Ok {| prompt_tokens := prompt_tokens;
        completion_tokens := completion_tokens;
        total_tokens := total_tokens;
        thinking_tokens :=
          if truthy thinking_content then Some thinking_tokens else None |}.

(** *** Stream translation *)

(** Body of the loop of [generate_stream] in [completions] (lines
    529-547): the events it yields for one frame, and whether it breaks. *)
Definition completions_stream_step (chunk : pyval) : res (list sse * bool) :=
  delta ← py_get chunk "delta" (PDict ∅);
  completion ← py_get delta "text" (PStr "");
  stop_reason ← py_get chunk "stop_reason" PNone;
  let yielded :=
    if truthy completion
    then [SseText {| tchunk_text := completion;
                     tchunk_finish_reason :=
                       if truthy stop_reason then stop_reason else PNone |}]
    else [] in
  Ok (yielded, truthy stop_reason).

Fixpoint completions_generate_stream (body : list pyval) : list sse * option exn :=
  match body with
  | [] => ([], None)
  | chunk :: rest =>
      match completions_stream_step chunk with
      | Raise e => ([], Some e)
      | Ok (yielded, true) => (yielded, None)
      | Ok (yielded, false) =>
          let '(more, e) := completions_generate_stream rest in
          (yielded ++ more, e)
      end
  end.

Definition chat_event (model_name : pyval) (d : delta) (finish_reason : pyval) : sse :=
  SseChat {| chunk_model := model_name;
             chunk_delta := d;
             chunk_finish_reason := finish_reason |}.

(** Body of the loop of [generate_stream] in [chat_completions] (lines
    813-910).  No branch leaves the loop. *)
Definition chat_stream_step (model_name : pyval) (chunk : pyval) : res (list sse) :=
  event_type ← py_get chunk "type" (PStr "");
  if eq_str event_type "content_block_delta"
  then
    delta ← py_get chunk "delta" (PDict ∅);
    delta_type ← py_get delta "type" PNone;
    if eq_str delta_type "thinking_delta"
    then
      thinking_text ← py_get delta "thinking" (PStr "");
      Ok (if truthy thinking_text
          then [chat_event model_name (DThinking thinking_text) PNone]
          else [])
    else if eq_str delta_type "text_delta"
    then
      text ← py_get delta "text" (PStr "");
      Ok (if truthy text
          then [chat_event model_name (DContent text) PNone]
          else [])
    else Ok []
  else if eq_str event_type "message_delta"
  then
    delta ← py_get chunk "delta" (PDict ∅);
    stop_reason ← py_get delta "stop_reason" PNone;
    Ok (if truthy stop_reason
        then
          let finish_reason :=
            if eq_str stop_reason "end_turn" then PStr "stop" else stop_reason in
          [chat_event model_name DEmpty finish_reason; SseDone]
        else [])
  else if negb (truthy event_type)
  then
    delta ← py_get chunk "delta" (PDict ∅);
    text ← py_get delta "text" (PStr "");
    stop_reason ← py_get chunk "stop_reason" PNone;
    Ok ((if truthy text
         then [chat_event model_name (DContent text)
                 (if truthy stop_reason then stop_reason else PNone)]
         else [])
        ++ (if truthy stop_reason then [SseDone] else []))
  else Ok [].

Fixpoint chat_generate_stream (model_name : pyval) (body : list pyval)
    : list sse * option exn :=
  match body with
  | [] => ([], None)
  | chunk :: rest =>
      match chat_stream_step model_name chunk with
      | Raise e => ([], Some e)
      | Ok yielded =>
          let '(more, e) := chat_generate_stream model_name rest in
          (yielded ++ more, e)
      end
  end.

(** *** POST /v1/completions *)

(** Lines 412-512: the checks and the backend request. *)
Definition completions_request (req : gmap string pyval) : io backend_request :=
  let prompt := dict_get req "prompt" PNone in
  blank ← lift (if negb (truthy prompt)
                then Ok true
                else s ← py_strip prompt; Ok (negb (truthy (PStr s))));
  if blank : bool
  then return_ (Reply 400 (ErrorBody (ErrText "Prompt cannot be empty")))
  else
  let max_tokens := dict_get req "max_tokens" (PInt DEFAULT_MAX_TOKENS) in
  let model_name := dict_get req "model" (PStr "claude-3-7-sonnet") in
  model_id ← lift (mapping_get model_name);
  let use_thinking_mode := thinking_mode req model_name in
  let enable_extended_output := dict_get req "enable_extended_output" (PBool false) in
  over ← lift (py_gt max_tokens MAX_OUTPUT_TOKENS);
  let max_tokens := if over : bool then PInt MAX_OUTPUT_TOKENS else max_tokens in
  let temperature := dict_get req "temperature" (PInt 1) in
  let top_p := dict_get req "top_p" (PInt 1) in
  let stop := dict_get req "stop" PNone in
  let bed_params : gmap string pyval :=
    {[ "anthropic_version" := PStr "bedrock-2023-05-31";
       "max_tokens" := max_tokens;
       "temperature" := temperature;
       "messages" := PList [PDict {[ "role" := PStr "user"; "content" := prompt ]}] ]} in
  let bed_params :=
    if negb use_thinking_mode then <["top_p" := top_p]> bed_params else bed_params in
  is_37 ← lift (py_in "claude-3-7" model_name);
  bed_params ← lift (if is_37 : bool
                     then claude_37_features req max_tokens use_thinking_mode
                            enable_extended_output bed_params
                     else Ok bed_params);
  let bed_params :=
    if truthy stop then <["stop_sequences" := stop]> bed_params else bed_params in
  mret {| model_name := model_name;
          model_id := model_id;
          reads_thinking := is_37 && use_thinking_mode;
          bed_params := bed_params |}.

(** Lines 514-631: the backend call and the reply. *)
Definition completions_io (req : gmap string pyval) : io reply :=
  let req := log_request_info req in
  r ← completions_request req;
  if truthy (dict_get req "stream" (PBool false))
  then
    catch
      (body ← call_backend InvokeModelWithResponseStream
                 invoke_model_with_response_stream (model_id r) (bed_params r);
       let '(events, aborted) := completions_generate_stream body in
       mret (Reply 200 (EventStream events aborted)))
      (λ e, match e with
            | AttributeError => Some (Reply 500 (ErrorBody (ErrStreamingUnsupported e)))
            | _ => None
            end)
  else
    bed_response ← call_backend InvokeModel invoke_model (model_id r) (bed_params r);
    content ← lift (extract_content bed_response);
    thinking_content ←
      lift (if reads_thinking r
            then extract_thinking bed_response
            else Ok (PStr ""));
    stop_reason ← lift (py_get bed_response "stop_reason" (PStr "stop"));
    u ← lift (token_usage (dict_get req "prompt" PNone) content thinking_content);
    mret (Reply 200 (CompletionBody
      {| cr_model := model_name r;
         cr_text := log_response_info content;
         cr_finish_reason := stop_reason;
         cr_thinking :=
           if truthy thinking_content
           then Some (log_response_info thinking_content)
           else None;
         cr_usage := u |})).

Definition completions (req : gmap string pyval) : reply * list event :=
  run (completions_io req).

(** *** POST /v1/chat/completions *)

(** [any(item.get('text', '') for item in content if item.get('type') == 'text')];
    [any] stops at the first true element. *)
Fixpoint any_text (items : list pyval) : res bool :=
  match items with
  | [] => Ok false
  | item :: rest =>
      ty ← py_get item "type" PNone;
      if eq_str ty "text"
      then t ← py_get item "text" (PStr "");
           if truthy t then Ok true else any_text rest
      else any_text rest
  end.

Definition has_content (msg : pyval) : res bool :=
  content ← py_get msg "content" (PStr "");
  match content with
  | PList items => any_text items
  | _ =>
      if truthy content
      then s ← py_strip content; Ok (truthy (PStr s))
      else Ok false
  end.

(** The loop of lines 723-735; [len] is [len(messages)] and [i] the index
    of the head of [messages]. *)
Fixpoint filter_messages (len i : nat) (messages : list pyval) : res (list pyval) :=
  match messages with
  | [] => Ok []
  | msg :: rest =>
      filled ← has_content msg;
      keep ← (if filled : bool
              then Ok true
              else if i =? len - 1
              then role ← py_get msg "role" PNone; Ok (eq_str role "assistant")
              else Ok false);
      filtered ← filter_messages len (S i) rest;
      Ok (if keep : bool then msg :: filtered else filtered)
  end.

(** [msg.get('role') == role] on a message that is a dict. *)
Definition role_is (role : string) (msg : pyval) : bool :=
  match msg with
  | PDict d => eq_str (dict_get d "role" PNone) role
  | _ => false
  end.

(** [[msg.get('content', '') for msg in messages]]. *)
Fixpoint contents (messages : list pyval) : res (list pyval) :=
  match messages with
  | [] => Ok []
  | msg :: rest =>
      c ← py_get msg "content" (PStr "");
      cs ← contents rest;
      Ok (c :: cs)
  end.

(** Lines 692-797: the checks and the backend request, with the messages
    as received. *)
Definition chat_request (req : gmap string pyval) : io (backend_request * list pyval) :=
  let messages := dict_get req "messages" (PList []) in
  let model_name := dict_get req "model" (PStr "claude-3-7-sonnet") in
  model_id ← lift (mapping_get model_name);
  let use_thinking_mode := thinking_mode req model_name in
  let max_tokens := dict_get req "max_tokens" (PInt DEFAULT_MAX_TOKENS) in
  let enable_extended_output := dict_get req "enable_extended_output" (PBool false) in
  over ← lift (py_gt max_tokens MAX_OUTPUT_TOKENS);
  let max_tokens := if over : bool then PInt MAX_OUTPUT_TOKENS else max_tokens in
  message_list ← lift (py_iter messages);
  filtered_messages ← lift (filter_messages (length message_list) 0 message_list);
  if match filtered_messages with [] => true | _ => false end
     || negb (existsb (role_is "user") filtered_messages)
  then return_ (Reply 400 (ErrorBody
                 (ErrText "At least one user message with content is required")))
  else
  let bed_params : gmap string pyval :=
    {[ "anthropic_version" := PStr "bedrock-2023-05-31";
       "max_tokens" := max_tokens;
       "temperature" := dict_get req "temperature" (PInt 1);
       "messages" := PList filtered_messages ]} in
  let bed_params :=
    if negb use_thinking_mode
    then <["top_p" := dict_get req "top_p" (PInt 1)]> bed_params
    else bed_params in
  is_37 ← lift (py_in "claude-3-7" model_name);
  bed_params ← lift (if is_37 : bool
                     then claude_37_features req max_tokens use_thinking_mode
                            enable_extended_output bed_params
                     else Ok bed_params);
  let stop := dict_get req "stop" PNone in
  let bed_params :=
    if truthy stop
    then <["stop_sequences" := if is_list stop then stop else PList [stop]]> bed_params
    else bed_params in
  mret ({| model_name := model_name;
           model_id := model_id;
           reads_thinking := is_37 && use_thinking_mode;
           bed_params := bed_params |}, message_list).

(** Lines 799-1005: the backend call and the reply. *)
Definition chat_completions_io (req : gmap string pyval) : io reply :=
  let req := log_request_info req in
  '(r, message_list) ← chat_request req;
  if truthy (dict_get req "stream" (PBool false))
  then
    catch
      (body ← call_backend InvokeModelWithResponseStream
                 invoke_model_with_response_stream (model_id r) (bed_params r);
       let '(events, aborted) := chat_generate_stream (model_name r) body in
       mret (Reply 200 (EventStream events aborted)))
      (λ e, match e with
            | AttributeError => Some (Reply 500 (ErrorBody (ErrStreamingUnsupported e)))
            | _ => Some (Reply 500 (ErrorBody (ErrStream e)))
            end)
  else
    bed_response ← call_backend InvokeModel invoke_model (model_id r) (bed_params r);
    content ← lift (extract_content bed_response);
    thinking_content ←
      lift (if reads_thinking r
            then extract_thinking bed_response
            else Ok (PStr ""));
    stop_reason ← lift (py_get bed_response "stop_reason" (PStr "stop"));
    prompt_text ← lift (cs ← contents message_list; s ← join_space cs; Ok (PStr s));
    u ← lift (token_usage prompt_text content thinking_content);
    mret (Reply 200 (ChatBody
      {| ch_model := model_name r;
         ch_content := log_response_info content;
         ch_finish_reason :=
           if eq_str stop_reason "stop" then PStr "stop" else stop_reason;
         ch_thinking :=
           if truthy thinking_content
           then Some (log_response_info thinking_content)
           else None;
         ch_usage := u |})).

Definition chat_completions (req : gmap string pyval) : reply * list event :=
  run (chat_completions_io req).

End Service.

(* ------------------------------------------------------------------ *)
(** ** Splitting a byte stream into lines

    [stream_iter_lines] (lines 168-179) takes an iterable of [bytes]
    chunks; a chunk is a list of bytes here and the stream the list of its
    chunks. *)

Definition NEWLINE : Byte.byte := Byte.x0a.

(** [buffer.find(b'\n')], with [None] for [-1]. *)
Fixpoint find_newline (buffer : list Byte.byte) : option nat :=
  match buffer with
  | [] => None
  | b :: rest =>
      if Byte.eqb b NEWLINE then Some 0 else S <$> find_newline rest
  end.

(** The loop [while True] of lines 172-177: the lines it yields and the
    buffer it leaves.  Every round that finds a newline shortens the
    buffer; [rounds] bounds the rounds, and the loop answers [None] when
    the bound is used up before the buffer is free of newlines. *)
Fixpoint split_buffer (rounds : nat) (buffer : list Byte.byte)
    : option (list (list Byte.byte) * list Byte.byte) :=
  match rounds with
  | 0 => None
  | S rounds =>
      match find_newline buffer with
      | None => Some ([], buffer)
      | Some newline_pos =>
          let line := take newline_pos buffer in
          let buffer := drop (S newline_pos) buffer in
          '(lines, buffer) ← split_buffer rounds buffer;
          Some (line :: lines, buffer)
      end
  end.

(** The loop over the chunks, from a given buffer; the inner loop gets one
    round more than the buffer has bytes. *)
Fixpoint stream_iter_from (stream : list (list Byte.byte)) (buffer : list Byte.byte)
    : option (list (list Byte.byte)) :=
  match stream with
  | [] => Some (match buffer with [] => [] | _ => [buffer] end)
  | chunk :: rest =>
      let buffer := buffer ++ chunk in
      '(lines, buffer) ← split_buffer (S (length buffer)) buffer;
      more ← stream_iter_from rest buffer;
      Some (lines ++ more)
  end.

Definition stream_iter_lines (stream : list (list Byte.byte))
    : option (list (list Byte.byte)) :=
  stream_iter_from stream [].

(* ------------------------------------------------------------------ *)
(** ** Observations on logs, bodies and replies *)

Definition calls (t : list event) : list (backend_op * string * gmap string pyval) :=
  flat_map (λ e, match e with
                 | Call op modelId body => [(op, modelId, body)]
                 | Sleep _ => []
                 end) t.

Definition sleeps (t : list event) : list Q :=
  flat_map (λ e, match e with
                 | Call _ _ _ => []
                 | Sleep d => [d]
                 end) t.

Definition attempts (t : list event) : nat := length (calls t).

(** The bodies the backend received, in order. *)
Definition sent_bodies (t : list event) : list (gmap string pyval) :=
  (λ c, c.2) <$> calls t.

(** [body['thinking']['budget_tokens']]. *)
Definition budget_tokens (body : gmap string pyval) : option pyval :=
  match body !! "thinking" with
  | Some (PDict thinking) => thinking !! "budget_tokens"
  | _ => None
  end.

(** The delay before retry [k]. *)
Definition delay (uniform : nat → Q) (k : nat) : Q :=
  Qmin MAX_DELAY (float_add (BASE_DELAY * inject_Z (2 ^ Z.of_nat k)) (uniform k)).

(** The backend answered with the error code the loop retries on. *)
Definition throttled {A} (o : outcome A) : bool :=
  match o with
  | Fails (ClientError code _) => String.eqb code "ThrottlingException"
  | _ => false
  end.

(** What [invoke_with_retry] makes of the answer it stops on. *)
Definition settled {A} (o : outcome A) : res (option A) :=
  match o with
  | Returns response => Ok (Some response)
  | Fails e => Raise e
  end.

(** [n] throttled attempts from attempt [k] on, each followed by its
    sleep. *)
Definition backoff (uniform : nat → Q) (op : backend_op) (modelId : string)
    (body : gmap string pyval) (k n : nat) : list event :=
  flat_map (λ i, [Call op modelId body; Sleep (delay uniform i)]) (seq k n).


(** The [data: [DONE]] sentinel, and how many of them a stream holds. *)
Definition is_done (e : sse) : bool :=
  match e with SseDone => true | _ => false end.

Definition count_done (events : list sse) : nat :=
  length (filter (λ e, is_done e = true) events).

(** A frame that bears a stop reason for the chat stream: a
    [message_delta] frame whose [delta] has a non-empty [stop_reason], or
    a frame without a type tag and with a non-empty [stop_reason]. *)
Definition carries_stop (chunk : pyval) : bool :=
  match chunk with
  | PDict d =>
      let event_type := dict_get d "type" (PStr "") in
      if eq_str event_type "content_block_delta" then false
      else if eq_str event_type "message_delta"
      then match dict_get d "delta" (PDict ∅) with
           | PDict delta => truthy (dict_get delta "stop_reason" PNone)
           | _ => false
           end
      else if negb (truthy event_type)
      then truthy (dict_get d "stop_reason" PNone)
      else false
  | _ => false
  end.

(** A [content_block_delta] frame with a [text_delta] of [text]; other
    fields of the frame and of its delta are free. *)
Definition text_delta_frame (chunk : pyval) (text : string) : Prop :=
  ∃ d delta,
    chunk = PDict d
    ∧ d !! "type" = Some (PStr "content_block_delta")
    ∧ d !! "delta" = Some (PDict delta)
    ∧ delta !! "type" = Some (PStr "text_delta")
    ∧ delta !! "text" = Some (PStr text).

(** A [message_delta] frame whose delta has [stop_reason]. *)
Definition message_delta_frame (chunk : pyval) (stop_reason : string) : Prop :=
  ∃ d delta,
    chunk = PDict d
    ∧ d !! "type" = Some (PStr "message_delta")
    ∧ d !! "delta" = Some (PDict delta)
    ∧ delta !! "stop_reason" = Some (PStr stop_reason).


(** The body [invoke_with_retry] hands to the backend for [body]. *)
Definition dispatched (DEBUG_MODE : bool) (int_of_str : string → option Z)
    (modelId : string) (body : gmap string pyval) : gmap string pyval :=
  if DEBUG_MODE then debug_body int_of_str modelId body else body.

(** A request whose [model] is a string and whose [max_tokens] is an
    integer, each given or left to its default. *)
Definition typed_request (req : gmap string pyval) (m : string) (n : Z) : Prop :=
  dict_get req "model" (PStr "claude-3-7-sonnet") = PStr m
  ∧ dict_get req "max_tokens" (PInt DEFAULT_MAX_TOKENS) = PInt n.

(** None of the three budget fields holds a value that counts as given. *)
Definition no_budget_field (req : gmap string pyval) : Prop :=
  truthy (dict_get req "max_thinking_tokens" PNone) = false
  ∧ truthy (dict_get req "thinking_max_tokens" PNone) = false
  ∧ truthy (dict_get req "max_thinking_length" PNone) = false.

(** The budget the handlers compute when the request names none: half of
    [max_tokens] but at least 4000, replaced by 80% of [max_tokens] when it
    does not stay below [max_tokens]. *)
Definition default_budget (max_tokens : Z) : Z :=
  let half := Z.max 4000 (int_half max_tokens) in
  if (max_tokens <=? half)%Z then int_08 max_tokens else half.

(** The default budget as the specification words it:
    [max(1024, min(floor(0.8 * maxTokens), maxTokens - 1))]. *)
Definition specified_default_budget (max_tokens : Z) : Z :=
  Z.max 1024 (Z.min (4 * max_tokens / 5) (max_tokens - 1)).

(** A prompt [/v1/completions] accepts: a string with more than
    whitespace. *)
Definition accepted_prompt (req : gmap string pyval) (p : string) : Prop :=
  dict_get req "prompt" PNone = PStr p ∧ strip p ≠ "".

Definition whitespace_only (s : string) : Prop :=
  Forall (λ c, is_space c = true) (String.list_ascii_of_string s).

(** A message the chat handler can inspect, and whether it has content. *)
Definition readable (msg : pyval) : Prop := ∃ b, has_content msg = Ok b.

Definition filled (msg : pyval) : bool :=
  match has_content msg with
  | Ok b => b
  | Raise _ => false
  end.

(** The messages the chat handler keeps: those with content, and the last
    one also when it comes from the assistant. *)
Definition kept_messages (messages : list pyval) : list pyval :=
  filter (λ m, filled m = true) (removelast messages)
  ++ match last messages with
     | Some m => if filled m || role_is "assistant" m then [m] else []
     | None => []
     end.

(** Messages [/v1/chat/completions] accepts: a list of readable messages,
    one of them from the user and with content. *)
Definition accepted_messages (req : gmap string pyval) (messages : list pyval) : Prop :=
  dict_get req "messages" (PList []) = PList messages
  ∧ Forall readable messages
  ∧ Exists (λ m, role_is "user" m = true ∧ filled m = true) messages.

(** Token counts that add up, with the thinking count read from the
    [thinking_tokens] field when the reply has one. *)
Definition usage_adds_up (u : usage) : Prop :=
  total_tokens u = prompt_tokens u + completion_tokens u + default 0 (thinking_tokens u).

(** [replies P Q m]: when [m] returns a reply early the reply satisfies
    [P], and when it yields a value the value satisfies [Q]. *)
Definition replies {A} (P : reply → Prop) (Q : A → Prop) (m : io A) : Prop :=
  match m.1 with
  | Val a => Q a
  | Return r => P r
  | Throw _ => True
  end.

(** A reply as a property of a non-streaming success body: its token
    counts add up, and it has the [thinking_tokens] field exactly when it
    has thinking content. *)
Definition usage_consistent (r : reply) : Prop :=
  match r with
  | Reply _ (CompletionBody c) =>
      usage_adds_up (cr_usage c)
      ∧ (is_Some (thinking_tokens (cr_usage c)) ↔ is_Some (cr_thinking c))
  | Reply _ (ChatBody c) =>
      usage_adds_up (ch_usage c)
      ∧ (is_Some (thinking_tokens (ch_usage c)) ↔ is_Some (ch_thinking c))
  | _ => True
  end.

(** *** Lines of a byte stream *)

(** The bytes of [lines], each line closed by a newline. *)
Definition terminated (lines : list (list Byte.byte)) : list Byte.byte :=
  concat ((λ line, line ++ [NEWLINE]) <$> lines).

(** The lines of a byte sequence: a newline closes a line, and bytes after
    the last newline make a last line. *)
Fixpoint lines_of (bytes : list Byte.byte) : list (list Byte.byte) :=
  match bytes with
  | [] => []
  | b :: rest =>
      if Byte.eqb b NEWLINE then [] :: lines_of rest
      else match lines_of rest with
           | [] => [[b]]
           | line :: lines => (b :: line) :: lines
           end
  end.

(** *** The validator *)

(** The validator's test for the thinking alias (lines 193-204): under
    [_model_name], or under [model] in a body that has a list of
    [messages]. *)
Definition model_is_thinking (params : gmap string pyval) : bool :=
  if dict_has params "_model_name"
     && eq_str (dict_get params "_model_name" PNone) "claude-3-7-sonnet-thinking"
  then true
  else if dict_has params "messages" && is_list (dict_get params "messages" PNone)
  then dict_has params "model"
       && eq_str (dict_get params "model" PNone) "claude-3-7-sonnet-thinking"
  else false.

(** The token limit the validator reads from a body, where it is an
    integer, is in the range where the products of the model are those of
    the code. *)
Definition max_tokens_exact (int_of_str : string → option Z)
    (params : gmap string pyval) : Prop :=
  ∀ n, py_int int_of_str (dict_get params "max_tokens" (PInt DEFAULT_MAX_TOKENS))
       = Some n →
       (n < EXACT_LIMIT)%Z.

(** A body with reasoning on as Bedrock takes it: the [thinking] entry has
    type [enabled] and an integer budget of at least 1024, [max_tokens]
    (4096 where the body has none) is above the budget, and there is no
    [top_p]. *)
Definition thinking_well_formed (int_of_str : string → option Z)
    (body : gmap string pyval) : Prop :=
  ∃ thinking b,
    body !! "thinking" = Some (PDict thinking)
    ∧ thinking !! "type" = Some (PStr "enabled")
    ∧ thinking !! "budget_tokens" = Some (PInt b)
    ∧ (1024 ≤ b)%Z
    ∧ body !! "top_p" = None
    ∧ match body !! "max_tokens" with
      | Some v => ∃ m, py_int int_of_str v = Some m ∧ (b < m)%Z
      | None => (b < DEFAULT_MAX_TOKENS)%Z
      end.

(** *** Sleeps, streams and payloads *)

(** The seconds a log spends asleep. *)
Definition total_sleep (t : list event) : Q := foldr Qplus 0%Q (sleeps t).

(** A backend frame with a non-empty [stop_reason] at its top level. *)
Definition bears_stop_reason (chunk : pyval) : bool :=
  match chunk with
  | PDict d => truthy (dict_get d "stop_reason" PNone)
  | _ => false
  end.

(** An event that carries something: a text or thinking chunk has a
    non-empty text, a chunk with an empty delta has a finish reason. *)
Definition substantial (e : sse) : Prop :=
  match e with
  | SseText c => truthy (tchunk_text c) = true
  | SseChat c =>
      match chunk_delta c with
      | DContent text | DThinking text => truthy text = true
      | DEmpty => truthy (chunk_finish_reason c) = true
      end
  | SseDone => True
  end.

(** A block of a [content] list: an object whose [text], when its type
    is [text], and whose [thinking], when its type is [thinking], is a
    string. *)
Definition content_block (item : pyval) : Prop :=
  ∃ d, item = PDict d
    ∧ (eq_str (dict_get d "type" PNone) "text" = true →
       ∃ s, dict_get d "text" (PStr "") = PStr s)
    ∧ (eq_str (dict_get d "type" PNone) "thinking" = true →
       ∃ s, dict_get d "thinking" (PStr "") = PStr s).

(** The text a block of type [text] holds, and the thinking a block of
    type [thinking] holds. *)
Definition block_text (item : pyval) : option string :=
  match item with
  | PDict d =>
      if eq_str (dict_get d "type" PNone) "text"
      then match dict_get d "text" (PStr "") with PStr s => Some s | _ => None end
      else None
  | _ => None
  end.

Definition block_thinking (item : pyval) : option string :=
  match item with
  | PDict d =>
      if eq_str (dict_get d "type" PNone) "thinking"
      then match dict_get d "thinking" (PStr "") with PStr s => Some s | _ => None end
      else None
  | _ => None
  end.

(** *** Requests and replies *)

(** The HTTP status of a reply, and whether its body is an error
    object. *)
Definition status (r : reply) : nat := match r with Reply s _ => s end.

Definition is_error (r : reply) : bool :=
  match r with Reply _ (ErrorBody _) => true | _ => false end.

(** Neither beta feature of Claude 3.7 is asked for. *)
Definition no_beta_feature (req : gmap string pyval) : Prop :=
  truthy (dict_get req "enable_extended_output" (PBool false)) = false
  ∧ truthy (dict_get req "enable_computer_use" (PBool false)) = false.

(** The body for a request without reasoning and beta features, before
    [stop_sequences]: [max_tokens] capped at [MAX_OUTPUT_TOKENS],
    [temperature] and [top_p] as given or 1. *)
Definition plain_params (req : gmap string pyval) (max_tokens : Z)
    (messages : list pyval) : gmap string pyval :=
  <["top_p" := dict_get req "top_p" (PInt 1)]>
    {[ "anthropic_version" := PStr "bedrock-2023-05-31";
       "max_tokens" := PInt (Z.min max_tokens MAX_OUTPUT_TOKENS);
       "temperature" := dict_get req "temperature" (PInt 1);
       "messages" := PList messages ]}.

(** The message [/v1/completions] makes of a prompt. *)
Definition prompt_message (prompt : string) : pyval :=
  PDict {[ "role" := PStr "user"; "content" := PStr prompt ]}.

(** The budget a request names: the first of [max_thinking_tokens],
    [thinking_max_tokens] and [max_thinking_length] with a value that
    counts as given. *)
Definition given_budget (req : gmap string pyval) : option pyval :=
  if truthy (dict_get req "max_thinking_tokens" PNone)
  then Some (dict_get req "max_thinking_tokens" PNone)
  else if truthy (dict_get req "thinking_max_tokens" PNone)
  then Some (dict_get req "thinking_max_tokens" PNone)
  else if truthy (dict_get req "max_thinking_length" PNone)
  then Some (dict_get req "max_thinking_length" PNone)
  else None.

(** A named budget fitted to [max_tokens]: raised to 1024, and replaced
    by 80% of [max_tokens] when it does not stay below [max_tokens]. *)
Definition fitted_budget (budget max_tokens : Z) : Z :=
  let budget := Z.max 1024 budget in
  if (max_tokens <=? budget)%Z then int_08 max_tokens else budget.

(** How a handler may answer: with an error and status 400 before any
    backend call, with an error and status 500, or with status 200 and
    no error after at least one backend call; never with more than
    [MAX_RETRIES + 1] calls. *)
Definition well_answered (x : reply * list event) : Prop :=
  attempts x.2 ≤ S MAX_RETRIES
  ∧ ((status x.1 = 400 ∧ is_error x.1 = true ∧ x.2 = [])
     ∨ (status x.1 = 500 ∧ is_error x.1 = true)
     ∨ (status x.1 = 200 ∧ is_error x.1 = false ∧ 1 ≤ attempts x.2)).



(** A message whose content is a list, as multimodal clients send it. *)
Definition list_content (msg : pyval) : Prop :=
  ∃ d items, msg = PDict d ∧ d !! "content" = Some (PList items).

Definition is_chat_body (r : reply) : bool :=
  match r with Reply _ (ChatBody _) => true | _ => false end.

(** The error code the retry loop retries on. *)
Definition is_throttling (e : exn) : bool :=
  match e with
  | ClientError code _ => String.eqb code "ThrottlingException"
  | _ => false
  end.

(** [quiet P Q m]: [m] makes no backend call, a reply it returns early
    satisfies [P] and a value it yields satisfies [Q]. *)
Definition quiet {A} (P : reply → Prop) (Q : A → Prop) (m : io A) : Prop :=
  m.2 = [] ∧ replies P Q m.

(** A reply with a given status that is, or is not, an error. *)
Definition answers_with (code : nat) (error : bool) (r : reply) : Prop :=
  status r = code ∧ is_error r = error.

(* ------------------------------------------------------------------ *)
(** ** Sample requests and backends *)

(** An item of a content list that [any] passes over: an object that is
    not a text block with text. *)
Definition passed_over (item : pyval) : Prop :=
  ∃ d, item = PDict d
       ∧ (dict_get d "type" PNone ≠ PStr "text"
          ∨ truthy (dict_get d "text" (PStr "")) = false).

(** A content the chat handler cannot read: a number other than 0,
    [True], an object that is not empty, or a list in which an item that
    is not an object comes before every text block with text. *)
Definition ill_formed_content (content : pyval) : Prop :=
  match content with
  | PNone | PStr _ => False
  | PBool b => b = true
  | PInt z => z ≠ 0%Z
  | PDict d => d ≠ ∅
  | PList items =>
      ∃ before item after,
        items = before ++ item :: after
        ∧ Forall passed_over before
        ∧ ∀ d, item ≠ PDict d
  end.

(** A message the chat handler cannot read: not an object, or an object
    with such a content. *)
Definition ill_formed_message (msg : pyval) : Prop :=
  match msg with
  | PDict d => ill_formed_content (dict_get d "content" (PStr ""))
  | _ => True
  end.

Module Sample.

(** Stand-ins for the environment: an [int] that parses nothing, a [str]
    that prints nothing, a tokenizer that counts characters, a jitter of
    half a second. *)
Definition int_of_str : string → option Z := λ _, None.
Definition str_of : pyval → string := λ _, "".
Definition encode_length : string → option nat := λ s, Some (String.length s).
Definition jitter : nat → Q := λ _, (1 # 2)%Q.

(** The largest value of [random.uniform(0, 1)]: [1 - 2^-53]. *)
Definition late_jitter : nat → Q := λ _, (1 - (1 # 9007199254740992))%Q.

Definition text_block (s : string) : pyval :=
  PDict {[ "type" := PStr "text"; "text" := PStr s ]}.

(** A backend that answers every call with the text [hello]. *)
Definition answers : nat → string → gmap string pyval → outcome pyval :=
  λ _ _ _, Returns (PDict {[ "content" := PList [text_block "hello"];
                             "stop_reason" := PStr "end_turn" ]}).

(** A backend that answers with a thinking block and the text [hello]. *)
Definition answers_with_thinking : nat → string → gmap string pyval → outcome pyval :=
  λ _ _ _, Returns (PDict {[ "content" :=
                               PList [PDict {[ "type" := PStr "thinking";
                                               "thinking" := PStr "hm" ]};
                                      text_block "hello"];
                             "stop_reason" := PStr "end_turn" ]}).

Definition streams_nothing : nat → string → gmap string pyval → outcome (list pyval) :=
  λ _ _ _, Returns [].

Definition throttling : exn := ClientError "ThrottlingException" "Too many requests".

(** A backend that throttles every call, and one that throttles the
    first two calls and then answers. *)
Definition always_throttled : nat → string → gmap string pyval → outcome pyval :=
  λ _ _ _, Fails throttling.

Definition throttled_twice : nat → string → gmap string pyval → outcome pyval :=
  λ k modelId body, if k <? 2 then Fails throttling else answers k modelId body.

Definition user_message (s : string) : pyval :=
  PDict {[ "role" := PStr "user"; "content" := PStr s ]}.

Definition assistant_message (s : string) : pyval :=
  PDict {[ "role" := PStr "assistant"; "content" := PStr s ]}.

(** A request body good for both handlers: the thinking alias, a prompt
    and one user message, and [max_tokens]. *)
Definition thinking_request (max_tokens : Z) : gmap string pyval :=
  {[ "model" := PStr "claude-3-7-sonnet-thinking";
     "prompt" := PStr "hi";
     "messages" := PList [user_message "hi"];
     "max_tokens" := PInt max_tokens ]}.

(** The same for Claude 3 Opus, with [thinking: true] and a [top_p]. *)
Definition opus_request : gmap string pyval :=
  {[ "model" := PStr "claude-3-opus";
     "prompt" := PStr "hi";
     "messages" := PList [user_message "hi"];
     "thinking" := PBool true;
     "top_p" := PInt 1 ]}.

(** A budget field that is no number. *)
Definition malformed_budget_request : gmap string pyval :=
  <["max_thinking_tokens" := PStr "abc"]> (thinking_request 4096).

(** A Claude 3.7 request whose [thinking] object carries a budget that
    is no number. *)
Definition thinking_object_request (max_tokens : Z) : gmap string pyval :=
  {[ "model" := PStr "claude-3-7-sonnet";
     "prompt" := PStr "hi";
     "messages" := PList [user_message "hi"];
     "max_tokens" := PInt max_tokens;
     "thinking" := PDict {[ "type" := PStr "enabled";
                            "budget_tokens" := PStr "abc" ]} ]}.

(** [n] spaces, and a chat request whose only message is 201 spaces from
    the user. *)
Definition spaces (n : nat) : string :=
  foldr String EmptyString (replicate n (Ascii.ascii_of_nat 32)).

Definition long_blank_request : gmap string pyval :=
  {[ "messages" := PList [user_message (spaces 201)] ]}.

(** A request with a blank prompt and without a user message that has
    content. *)
Definition blank_request : gmap string pyval :=
  {[ "prompt" := PStr "  ";
     "messages" := PList [user_message " "; assistant_message ""] ]}.

Definition text_delta (s : string) : pyval :=
  PDict {[ "type" := PStr "content_block_delta";
           "index" := PInt 0;
           "delta" := PDict {[ "type" := PStr "text_delta"; "text" := PStr s ]} ]}.

Definition message_delta (stop_reason : string) : pyval :=
  PDict {[ "type" := PStr "message_delta";
           "delta" := PDict {[ "stop_reason" := PStr stop_reason ]} ]}.

(** What a list of sent bodies says about the thinking configuration. *)
Definition summary (bodies : list (gmap string pyval))
    : list (option pyval * option pyval * option pyval) :=
  (λ body, (body !! "max_tokens", budget_tokens body, body !! "top_p")) <$> bodies.

Definition thinking_block (s : string) : pyval :=
  PDict {[ "type" := PStr "thinking"; "thinking" := PStr s ]}.

(** A request for Claude 3 Haiku, good for both handlers, with a stop
    word and a [max_tokens] above the cap. *)
Definition haiku_request : gmap string pyval :=
  {[ "model" := PStr "claude-3-haiku";
     "prompt" := PStr "hi";
     "messages" := PList [user_message "hi"];
     "max_tokens" := PInt 200000;
     "stop" := PStr "END" ]}.

(** The same with [stream] set. *)
Definition haiku_stream_request : gmap string pyval :=
  <["stream" := PBool true]> haiku_request.

(** The body both handlers build for [haiku_request]; the chat handler
    puts [stop] in a list. *)
Definition haiku_body (stop : pyval) : gmap string pyval :=
  {[ "anthropic_version" := PStr "bedrock-2023-05-31";
     "max_tokens" := PInt 128000;
     "temperature" := PInt 1;
     "messages" := PList [user_message "hi"];
     "top_p" := PInt 1;
     "stop_sequences" := stop ]}.

(** An error the retry loop does not retry, and backends that answer
    every call with it. *)
Definition rejected : exn := ClientError "ValidationException" "Malformed input request".

Definition rejects : nat → string → gmap string pyval → outcome pyval :=
  λ _ _ _, Fails rejected.

Definition rejects_stream : nat → string → gmap string pyval → outcome (list pyval) :=
  λ _ _ _, Fails rejected.

(** A request that names a budget above its [max_tokens]. *)
Definition budget_request : gmap string pyval :=
  <["max_thinking_tokens" := PInt 5000]> (thinking_request 4096).

(** A chat request whose message has a list as content, one whose
    message is a bare string, and a completion request whose prompt is a
    number. *)
Definition list_content_message : pyval :=
  PDict {[ "role" := PStr "user"; "content" := PList [text_block "hi"] ]}.

Definition list_content_request : gmap string pyval :=
  {[ "messages" := PList [list_content_message] ]}.

Definition bare_string_request : gmap string pyval :=
  {[ "messages" := PList [PStr "hi"] ]}.

Definition numeric_prompt_request : gmap string pyval :=
  {[ "prompt" := PInt 5 ]}.

(** Chat requests whose message has a list as content with an item that
    is not an object, before the text block and after it. *)
Definition number_first_request : gmap string pyval :=
  {[ "messages" :=
       PList [PDict {[ "role" := PStr "user";
                       "content" := PList [PInt 5; text_block "hi"] ]}] ]}.

Definition number_last_request : gmap string pyval :=
  {[ "messages" :=
       PList [PDict {[ "role" := PStr "user";
                       "content" := PList [text_block "hi"; PInt 5] ]}] ]}.

(** Bodies for the validator: one that names the thinking alias, one
    that switches reasoning off with [thinking: false]. *)
Definition alias_body : gmap string pyval :=
  {[ "_model_name" := PStr "claude-3-7-sonnet-thinking";
     "max_tokens" := PInt 10000 ]}.

Definition disabled_thinking_body : gmap string pyval :=
  {[ "thinking" := PBool false;
     "top_p" := PInt 1;
     "max_tokens" := PInt 100;
     "temperature" := PInt 1 ]}.

(** A body without reasoning. *)
Definition plain_body : gmap string pyval :=
  {[ "max_tokens" := PInt 100; "top_p" := PInt 1 ]}.

(** A legacy frame with a text and a stop reason. *)
Definition stop_frame : pyval :=
  PDict {[ "delta" := PDict {[ "text" := PStr "Hi" ]};
           "stop_reason" := PStr "end_turn" ]}.

(** The bytes [ab\nc] and [d\n\ne]: one stream cut in two chunks. *)
Definition first_chunk : list Byte.byte := [Byte.x61; Byte.x62; Byte.x0a; Byte.x63].
Definition second_chunk : list Byte.byte := [Byte.x64; Byte.x0a; Byte.x0a; Byte.x65].

End Sample.

(* ------------------------------------------------------------------ *)
(** ** Basic facts *)

Lemma dict_get_Some (d : gmap string pyval) k v dflt :
  d !! k = Some v → dict_get d k dflt = v.
Proof. unfold dict_get. by intros ->. Qed.

Lemma dict_get_None (d : gmap string pyval) k dflt :
  d !! k = None → dict_get d k dflt = dflt.
Proof. unfold dict_get. by intros ->. Qed.


Lemma truthy_dict_lookup (d : gmap string pyval) k v :
  d !! k = Some v → truthy (PDict d) = true.
Proof.
  intros Hk. cbn. apply negb_true_iff, Nat.eqb_neq.
  intros Hsize. apply map_size_empty_iff in Hsize. subst d.
  by rewrite lookup_empty in Hk.
Qed.

Lemma dict_has_true (d : gmap string pyval) k v :
  d !! k = Some v → dict_has d k = true.
Proof. unfold dict_has. by intros ->. Qed.

Lemma dict_has_false (d : gmap string pyval) k :
  d !! k = None → dict_has d k = false.
Proof. unfold dict_has. by intros ->. Qed.


(** The model on small inputs. *)

Example strip_inner_space : strip "  a b  " = "a b".
Proof. reflexivity. Qed.

Example strip_tabs_and_newlines :
  strip (String (Ascii.ascii_of_nat 9) (String (Ascii.ascii_of_nat 10) "")) = "".
Proof. reflexivity. Qed.

Example contains_alias : contains "claude-3-7" "claude-3-7-sonnet-thinking" = true.
Proof. reflexivity. Qed.

Example contains_other_alias : contains "claude-3-7" "claude-3-5-sonnet" = false.
Proof. reflexivity. Qed.

Example reverse_lookup_first_alias :
  reverse_lookup DEFAULT_MODEL_ID MODEL_MAPPING = "claude-3-7-sonnet".
Proof. reflexivity. Qed.

(** The three shapes of a backend payload. *)
Example extract_content_list :
  extract_content Sample.str_of
    (PDict {[ "content" := PList [Sample.text_block "Hel"; Sample.text_block "lo"] ]})
  = Ok (PStr "Hello").
Proof. reflexivity. Qed.

Example extract_content_completion :
  extract_content Sample.str_of (PDict {[ "completion" := PStr "Hello" ]})
  = Ok (PStr "Hello").
Proof. reflexivity. Qed.

Example extract_content_bare :
  extract_content Sample.str_of (PDict {[ "content" := PStr "Hello" ]})
  = Ok (PStr "Hello").
Proof. reflexivity. Qed.

Example extract_thinking_blocks :
  extract_thinking
    (PDict {[ "content" :=
                PList [PDict {[ "type" := PStr "thinking"; "thinking" := PStr "a" ]};
                       PDict {[ "type" := PStr "thinking"; "thinking" := PStr "b" ]};
                       Sample.text_block "c"] ]})
  = Ok (PStr "a b").
Proof. reflexivity. Qed.

(** The branch of the validator that adds a [thinking] entry by itself
    needs the thinking alias under [_model_name]; it uses the budget
    [max(1024, min(int(0.8 * max_tokens), max_tokens - 1))]. *)
Example validate_adds_thinking :
  budget_tokens
    (validate_bedrock_request Sample.int_of_str
       {[ "_model_name" := PStr "claude-3-7-sonnet-thinking";
          "max_tokens" := PInt 10000 ]})
  = Some (PInt 8000).
Proof. reflexivity. Qed.

(** A legacy frame on both streams. *)
Example legacy_frame_on_completions :
  completions_generate_stream
    [PDict {[ "delta" := PDict {[ "text" := PStr "Hi" ]};
              "stop_reason" := PStr "end_turn" ]}]
  = ([SseText {| tchunk_text := PStr "Hi";
                 tchunk_finish_reason := PStr "end_turn" |}], None).
Proof. reflexivity. Qed.

Example legacy_frame_on_chat :
  chat_generate_stream (PStr "claude-2")
    [PDict {[ "delta" := PDict {[ "text" := PStr "Hi" ]};
              "stop_reason" := PStr "end_turn" ]}]
  = ([chat_event (PStr "claude-2") (DContent (PStr "Hi")) (PStr "end_turn"); SseDone],
     None).
Proof. reflexivity. Qed.
(* ------------------------------------------------------------------ *)
(** ** Rounding to binary64 *)

Section Floats.

Lemma round_half_even_comp q1 q2 : (q1 == q2)%Q → round_half_even q1 = round_half_even q2.
Proof.
  intros H. unfold round_half_even. rewrite (Qfloor_comp _ _ H).
  assert ((q1 - inject_Z (Qfloor q2) ?= 1 # 2)%Q = (q2 - inject_Z (Qfloor q2) ?= 1 # 2)%Q)
    as ->; [|done].
  apply Qcompare_comp; [by rewrite H|reflexivity].
Qed.

Lemma round_half_even_cases q :
  (round_half_even q = Qfloor q ∧ (q - inject_Z (Qfloor q) <= 1 # 2)%Q)
  ∨ (round_half_even q = (Qfloor q + 1)%Z ∧ (1 # 2 <= q - inject_Z (Qfloor q))%Q).
Proof.
  unfold round_half_even.
  destruct (Qcompare_spec (q - inject_Z (Qfloor q)) (1 # 2)) as [H|H|H].
  - destruct (Z.even (Qfloor q)); [left|right]; (split; [done|]); rewrite H; apply Qle_refl.
  - left. split; [done|]. by apply Qlt_le_weak.
  - right. split; [done|]. by apply Qlt_le_weak.
Qed.

Lemma round_half_even_near q :
  (q - (1 # 2) <= inject_Z (round_half_even q))%Q
  ∧ (inject_Z (round_half_even q) <= q + (1 # 2))%Q.
Proof.
  pose proof (Qfloor_le q) as Hf. pose proof (Qlt_floor q) as Hc.
  rewrite inject_Z_plus in Hc. change (inject_Z 1) with 1%Q in Hc.
  destruct (round_half_even_cases q) as [[-> H]|[-> H]].
  - split; lra.
  - rewrite inject_Z_plus. change (inject_Z 1) with 1%Q. split; lra.
Qed.

Lemma round_half_even_above q z : (inject_Z z <= q)%Q → (z ≤ round_half_even q)%Z.
Proof.
  intros H. apply Qfloor_resp_le in H. rewrite Qfloor_Z in H.
  destruct (round_half_even_cases q) as [[-> _]|[-> _]]; lia.
Qed.

Lemma round_half_even_below q z : (q <= inject_Z z)%Q → (round_half_even q ≤ z)%Z.
Proof.
  intros H. pose proof (Qfloor_le q) as Hf.
  destruct (round_half_even_cases q) as [[-> _]|[-> Hh]].
  - rewrite Zle_Qle. lra.
  - assert (inject_Z (Qfloor q) < inject_Z z)%Q as Hlt by lra.
    rewrite <- Zlt_Qlt in Hlt. lia.
Qed.

Lemma Qfloor_unique x z :
  (inject_Z z <= x)%Q → (x < inject_Z z + 1)%Q → Qfloor x = z.
Proof.
  intros H1 H2. apply Qfloor_resp_le in H1 as H1'. rewrite Qfloor_Z in H1'.
  pose proof (Qfloor_le x) as Hf.
  assert (inject_Z (Qfloor x) < inject_Z (z + 1))%Q as Hlt.
  { rewrite inject_Z_plus. change (inject_Z 1) with 1%Q. lra. }
  rewrite <- Zlt_Qlt in Hlt. lia.
Qed.

Lemma binade_comp x y : (x == y)%Q → binade x = binade y.
Proof.
  intros H. unfold binade. cbv zeta.
  assert (Qabs x == Qabs y)%Q as Ha by (by rewrite H).
  assert (Qle_bool 1 (Qabs x) = Qle_bool 1 (Qabs y)) as ->.
  { apply eq_true_iff_eq. rewrite !Qle_bool_iff. by rewrite Ha. }
  rewrite (Qfloor_comp _ _ Ha).
  assert (/ Qabs x == / Qabs y)%Q as Hi by (by rewrite Ha).
  by rewrite (Qceiling_comp _ _ Hi).
Qed.

Lemma float_round_comp x y : (x == y)%Q → (float_round x == float_round y)%Q.
Proof.
  intros H. unfold float_round, ulp. rewrite (binade_comp _ _ H).
  set (u := Qpower 2 _).
  assert (x / u == y / u)%Q as Hd by (by rewrite H).
  by rewrite (round_half_even_comp _ _ Hd).
Qed.

Lemma int_of_float_comp x y : (x == y)%Q → int_of_float x = int_of_float y.
Proof.
  intros H. unfold int_of_float.
  assert (Qle_bool 0 x = Qle_bool 0 y) as ->.
  { apply eq_true_iff_eq. rewrite !Qle_bool_iff. by rewrite H. }
  by rewrite (Qfloor_comp _ _ H), (Qceiling_comp _ _ H).
Qed.

(** In the normal range above 1 the grid of [x] has an integer number [g]
    of points per unit, at least [2^52 / x]. *)
Lemma float_round_normal x :
  (1 <= x)%Q → (x < inject_Z (2 ^ 53))%Q →
  ∃ g : Z, (0 < g)%Z
    ∧ (inject_Z (2 ^ 52) <= x * inject_Z g)%Q
    ∧ (float_round x == inject_Z (round_half_even (x * inject_Z g)) / inject_Z g)%Q.
Proof.
  intros H1 H53.
  assert (binade x = Z.log2 (Qfloor x)) as Hb.
  { unfold binade. cbv zeta.
    assert (Qabs x == x)%Q as Ha by (apply Qabs_pos; lra).
    assert (Qle_bool 1 (Qabs x) = true) as ->.
    { apply Qle_bool_iff. by rewrite Ha. }
    by rewrite (Qfloor_comp _ _ Ha). }
  assert (1 ≤ Qfloor x)%Z as Hfl.
  { apply Qfloor_resp_le in H1. exact H1. }
  assert (Qfloor x < 2 ^ 53)%Z as Hfu.
  { rewrite Zlt_Qlt. pose proof (Qfloor_le x). lra. }
  set (e := Z.log2 (Qfloor x)) in *.
  assert (0 ≤ e)%Z as He0 by apply Z.log2_nonneg.
  assert (e < 53)%Z as He53 by (apply Z.log2_lt_pow2; lia).
  destruct (Z.log2_spec (Qfloor x)) as [Hlo _]; [lia|]. fold e in Hlo.
  set (g := (2 ^ (52 - e))%Z).
  assert (0 < g)%Z as Hg by (apply Z.pow_pos_nonneg; lia).
  assert (0 < inject_Z g)%Q as HgQ.
  { change 0%Q with (inject_Z 0). by rewrite <- Zlt_Qlt. }
  assert (ulp x == / inject_Z g)%Q as Hu.
  { unfold ulp. rewrite Hb. rewrite Z.max_l by lia.
    replace (e - 52)%Z with (- (52 - e))%Z by lia.
    rewrite Qpower_opp. unfold g. rewrite Zpower_Qpower by lia. reflexivity. }
  exists g. split; [done|]. split.
  - assert (inject_Z (2 ^ e) <= x)%Q as Hx.
    { pose proof (Qfloor_le x). rewrite Zle_Qle in Hlo. lra. }
    assert (2 ^ 52 = 2 ^ e * g)%Z as ->.
    { unfold g. rewrite <- Z.pow_add_r by lia. f_equal. lia. }
    rewrite inject_Z_mult. apply Qmult_le_compat_r; [done|by apply Qlt_le_weak].
  - unfold float_round.
    assert (x / ulp x == x * inject_Z g)%Q as Hd.
    { rewrite Hu. field. lra. }
    rewrite (round_half_even_comp _ _ Hd). rewrite Hu. reflexivity.
Qed.

(** Rounding does not cross an integer. *)
Lemma float_round_between x a b :
  (1 <= x)%Q → (x < inject_Z (2 ^ 53))%Q →
  (inject_Z a <= x)%Q → (x <= inject_Z b)%Q →
  (inject_Z a <= float_round x)%Q ∧ (float_round x <= inject_Z b)%Q.
Proof.
  intros H1 H53 Ha Hb.
  destruct (float_round_normal x H1 H53) as (g & Hg & _ & ->).
  assert (0 < inject_Z g)%Q as HgQ.
  { change 0%Q with (inject_Z 0). by rewrite <- Zlt_Qlt. }
  split.
  - apply Qle_shift_div_l; [done|]. rewrite <- inject_Z_mult. rewrite <- Zle_Qle.
    apply round_half_even_above. rewrite inject_Z_mult.
    apply Qmult_le_compat_r; [done|by apply Qlt_le_weak].
  - apply Qle_shift_div_r; [done|]. rewrite <- inject_Z_mult. rewrite <- Zle_Qle.
    apply round_half_even_below. rewrite inject_Z_mult.
    apply Qmult_le_compat_r; [done|by apply Qlt_le_weak].
Qed.

(** The relative error of rounding is at most [2^-53]. *)
Lemma float_round_near x :
  (1 <= x)%Q → (x < inject_Z (2 ^ 53))%Q →
  (float_round x <= x + x * (1 # 9007199254740992))%Q.
Proof.
  intros H1 H53.
  destruct (float_round_normal x H1 H53) as (g & Hg & Hgrid & ->).
  assert (0 < inject_Z g)%Q as HgQ.
  { change 0%Q with (inject_Z 0). by rewrite <- Zlt_Qlt. }
  destruct (round_half_even_near (x * inject_Z g)) as [_ Hn].
  apply Qle_shift_div_r; [done|].
  eapply Qle_trans; [exact Hn|].
  change (inject_Z (2 ^ 52)) with (4503599627370496 # 1)%Q in Hgrid.
  set (G := inject_Z g) in *.
  assert ((x + x * (1 # 9007199254740992)) * G
          == x * G + (x * G) * (1 # 9007199254740992))%Q as -> by ring.
  set (t := (x * G)%Q) in *. clearbody t. lra.
Qed.

(** Truncating a rounded number: the integer part survives rounding as
    long as the number stays a relative [2^-53] below the next integer. *)
Lemma int_of_float_round x q :
  (1 <= x)%Q → (x < inject_Z (2 ^ 53))%Q →
  (inject_Z q <= x)%Q → (x + x * (1 # 9007199254740992) < inject_Z q + 1)%Q →
  int_of_float (float_round x) = q.
Proof.
  intros H1 H53 Hq Hnext.
  destruct (float_round_between x 1 (2 ^ 53) H1 H53) as [Hone _]; [done|by apply Qlt_le_weak|].
  destruct (float_round_between x q (2 ^ 53) H1 H53) as [Hlow _]; [done|by apply Qlt_le_weak|].
  pose proof (float_round_near x H1 H53) as Hnear.
  unfold int_of_float.
  assert (Qle_bool 0 (float_round x) = true) as ->.
  { apply Qle_bool_iff. change (inject_Z 1) with 1%Q in Hone. lra. }
  apply Qfloor_unique; [done|]. by eapply Qle_lt_trans.
Qed.

Lemma FLOAT_08_value : (FLOAT_08 == 3602879701896397 # 4503599627370496)%Q.
Proof. vm_compute. reflexivity. Qed.

Lemma float_of_int_exact n :
  (1 ≤ n < 2 ^ 53)%Z → (float_of_int n == inject_Z n)%Q.
Proof.
  intros [Hn1 Hn2]. unfold float_of_int.
  destruct (float_round_between (inject_Z n) n n) as [Ha Hb].
  - change 1%Q with (inject_Z 1). by rewrite <- Zle_Qle.
  - by rewrite <- Zlt_Qlt.
  - apply Qle_refl.
  - apply Qle_refl.
  - by apply Qle_antisym.
Qed.

Lemma float_int_half_exact n :
  (0 ≤ n < 2 ^ 52)%Z → float_int_half n = int_half n.
Proof.
  intros [Hn0 Hn]. unfold float_int_half, true_divide, int_half.
  destruct (decide (n < 2)%Z) as [Hsmall|Hbig].
  { assert (n = 0 ∨ n = 1)%Z as [-> | ->] by lia; by vm_compute. }
  rewrite Z.quot_div_nonneg by lia.
  pose proof (Z.div_mod n 2 ltac:(lia)) as Hdm.
  pose proof (Z.mod_pos_bound n 2 ltac:(lia)) as Hr.
  set (q := (n / 2)%Z) in *. set (r := (n mod 2)%Z) in *.
  assert (inject_Z n == 2 * inject_Z q + inject_Z r)%Q as HQ.
  { rewrite Hdm at 1. rewrite inject_Z_plus, inject_Z_mult. reflexivity. }
  assert (0 <= inject_Z r)%Q as Hr0.
  { change 0%Q with (inject_Z 0). rewrite <- Zle_Qle. lia. }
  assert (inject_Z r <= 1)%Q as Hr1.
  { change 1%Q with (inject_Z 1). rewrite <- Zle_Qle. lia. }
  assert (2 <= inject_Z n)%Q as HnQ.
  { change 2%Q with (inject_Z 2). rewrite <- Zle_Qle. lia. }
  assert (inject_Z n < 4503599627370496 # 1)%Q as HnU.
  { change (4503599627370496 # 1)%Q with (inject_Z (2 ^ 52)). by rewrite <- Zlt_Qlt. }
  assert (inject_Z n / inject_Z 2 == inject_Z n * (1 # 2))%Q as Hx by reflexivity.
  rewrite (int_of_float_comp _ _ (float_round_comp _ _ Hx)).
  apply int_of_float_round;
    change (inject_Z (2 ^ 53)) with (9007199254740992 # 1)%Q;
    set (N := inject_Z n) in *; set (Qq := inject_Z q) in *; set (R := inject_Z r) in *;
    clearbody N Qq R.
  - lra.
  - lra.
  - lra.
  - lra.
Qed.

Lemma float_int_08_exact n :
  (0 ≤ n < 2 ^ 50)%Z → float_int_08 n = int_08 n.
Proof.
  intros [Hn0 Hn]. unfold float_int_08, float_mul, int_08.
  destruct (decide (n < 2)%Z) as [Hsmall|Hbig].
  { assert (n = 0 ∨ n = 1)%Z as [-> | ->] by lia; by vm_compute. }
  assert (float_of_int n * FLOAT_08
          == inject_Z n * (3602879701896397 # 4503599627370496))%Q as Hprod.
  { rewrite float_of_int_exact by lia. by rewrite FLOAT_08_value. }
  rewrite (int_of_float_comp _ _ (float_round_comp _ _ Hprod)).
  rewrite Z.quot_div_nonneg by lia.
  pose proof (Z.div_mod (4 * n) 5 ltac:(lia)) as Hdm.
  pose proof (Z.mod_pos_bound (4 * n) 5 ltac:(lia)) as Hr.
  set (q := (4 * n / 5)%Z) in *. set (r := ((4 * n) mod 5)%Z) in *.
  assert (4 * inject_Z n == 5 * inject_Z q + inject_Z r)%Q as HQ.
  { change 4%Q with (inject_Z 4). rewrite <- inject_Z_mult. rewrite Hdm.
    rewrite inject_Z_plus, inject_Z_mult. reflexivity. }
  assert (0 <= inject_Z r)%Q as Hr0.
  { change 0%Q with (inject_Z 0). rewrite <- Zle_Qle. lia. }
  assert (inject_Z r <= 4)%Q as Hr1.
  { change 4%Q with (inject_Z 4). rewrite <- Zle_Qle. lia. }
  assert (2 <= inject_Z n)%Q as HnQ.
  { change 2%Q with (inject_Z 2). rewrite <- Zle_Qle. lia. }
  assert (inject_Z n < 1125899906842624 # 1)%Q as HnU.
  { change (1125899906842624 # 1)%Q with (inject_Z (2 ^ 50)). by rewrite <- Zlt_Qlt. }
  apply int_of_float_round;
    change (inject_Z (2 ^ 53)) with (9007199254740992 # 1)%Q;
    set (N := inject_Z n) in *; set (Qq := inject_Z q) in *; set (R := inject_Z r) in *;
    clearbody N Qq R.
  - lra.
  - lra.
  - lra.
  - lra.
Qed.

(** The two products of the handlers are taken on a token limit capped
    at [MAX_OUTPUT_TOKENS]: there binary64 gives the exact quotients. *)
Lemma capped_products_exact n :
  (1 ≤ n)%Z →
  let capped := Z.min n MAX_OUTPUT_TOKENS in
  float_int_half capped = (capped / 2)%Z
  ∧ float_int_08 capped = (4 * capped / 5)%Z.
Proof.
  intros Hn capped.
  assert (Hrange : (1 ≤ capped ≤ 128000)%Z) by (unfold capped, MAX_OUTPUT_TOKENS; lia).
  split.
  - rewrite float_int_half_exact by lia. unfold int_half.
    apply Z.quot_div_nonneg; lia.
  - rewrite float_int_08_exact by lia. unfold int_08.
    apply Z.quot_div_nonneg; lia.
Qed.

(** Beyond [EXACT_LIMIT] the product is rounded: at 2000000000000001 the
    code computes one more than [trunc(4n/5)]. *)
Example float_int_08_rounded :
  float_int_08 2000000000000001 = 1600000000000001%Z
  ∧ int_08 2000000000000001 = 1600000000000000%Z.
Proof. split; vm_compute; reflexivity. Qed.

(** The literals [0.1] and [0.8], and two sums that are ties. *)
Example float_round_samples :
  (float_round (1 # 10) == 3602879701896397 # 36028797018963968)%Q
  ∧ (FLOAT_08 == 3602879701896397 # 4503599627370496)%Q
  ∧ (float_add 1 (1 - (1 # 9007199254740992)) == 2)%Q
  ∧ (float_add 9007199254740992 1 == 9007199254740992)%Q.
Proof. repeat split; vm_compute; reflexivity. Qed.

End Floats.
(* ------------------------------------------------------------------ *)
(** ** The retry loop *)

Section Retry.
Context (DEBUG_MODE : bool) (int_of_str : string → option Z) (uniform : nat → Q).
Context {A : Type} (op : backend_op)
  (func : nat → string → gmap string pyval → outcome A)
  (modelId : string).

Lemma calls_app t1 t2 : calls (t1 ++ t2) = calls t1 ++ calls t2.
Proof. unfold calls. apply flat_map_app. Qed.

Lemma sleeps_app t1 t2 : sleeps (t1 ++ t2) = sleeps t1 ++ sleeps t2.
Proof. unfold sleeps. apply flat_map_app. Qed.

Lemma backoff_S body k n :
  backoff uniform op modelId body k (S n)
  = Call op modelId body :: Sleep (delay uniform k)
      :: backoff uniform op modelId body (S k) n.
Proof. reflexivity. Qed.

Lemma calls_backoff body k n :
  calls (backoff uniform op modelId body k n) = replicate n (op, modelId, body).
Proof.
  revert k. induction n as [|n IH]; intros k; [done|].
  rewrite backoff_S. cbn. by rewrite IH.
Qed.

Lemma sleeps_backoff body k n :
  sleeps (backoff uniform op modelId body k n) = delay uniform <$> seq k n.
Proof.
  revert k. induction n as [|n IH]; intros k; [done|].
  rewrite backoff_S. cbn. by rewrite IH.
Qed.

Lemma retry_loop_shape body remaining retries :
  remaining + retries = S MAX_RETRIES → 0 < remaining →
  ∃ n, retries ≤ n ≤ MAX_RETRIES
    ∧ (∀ k, retries ≤ k < n → throttled (func k modelId body) = true)
    ∧ (throttled (func n modelId body) = true → n = MAX_RETRIES)
    ∧ retry_loop uniform op func modelId body remaining retries
      = (settled (func n modelId body),
         backoff uniform op modelId body retries (n - retries)
           ++ [Call op modelId body]).
Proof.
  revert retries. induction remaining as [|remaining IH]; intros retries Hsum Hpos; [lia|].
  assert (Hle : retries ≤ MAX_RETRIES) by lia.
  cbn [retry_loop]. rewrite (leb_correct _ _ Hle).
  destruct (func retries modelId body) as [response|e] eqn:Hf.
  { exists retries. rewrite Hf, Nat.sub_diag. cbn.
    repeat split; try lia; try done; intros; lia. }
  destruct e as [ | | |code msg|name];
    try (exists retries; rewrite Hf, Nat.sub_diag; cbn;
         repeat split; try lia; try done; intros; lia).
  destruct (String.eqb code "ThrottlingException") eqn:Hcode; cbn [andb];
    [destruct (retries <? MAX_RETRIES) eqn:Hlt|].
  - apply Nat.ltb_lt in Hlt.
    destruct (IH (S retries)) as (n & Hn & Hthr & Hlast & Heq); [lia|lia|].
    exists n. rewrite Heq. repeat split; try lia; try done.
    + intros k Hk. destruct (decide (k = retries)) as [->|Hne].
      * rewrite Hf. exact Hcode.
      * apply Hthr. lia.
    + replace (n - retries) with (S (n - S retries)) by lia.
      by rewrite backoff_S.
  - apply Nat.ltb_ge in Hlt.
    exists retries. rewrite Hf, Nat.sub_diag. cbn.
    repeat split; try lia; try done; intros; lia.
  - exists retries. rewrite Hf, Nat.sub_diag. cbn. rewrite Hcode.
    repeat split; try lia; try done; intros; lia.
Qed.

(** The delay before retry [k]: the cap of 30 seconds is never reached,
    and rounding keeps the sum between [2^k] and [2^k + 1]. *)
Lemma delay_range k :
  (0 <= uniform k)%Q → (uniform k < 1)%Q → k < MAX_RETRIES →
  (delay uniform k == float_add (inject_Z (2 ^ Z.of_nat k)) (uniform k))%Q
  ∧ (inject_Z (2 ^ Z.of_nat k) <= delay uniform k)%Q
  ∧ (delay uniform k <= inject_Z (2 ^ Z.of_nat k) + 1)%Q.
Proof.
  intros H0 H1 Hk. unfold delay, MAX_DELAY, BASE_DELAY, MAX_RETRIES, float_add in *.
  assert (Hb : (inject_Z (2 ^ Z.of_nat k) <= 16)%Q).
  { do 5 (destruct k as [|k]; [vm_compute; discriminate|]). lia. }
  assert (Hp : (1 <= inject_Z (2 ^ Z.of_nat k))%Q).
  { do 5 (destruct k as [|k]; [vm_compute; discriminate|]). lia. }
  set (p := (2 ^ Z.of_nat k)%Z) in *.
  assert (Hx : (1 * inject_Z p + uniform k == inject_Z p + uniform k)%Q) by ring.
  pose proof (float_round_comp _ _ Hx) as Hr.
  destruct (float_round_between (inject_Z p + uniform k) p (p + 1)) as [Hlow Hup].
  - lra.
  - change (inject_Z (2 ^ 53)) with (9007199254740992 # 1)%Q. lra.
  - lra.
  - rewrite inject_Z_plus. change (inject_Z 1) with 1%Q. lra.
  - rewrite inject_Z_plus in Hup. change (inject_Z 1) with 1%Q in Hup.
    assert (Hmin : (Qmin 30 (float_round (1 * inject_Z p + uniform k))
                    == float_round (inject_Z p + uniform k))%Q).
    { rewrite Q.min_r; [exact Hr|]. rewrite Hr. lra. }
    split; [exact Hmin|]. rewrite Hmin. by split.
Qed.

(** Every attempt of one call carries the same body. *)
Lemma invoke_with_retry_sent body :
  ∃ n, n ≤ MAX_RETRIES
    ∧ sent_bodies
        (invoke_with_retry DEBUG_MODE int_of_str uniform op func modelId body).2
      = replicate (S n) (dispatched DEBUG_MODE int_of_str modelId body).
Proof.
  unfold invoke_with_retry, dispatched.
  set (sent := if DEBUG_MODE then _ else body).
  destruct (retry_loop_shape sent (S MAX_RETRIES) 0) as (n & Hn & _ & _ & Heq);
    [lia|lia|].
  exists n. split; [lia|]. rewrite Heq, Nat.sub_0_r. cbn [snd].
  unfold sent_bodies. rewrite calls_app, calls_backoff, fmap_app, fmap_replicate.
  by rewrite replicate_S_end.
Qed.

(** Claim C3, as the code has it.  [MAX_RETRIES = 5] bounds the retries,
    so a call makes at most six attempts: the first and five more.  Only
    an answer with the error code [ThrottlingException] is retried; the
    log is [n <= 5] throttled attempts, each followed by a sleep of
    [min(30, 2^k + uniform(0,1))] seconds for [k = 0 .. n-1], the sum
    being the binary64 sum, and one last attempt whose answer, a response
    or any error, is what the call gives back; that last answer is a
    throttling error only when the five retries are used up.  With the
    jitter in [[0, 1)] every sleep lies in [[2^k, 2^k + 1]], both ends
    included: the cap of 30 is not reached, and the sum is rounded up to
    [2^k + 1] for a jitter close to 1.  A backend that throttles on the
    first two attempts and not on the third has [n = 2]: three attempts
    and two sleeps. *)
Theorem invoke_with_retry_backoff body :
  (∀ k, (0 <= uniform k)%Q ∧ (uniform k < 1)%Q) →
  let sent := if DEBUG_MODE then debug_body int_of_str modelId body else body in
  let out := invoke_with_retry DEBUG_MODE int_of_str uniform op func modelId body in
  ∃ n, n ≤ MAX_RETRIES
    ∧ out.2 = backoff uniform op modelId sent 0 n ++ [Call op modelId sent]
    ∧ attempts out.2 = S n
    ∧ sleeps out.2 = delay uniform <$> seq 0 n
    ∧ (∀ k, k < n →
         throttled (func k modelId sent) = true
         ∧ (delay uniform k
            == float_round (inject_Z (2 ^ Z.of_nat k) + uniform k))%Q
         ∧ (inject_Z (2 ^ Z.of_nat k) <= delay uniform k)%Q
         ∧ (delay uniform k <= inject_Z (2 ^ Z.of_nat k) + 1)%Q)
    ∧ out.1 = settled (func n modelId sent)
    ∧ (throttled (func n modelId sent) = true → n = MAX_RETRIES)
    ∧ (throttled (func 0 modelId sent) = true →
       throttled (func 1 modelId sent) = true →
       throttled (func 2 modelId sent) = false → n = 2).
Proof.
  intros Hu sent out.
  destruct (retry_loop_shape sent (S MAX_RETRIES) 0) as (n & Hn & Hthr & Hlast & Heq);
    [lia|lia|].
  assert (Hout : out = (settled (func n modelId sent),
                        backoff uniform op modelId sent 0 n ++ [Call op modelId sent])).
  { subst out. unfold invoke_with_retry. fold sent. rewrite Heq.
    by rewrite Nat.sub_0_r. }
  exists n. rewrite Hout. cbn [fst snd].
  split; [lia|]. split; [done|].
  split.
  { unfold attempts. rewrite calls_app, calls_backoff, length_app, length_replicate.
    cbn. lia. }
  split.
  { rewrite sleeps_app, sleeps_backoff. cbn. by rewrite app_nil_r. }
  split.
  { intros k Hk. split; [apply Hthr; lia|].
    destruct (Hu k) as [H0 H1]. apply delay_range; [done|done|lia]. }
  split; [done|]. split; [done|].
  intros T0 T1 T2.
  destruct (decide (n = 2)) as [|Hne]; [done|].
  destruct (decide (n < 2)) as [Hlt|Hge].
  - assert (Hn' : n = 0 ∨ n = 1) by lia.
    destruct Hn' as [-> | ->]; [specialize (Hlast T0)|specialize (Hlast T1)];
      unfold MAX_RETRIES in Hlast; lia.
  - rewrite Hthr in T2; [done|lia].
Qed.

End Retry.
(* ------------------------------------------------------------------ *)
(** ** The validator *)

Section Validation.
Context (int_of_str : string → option Z).

Lemma checked_thinking_budget thinking :
  ∃ b, (1024 ≤ b)%Z
    ∧ checked_thinking int_of_str thinking !! "budget_tokens" = Some (PInt b).
Proof.
  unfold checked_thinking.
  cbv zeta.
  match goal with
  | |- context [match ?t !! "budget_tokens" with _ => _ end] =>
      destruct (t !! "budget_tokens") as [b0|]
  end.
  - destruct (py_int int_of_str b0) as [budget|].
    + destruct (Z.ltb_spec budget 1024).
      * exists 1024%Z. by rewrite lookup_insert_eq.
      * exists budget. by rewrite lookup_insert_eq.
    + exists 4000%Z. by rewrite lookup_insert_eq.
  - exists 4000%Z. by rewrite lookup_insert_eq.
Qed.

(** The validator on a body that has a [thinking] entry and an integer
    [max_tokens] below 1024. *)
Lemma validate_small_max_tokens params thinking n :
  params !! "thinking" = Some thinking →
  params !! "max_tokens" = Some (PInt n) →
  (n < 1024)%Z →
  ∃ b, (1024 ≤ b)%Z
    ∧ budget_tokens (validate_bedrock_request int_of_str params) = Some (PInt b)
    ∧ validate_bedrock_request int_of_str params !! "max_tokens" = Some (PInt (b + 1))
    ∧ validate_bedrock_request int_of_str params !! "top_p" = None
    ∧ ∀ k, k ≠ "thinking" → k ≠ "max_tokens" → k ≠ "top_p" →
        validate_bedrock_request int_of_str params !! k = params !! k.
Proof.
  intros Hth Hmt Hn.
  destruct (checked_thinking_budget thinking) as (b & Hb & Hlook).
  exists b. split; [done|].
  unfold validate_bedrock_request.
  set (model_is_thinking := if dict_has params "_model_name" && _ then true else _).
  rewrite Hth.
  rewrite (dict_has_true _ _ _ Hth). cbn [orb andb].
  rewrite (dict_has_true (<["thinking":=_]> params) "max_tokens" (PInt n))
    by by rewrite lookup_insert_ne.
  rewrite (dict_get_Some (<["thinking":=_]> params) "max_tokens" (PInt n))
    by by rewrite lookup_insert_ne.
  cbn [py_int]. rewrite (proj2 (Z.ltb_lt n 1024) Hn).
  set (vp := <["max_tokens":=PInt 1024]> (<["thinking":=_]> params)).
  assert (Hvp_th : vp !! "thinking" = Some (PDict (checked_thinking int_of_str thinking))).
  { unfold vp. rewrite lookup_insert_ne by done. by rewrite lookup_insert_eq. }
  rewrite (dict_has_true _ _ _ Hvp_th). rewrite andb_false_r.
  rewrite Hvp_th. rewrite (truthy_dict_lookup _ _ _ Hlook).
  rewrite (dict_get_Some _ _ _ _ Hlook). cbn [py_int].
  rewrite (dict_get_Some vp "max_tokens" (PInt 1024)) by (unfold vp; by rewrite lookup_insert_eq).
  cbn [py_int default option_map from_option].
  unfold id. rewrite (proj2 (Z.leb_le 1024 b) Hb).
  set (vp' := <["max_tokens":=PInt (b + 1)]> vp).
  assert (Hgoal : ∀ final, final = (if dict_has vp' "top_p" then delete "top_p" vp' else vp') →
    budget_tokens final = Some (PInt b) ∧ final !! "max_tokens" = Some (PInt (b + 1))
    ∧ final !! "top_p" = None
    ∧ ∀ k, k ≠ "thinking" → k ≠ "max_tokens" → k ≠ "top_p" → final !! k = params !! k).
  { intros final ->. unfold dict_has.
    destruct (vp' !! "top_p") eqn:Htp.
    - unfold budget_tokens. rewrite !lookup_delete_ne by done.
      rewrite lookup_delete_eq. unfold vp', vp.
      rewrite lookup_insert_eq. rewrite !lookup_insert_ne by done.
      rewrite lookup_insert_eq. repeat split; try done.
      intros k H1 H2 H3. rewrite lookup_delete_ne by done.
      by rewrite !lookup_insert_ne by done.
    - unfold budget_tokens. rewrite Htp. unfold vp', vp.
      rewrite lookup_insert_eq. rewrite !lookup_insert_ne by done.
      rewrite lookup_insert_eq. repeat split; try done.
      intros k H1 H2 H3. by rewrite !lookup_insert_ne by done. }
  by apply Hgoal.
Qed.

(** The validator on any body that has a [thinking] entry: the entry is
    brought to the standard shape with a budget of at least 1024,
    [max_tokens], where present, ends above the budget, and [top_p] is
    gone. *)
Lemma validate_with_thinking params thinking :
  params !! "thinking" = Some thinking →
  ∃ b, (1024 ≤ b)%Z
    ∧ checked_thinking int_of_str thinking !! "budget_tokens" = Some (PInt b)
    ∧ validate_bedrock_request int_of_str params !! "thinking"
      = Some (PDict (checked_thinking int_of_str thinking))
    ∧ validate_bedrock_request int_of_str params !! "top_p" = None
    ∧ ∀ v, validate_bedrock_request int_of_str params !! "max_tokens" = Some v →
        ∃ m, py_int int_of_str v = Some m ∧ (b < m)%Z.
Proof.
  intros Hth.
  destruct (checked_thinking_budget thinking) as (b & Hb & Hlook).
  exists b. split; [done|]. split; [done|].
  unfold validate_bedrock_request.
  set (model_is_thinking := if dict_has params "_model_name" && _ then true else _).
  rewrite Hth, (dict_has_true _ _ _ Hth). cbn [orb].
  set (vp1 := <["thinking":=PDict (checked_thinking int_of_str thinking)]> params).
  set (vp2 := if true && dict_has vp1 "max_tokens" then _ else vp1).
  assert (Hth2 : vp2 !! "thinking" = Some (PDict (checked_thinking int_of_str thinking))).
  { unfold vp2. cbn [andb]. repeat case_match;
      rewrite ?lookup_insert_ne by done; unfold vp1; by rewrite lookup_insert_eq. }
  assert (Hmt2 : ∀ v, vp2 !! "max_tokens" = Some v → ∃ m, py_int int_of_str v = Some m).
  { unfold vp2. cbn [andb]. unfold dict_has, dict_get.
    destruct (vp1 !! "max_tokens") as [v0|] eqn:H0; [|intros v; congruence].
    destruct (py_int int_of_str v0) as [m0|] eqn:Hm0.
    - destruct (m0 <? 1024)%Z.
      + intros v. rewrite lookup_insert_eq. intros [= <-]. by eexists.
      + intros v. rewrite H0. intros [= <-]. by eexists.
    - intros v. rewrite lookup_insert_eq. intros [= <-]. by eexists. }
  clearbody vp2.
  rewrite (dict_has_true _ _ _ Hth2), andb_false_r.
  rewrite Hth2, (truthy_dict_lookup _ _ _ Hlook), (dict_get_Some _ _ _ _ Hlook).
  cbn [py_int].
  set (mt := default DEFAULT_MAX_TOKENS _).
  set (vp3 := if (mt <=? b)%Z then _ else vp2).
  assert (Hth3 : vp3 !! "thinking" = Some (PDict (checked_thinking int_of_str thinking))).
  { unfold vp3. case_match; by rewrite ?lookup_insert_ne by done. }
  assert (Hmt3 : ∀ v, vp3 !! "max_tokens" = Some v →
                      ∃ m, py_int int_of_str v = Some m ∧ (b < m)%Z).
  { unfold vp3. destruct (Z.leb_spec mt b) as [Hle|Hgt].
    - intros v. rewrite lookup_insert_eq. intros [= <-]. exists (b + 1)%Z.
      split; [done|lia].
    - intros v Hv. destruct (Hmt2 v Hv) as [m Hm]. exists m. split; [done|].
      unfold mt, dict_get in Hgt. rewrite Hv, Hm in Hgt. exact Hgt. }
  clearbody vp3. unfold dict_has.
  destruct (vp3 !! "top_p") eqn:Htp.
  - rewrite lookup_delete_eq. repeat split; [by rewrite lookup_delete_ne|].
    intros v. rewrite lookup_delete_ne by done. apply Hmt3.
  - auto.
Qed.

(** The validator leaves alone a body without a [thinking] entry that
    does not name the thinking alias. *)
Lemma validate_without_thinking params :
  params !! "thinking" = None →
  params !! "model" = None →
  eq_str (dict_get params "_model_name" PNone) "claude-3-7-sonnet-thinking" = false →
  validate_bedrock_request int_of_str params = params.
Proof.
  intros Hth Hmodel Hname. unfold validate_bedrock_request.
  rewrite Hname, andb_false_r. rewrite (dict_has_false _ _ Hmodel).
  cbn [andb]. rewrite Tauto.if_same. rewrite Hth.
  rewrite (dict_has_false _ _ Hth). cbn [orb andb]. by rewrite Hth.
Qed.

(** The standard shape with budget [b], checked again, has budget
    [max(1024, b)]. *)
Lemma checked_enabled_thinking b :
  checked_thinking int_of_str (PDict (enabled_thinking b)) !! "budget_tokens"
  = Some (PInt (Z.max 1024 b)).
Proof.
  assert (Hty : enabled_thinking b !! "type" = Some (PStr "enabled")) by done.
  assert (Hbt : enabled_thinking b !! "budget_tokens" = Some (PInt b)) by done.
  unfold checked_thinking.
  rewrite (dict_has_true _ _ _ Hty), (dict_get_Some _ _ _ _ Hty).
  change (eq_str (PStr "enabled") "enabled") with true. cbn [negb orb].
  rewrite Hbt. cbn [py_int].
  destruct (Z.ltb_spec b 1024).
  - rewrite Z.max_l by lia. by rewrite lookup_insert_eq.
  - rewrite Z.max_r by lia. by rewrite lookup_insert_eq.
Qed.

Lemma reverse_lookup_not_thinking modelId :
  String.eqb (reverse_lookup modelId MODEL_MAPPING) "claude-3-7-sonnet-thinking" = false.
Proof.
  unfold MODEL_MAPPING. cbn [reverse_lookup].
  repeat (case_match; [reflexivity|]). reflexivity.
Qed.

Lemma budget_tokens_ext (m1 m2 : gmap string pyval) :
  m1 !! "thinking" = m2 !! "thinking" → budget_tokens m1 = budget_tokens m2.
Proof. unfold budget_tokens. by intros ->. Qed.

(** [debug_body] wraps the validator between the insertion and the
    removal of [_model_name]. *)
Lemma debug_body_lookup modelId body k :
  k ≠ "_model_name" →
  debug_body int_of_str modelId body !! k
  = validate_bedrock_request int_of_str
      (if negb (String.eqb (reverse_lookup modelId MODEL_MAPPING) "")
       then <["_model_name" := PStr (reverse_lookup modelId MODEL_MAPPING)]> body
       else body) !! k.
Proof.
  intros Hk. unfold debug_body. case_match; [by rewrite lookup_delete_ne|done].
Qed.

Lemma named_lookup modelId (body : gmap string pyval) k :
  k ≠ "_model_name" →
  (if negb (String.eqb (reverse_lookup modelId MODEL_MAPPING) "")
   then <["_model_name" := PStr (reverse_lookup modelId MODEL_MAPPING)]> body
   else body) !! k = body !! k.
Proof. intros Hk. case_match; [by rewrite lookup_insert_ne|done]. Qed.

Lemma debug_body_with_thinking modelId body thinking :
  body !! "thinking" = Some thinking →
  ∃ b, (1024 ≤ b)%Z
    ∧ checked_thinking int_of_str thinking !! "budget_tokens" = Some (PInt b)
    ∧ budget_tokens (debug_body int_of_str modelId body) = Some (PInt b)
    ∧ debug_body int_of_str modelId body !! "top_p" = None
    ∧ ∀ v, debug_body int_of_str modelId body !! "max_tokens" = Some v →
        ∃ m, py_int int_of_str v = Some m ∧ (b < m)%Z.
Proof.
  intros Hth.
  set (named := if negb (String.eqb (reverse_lookup modelId MODEL_MAPPING) "")
                then <["_model_name" := PStr (reverse_lookup modelId MODEL_MAPPING)]> body
                else body).
  assert (Hnamed : named !! "thinking" = Some thinking)
    by (unfold named; by rewrite named_lookup).
  destruct (validate_with_thinking named thinking Hnamed)
    as (b & Hb & Hlook & Hvt & Htp & Hmt).
  exists b. split; [done|]. split; [done|].
  unfold budget_tokens. rewrite !debug_body_lookup by done. fold named.
  rewrite Hvt, Hlook, Htp. done.
Qed.

Lemma debug_body_small_max_tokens modelId body thinking n :
  body !! "thinking" = Some thinking →
  body !! "max_tokens" = Some (PInt n) →
  (n < 1024)%Z →
  ∃ b, (1024 ≤ b)%Z
    ∧ budget_tokens (debug_body int_of_str modelId body) = Some (PInt b)
    ∧ debug_body int_of_str modelId body !! "max_tokens" = Some (PInt (b + 1))
    ∧ debug_body int_of_str modelId body !! "top_p" = None.
Proof.
  intros Hth Hmt Hn.
  set (named := if negb (String.eqb (reverse_lookup modelId MODEL_MAPPING) "")
                then <["_model_name" := PStr (reverse_lookup modelId MODEL_MAPPING)]> body
                else body).
  assert (Hnamed : named !! "thinking" = Some thinking)
    by (unfold named; by rewrite named_lookup).
  assert (Hnamed' : named !! "max_tokens" = Some (PInt n))
    by (unfold named; by rewrite named_lookup).
  destruct (validate_small_max_tokens named thinking n Hnamed Hnamed' Hn)
    as (b & Hb & Hbt & Hmt' & Htp & _).
  exists b. split; [done|].
  rewrite <- Hbt, <- Hmt', <- Htp. rewrite !debug_body_lookup by done. fold named.
  split; [|done]. apply budget_tokens_ext. by rewrite debug_body_lookup.
Qed.

Lemma debug_body_without_thinking modelId body k :
  body !! "thinking" = None →
  body !! "model" = None →
  body !! "_model_name" = None →
  k ≠ "_model_name" →
  debug_body int_of_str modelId body !! k = body !! k.
Proof.
  intros Hth Hmodel Hnone Hk. rewrite debug_body_lookup by done.
  rewrite validate_without_thinking.
  - by apply named_lookup.
  - by rewrite named_lookup.
  - by rewrite named_lookup.
  - destruct (negb (String.eqb (reverse_lookup modelId MODEL_MAPPING) "")).
    + rewrite (dict_get_Some _ _ (PStr (reverse_lookup modelId MODEL_MAPPING)))
        by by rewrite lookup_insert_eq.
      apply reverse_lookup_not_thinking.
    + by rewrite (dict_get_None _ _ _ Hnone).
Qed.

End Validation.
(* ------------------------------------------------------------------ *)
(** ** Stream translation *)

Section Streams.
Context (model : pyval).

Lemma count_done_app e1 e2 : count_done (e1 ++ e2) = count_done e1 + count_done e2.
Proof. unfold count_done. by rewrite filter_app, length_app. Qed.

(** One frame: a stop-bearing frame yields events that end in the
    sentinel and hold no other; any other frame yields no sentinel. *)
Lemma chat_stream_step_done chunk yielded :
  chat_stream_step model chunk = Ok yielded →
  if carries_stop chunk
  then ∃ before, yielded = before ++ [SseDone] ∧ count_done before = 0
  else count_done yielded = 0.
Proof.
  destruct chunk as [| | | | |d]; try discriminate.
  unfold chat_stream_step, carries_stop. cbn [py_get mbind res_bind].
  destruct (eq_str (dict_get d "type" (PStr "")) "content_block_delta").
  { destruct (dict_get d "delta" (PDict ∅)) as [| | | | |delta]; try discriminate.
    cbn [py_get mbind res_bind].
    repeat case_match; intros [= <-]; reflexivity. }
  destruct (eq_str (dict_get d "type" (PStr "")) "message_delta").
  { destruct (dict_get d "delta" (PDict ∅)) as [| | | | |delta]; try discriminate.
    cbn [py_get mbind res_bind].
    destruct (truthy (dict_get delta "stop_reason" PNone)); intros [= <-]; [|done].
    eexists [_]. done. }
  destruct (negb (truthy (dict_get d "type" (PStr "")))); [|by intros [= <-]].
  destruct (dict_get d "delta" (PDict ∅)) as [| | | | |delta]; try discriminate.
  cbn [py_get mbind res_bind].
  destruct (truthy (dict_get d "stop_reason" PNone)); intros [= <-].
  - eexists. split; [reflexivity|]. by case_match.
  - rewrite app_nil_r. by case_match.
Qed.

Lemma chat_stream_step_count chunk yielded :
  chat_stream_step model chunk = Ok yielded →
  count_done yielded = if carries_stop chunk then 1 else 0.
Proof.
  intros H. apply chat_stream_step_done in H.
  destruct (carries_stop chunk); [|done].
  destruct H as (before & -> & Hb). rewrite count_done_app, Hb. done.
Qed.

Lemma chat_generate_stream_app body1 body2 events1 :
  chat_generate_stream model body1 = (events1, None) →
  chat_generate_stream model (body1 ++ body2)
  = (events1 ++ (chat_generate_stream model body2).1,
     (chat_generate_stream model body2).2).
Proof.
  revert events1. induction body1 as [|chunk body1 IH]; intros events1.
  - intros [= <-]. cbn. by destruct (chat_generate_stream model body2).
  - cbn [chat_generate_stream app].
    destruct (chat_stream_step model chunk) as [yielded|e]; [|discriminate].
    destruct (chat_generate_stream model body1) as [more e1] eqn:Hrest.
    intros [= <- ->]. rewrite (IH more eq_refl).
    by rewrite app_assoc.
Qed.

Lemma chat_generate_stream_count body events :
  chat_generate_stream model body = (events, None) →
  count_done events = length (filter (λ c, carries_stop c = true) body).
Proof.
  revert events. induction body as [|chunk body IH]; intros events.
  - by intros [= <-].
  - cbn [chat_generate_stream].
    destruct (chat_stream_step model chunk) as [yielded|e] eqn:Hstep; [|discriminate].
    destruct (chat_generate_stream model body) as [more e1].
    intros [= <- ->]. rewrite count_done_app, (IH more eq_refl).
    rewrite (chat_stream_step_count _ _ Hstep), filter_cons.
    destruct (carries_stop chunk); by case_decide.
Qed.

Lemma no_stop_count (body : list pyval) :
  Forall (λ c, carries_stop c = false) body →
  length (filter (λ c, carries_stop c = true) body) = 0.
Proof.
  induction 1 as [|c l Hc _ IH]; [done|].
  rewrite filter_cons. case_decide; [congruence|done].
Qed.

(** Claim C4, as the code has it, for the chat stream.  A stream that is
    translated to its end holds one [DONE] sentinel for each backend frame
    that bears a stop reason; and when the last frame is the only such
    frame, the stream ends in the sentinel and holds no other. *)
Theorem chat_stream_done_per_stop body events :
  chat_generate_stream model body = (events, None) →
  count_done events = length (filter (λ c, carries_stop c = true) body)
  ∧ (∀ earlier last,
       body = earlier ++ [last] →
       carries_stop last = true →
       Forall (λ c, carries_stop c = false) earlier →
       ∃ before, events = before ++ [SseDone] ∧ count_done before = 0).
Proof.
  intros Hgen. split; [by apply chat_generate_stream_count|].
  intros earlier last -> Hlast Hearlier.
  destruct (chat_generate_stream model earlier) as [ev1 a1] eqn:H1.
  assert (a1 = None) as ->.
  { revert ev1 a1 H1 events Hgen. clear Hearlier.
    induction earlier as [|c earlier IH]; intros ev1 a1 H1 events Hgen.
    - cbn in H1. by injection H1 as _ <-.
    - cbn [chat_generate_stream app] in *.
      destruct (chat_stream_step model c); [|discriminate].
      destruct (chat_generate_stream model earlier) as [m1 x1].
      destruct (chat_generate_stream model (earlier ++ [last])) as [m2 x2].
      injection H1 as _ <-. injection Hgen as _ ->.
      by eapply IH. }
  rewrite (chat_generate_stream_app _ [last] _ H1) in Hgen.
  cbn [chat_generate_stream] in Hgen.
  destruct (chat_stream_step model last) as [yielded|e] eqn:Hstep; [|discriminate].
  cbn in Hgen. injection Hgen as <-.
  pose proof (chat_stream_step_done _ _ Hstep) as Hd. rewrite Hlast in Hd.
  destruct Hd as (before & -> & Hb).
  exists (ev1 ++ before). rewrite app_nil_r, app_assoc. split; [done|].
  rewrite count_done_app, Hb, (chat_generate_stream_count _ _ H1).
  by rewrite Nat.add_0_r, no_stop_count.
Qed.

Lemma text_delta_step chunk text :
  text_delta_frame chunk text → text ≠ "" →
  chat_stream_step model chunk = Ok [chat_event model (DContent (PStr text)) PNone].
Proof.
  intros (d & delta & -> & Hty & Hdelta & Hdty & Htext) Hne.
  unfold chat_stream_step. cbn [py_get mbind res_bind].
  rewrite (dict_get_Some _ _ _ _ Hty), (dict_get_Some _ _ _ _ Hdelta). cbn.
  rewrite (dict_get_Some _ _ _ _ Hdty), (dict_get_Some _ _ _ _ Htext). cbn.
  by destruct text.
Qed.

Lemma message_delta_step chunk stop_reason :
  message_delta_frame chunk stop_reason → stop_reason ≠ "" →
  chat_stream_step model chunk
  = Ok [chat_event model DEmpty
          (if String.eqb stop_reason "end_turn" then PStr "stop" else PStr stop_reason);
        SseDone].
Proof.
  intros (d & delta & -> & Hty & Hdelta & Hstop) Hne.
  unfold chat_stream_step. cbn [py_get mbind res_bind].
  rewrite (dict_get_Some _ _ _ _ Hty), (dict_get_Some _ _ _ _ Hdelta). cbn.
  rewrite (dict_get_Some _ _ _ _ Hstop). cbn.
  by destruct stop_reason.
Qed.

(** Claim C7.  [N] [content_block_delta] frames with non-empty
    [text_delta] texts, then one [message_delta] frame with stop reason
    [end_turn], give on the chat stream the [N] content chunks in the order
    of arrival, each with the text of its frame as content and no finish
    reason, then one chunk with an empty delta and finish reason [stop],
    then the [DONE] sentinel, and nothing else; the generator ends
    without an error. *)
Theorem chat_stream_text_then_stop frames texts last :
  Forall2 text_delta_frame frames texts →
  Forall (λ t, t ≠ "") texts →
  message_delta_frame last "end_turn" →
  chat_generate_stream model (frames ++ [last])
  = (((λ t, SseChat {| chunk_model := model;
                       chunk_delta := DContent (PStr t);
                       chunk_finish_reason := PNone |}) <$> texts)
       ++ [SseChat {| chunk_model := model;
                      chunk_delta := DEmpty;
                      chunk_finish_reason := PStr "stop" |};
           SseDone],
     None).
Proof.
  intros Hframes Hne Hlast. fold (chat_event model DEmpty (PStr "stop")).
  change (λ t, SseChat {| chunk_model := model;
                          chunk_delta := DContent (PStr t);
                          chunk_finish_reason := PNone |})
    with (λ t, chat_event model (DContent (PStr t)) PNone).
  induction Hframes as [|chunk text frames texts Hchunk _ IH].
  - cbn. by rewrite (message_delta_step _ _ Hlast).
  - apply Forall_cons in Hne as [Hne1 Hne].
    cbn [app chat_generate_stream fmap list_fmap].
    rewrite (text_delta_step _ _ Hchunk Hne1), (IH Hne). done.
Qed.
(** The stream of [/v1/completions] never holds the sentinel. *)
Lemma completions_stream_no_done body :
  count_done (completions_generate_stream body).1 = 0.
Proof.
  induction body as [|chunk body IH]; [done|].
  cbn [completions_generate_stream].
  destruct (completions_stream_step chunk) as [[yielded stop]|e] eqn:Hstep; [|done].
  assert (Hy : count_done yielded = 0).
  { destruct chunk as [| | | | |d]; try discriminate.
    unfold completions_stream_step in Hstep. cbn [py_get mbind res_bind] in Hstep.
    destruct (dict_get d "delta" (PDict ∅)) as [| | | | |delta]; try discriminate.
    cbn [py_get mbind res_bind] in Hstep. injection Hstep as <- _.
    by case_match. }
  destruct stop; [done|].
  destruct (completions_generate_stream body) as [more e1].
  cbn [fst] in *. by rewrite count_done_app, Hy, IH.
Qed.

End Streams.
(* ------------------------------------------------------------------ *)
(** ** The handlers *)

Section Handlers.
Context (DEBUG_MODE : bool) (int_of_str : string → option Z)
  (str_of : pyval → string) (encode_length : string → option nat)
  (invoke_model : nat → string → gmap string pyval → outcome pyval)
  (invoke_model_with_response_stream :
     nat → string → gmap string pyval → outcome (list pyval))
  (uniform : nat → Q).

Lemma lift_bind {A B} (m : res A) (f : A → io B) :
  lift m ≫= f = match m with Ok a => f a | Raise e => (Throw e, []) end.
Proof.
  destruct m as [a|e]; [|done]. unfold lift, mbind, io_bind.
  by destruct (f a).
Qed.

Lemma val_bind {A B} (a : A) (f : A → io B) :
  ((Val a, []) : io A) ≫= f = f a.
Proof. unfold mbind, io_bind. by destruct (f a). Qed.

(** *** The request after the debug log *)

Lemma log_request_info_lookup req k :
  k ≠ "messages" → log_request_info DEBUG_MODE req !! k = req !! k.
Proof.
  intros Hk. unfold log_request_info. destruct DEBUG_MODE; [|done].
  destruct (req !! "messages") as [[| | | |l|]|]; try done.
  by rewrite lookup_insert_ne.
Qed.

Lemma dict_get_logged req k dflt :
  k ≠ "messages" →
  dict_get (log_request_info DEBUG_MODE req) k dflt = dict_get req k dflt.
Proof. intros Hk. unfold dict_get. by rewrite log_request_info_lookup. Qed.

Lemma typed_request_logged req m n :
  typed_request req m n → typed_request (log_request_info DEBUG_MODE req) m n.
Proof. unfold typed_request. by rewrite !dict_get_logged. Qed.

Lemma accepted_prompt_logged req p :
  accepted_prompt req p → accepted_prompt (log_request_info DEBUG_MODE req) p.
Proof. unfold accepted_prompt. by rewrite !dict_get_logged. Qed.

Lemma no_budget_field_logged req :
  no_budget_field req → no_budget_field (log_request_info DEBUG_MODE req).
Proof. unfold no_budget_field. by rewrite !dict_get_logged. Qed.

Lemma thinking_mode_logged req model :
  thinking_mode (log_request_info DEBUG_MODE req) model = thinking_mode req model.
Proof. unfold thinking_mode. by rewrite !dict_get_logged. Qed.

Lemma thinking_budget_logged req max_tokens :
  thinking_budget (log_request_info DEBUG_MODE req) max_tokens
  = thinking_budget req max_tokens.
Proof. unfold thinking_budget. by rewrite !dict_get_logged. Qed.

(** The messages as the chat handler reads them. *)
Lemma logged_messages req messages :
  dict_get req "messages" (PList []) = PList messages →
  dict_get (log_request_info DEBUG_MODE req) "messages" (PList [])
  = PList (if DEBUG_MODE then logged_message <$> messages else messages).
Proof.
  unfold log_request_info, dict_get. destruct DEBUG_MODE; [|done].
  destruct (req !! "messages") as [v|] eqn:Hm.
  - intros ->. by rewrite lookup_insert_eq.
  - rewrite Hm. by intros [= <-].
Qed.

Lemma lstrip_blank s : lstrip s = "" → whitespace_only s.
Proof.
  unfold whitespace_only. induction s as [|c s IH]; [constructor|].
  cbn. destruct (is_space c) eqn:Hc; [|done].
  intros H. constructor; [done|by apply IH].
Qed.

Lemma rstrip_blank s : rstrip s = "" → whitespace_only s.
Proof.
  unfold whitespace_only. induction s as [|c s IH]; [constructor|].
  cbn. destruct (rstrip s) eqn:Hs; [|done].
  destruct (is_space c) eqn:Hc; [|done].
  intros _. constructor; [done|by apply IH].
Qed.

Lemma lstrip_no_leading_space s c rest :
  lstrip s = String c rest → is_space c = false.
Proof.
  induction s as [|c' s IH]; [done|]. cbn.
  destruct (is_space c') eqn:Hc; [done|]. by intros [= <- _].
Qed.

Lemma strip_blank s : strip s = "" → whitespace_only s.
Proof.
  unfold strip. intros H. apply lstrip_blank.
  destruct (lstrip s) as [|c rest] eqn:Hl; [done|].
  apply rstrip_blank in H. unfold whitespace_only in H. cbn in H.
  apply Forall_cons in H as [Hc _].
  by rewrite (lstrip_no_leading_space _ _ _ Hl) in Hc.
Qed.

Lemma list_ascii_app s1 s2 :
  String.list_ascii_of_string (s1 +:+ s2)
  = String.list_ascii_of_string s1 ++ String.list_ascii_of_string s2.
Proof.
  induction s1 as [|c s1 IH]; [done|].
  change (String c s1 +:+ s2) with (String c (s1 +:+ s2)).
  cbn [String.list_ascii_of_string app]. by f_equal.
Qed.

(** A cut text is never blank: the mark is not. *)
Lemma cut_not_blank s : strip (s +:+ CUT_MARK) ≠ "".
Proof.
  intros H%strip_blank. unfold whitespace_only in H.
  rewrite list_ascii_app in H. apply Forall_app in H as [_ H].
  unfold CUT_MARK in H. cbn in H. apply Forall_cons in H as [H _]. done.
Qed.

Lemma app_not_empty s : s +:+ CUT_MARK ≠ "".
Proof. by destruct s. Qed.

Lemma logged_message_role role msg :
  role_is role (logged_message msg) = role_is role msg.
Proof.
  destruct msg as [| | | | |d]; try done. unfold logged_message.
  destruct (d !! "content") as [[| | |s| |]|]; try done.
  case_match; [|done]. cbn. unfold dict_get. by rewrite lookup_insert_ne.
Qed.

Lemma logged_message_content msg b :
  has_content msg = Ok b →
  ∃ b', has_content (logged_message msg) = Ok b' ∧ (b = true → b' = true).
Proof.
  destruct msg as [| | | | |d]; try done. unfold logged_message.
  destruct (d !! "content") as [[| | |s| |]|] eqn:Hc; try (by exists b).
  destruct (200 <? String.length s) eqn:Hlen; [|by exists b].
  intros _. exists true. split; [|done].
  unfold has_content. cbn [py_get mbind res_bind].
  rewrite (dict_get_Some _ _ (PStr (String.substring 0 200 s +:+ CUT_MARK)))
    by (cbn [cut_long]; rewrite Hlen; by rewrite lookup_insert_eq).
  cbn [truthy py_strip mbind res_bind].
  destruct (String.eqb_spec (String.substring 0 200 s +:+ CUT_MARK) "") as [He|_];
    [by apply app_not_empty in He|].
  cbn [negb].
  destruct (String.eqb_spec (strip (String.substring 0 200 s +:+ CUT_MARK)) "") as [He|_];
    [by apply cut_not_blank in He|].
  done.
Qed.

Lemma accepted_messages_logged req messages :
  accepted_messages req messages →
  accepted_messages (log_request_info DEBUG_MODE req)
    (if DEBUG_MODE then logged_message <$> messages else messages).
Proof.
  intros (Hmsgs & Hread & Huser). split; [by apply logged_messages|].
  destruct DEBUG_MODE; [|done]. split.
  - apply Forall_fmap. eapply Forall_impl; [exact Hread|].
    intros msg [b Hb]. cbn.
    destruct (logged_message_content msg b Hb) as (b' & Hb' & _). by exists b'.
  - apply Exists_fmap. eapply Exists_impl; [exact Huser|].
    intros msg [Hrole Hfilled]. cbn. rewrite logged_message_role. split; [done|].
    unfold filled in *. destruct (has_content msg) as [b|] eqn:Hb; [|done].
    destruct (logged_message_content msg b Hb) as (b' & Hb' & Himp).
    rewrite Hb'. by apply Himp.
Qed.

Lemma completions_request_blank req :
  truthy (dict_get req "prompt" PNone) = false
  ∨ (∃ s, dict_get req "prompt" PNone = PStr s ∧ strip s = "") →
  completions_request req
  = (Return (Reply 400 (ErrorBody (ErrText "Prompt cannot be empty"))), []).
Proof.
  intros H. unfold completions_request. rewrite lift_bind.
  destruct H as [H|(s & Hs & Hstrip)].
  - by rewrite H.
  - rewrite Hs. cbn. rewrite Hstrip. by destruct s.
Qed.

Lemma capped_max_tokens n :
  (if (MAX_OUTPUT_TOKENS <? n)%Z then PInt MAX_OUTPUT_TOKENS else PInt n)
  = PInt (Z.min n MAX_OUTPUT_TOKENS).
Proof. destruct (Z.ltb_spec MAX_OUTPUT_TOKENS n); f_equal; lia. Qed.

(** The request of [/v1/completions] for an accepted prompt, in terms of
    the block for Claude 3.7. *)
Lemma completions_request_ok req p m n feats :
  accepted_prompt req p →
  typed_request req m n →
  let max_tokens := PInt (Z.min n MAX_OUTPUT_TOKENS) in
  let use_thinking_mode := thinking_mode req (PStr m) in
  let bed_params : gmap string pyval :=
    {[ "anthropic_version" := PStr "bedrock-2023-05-31";
       "max_tokens" := max_tokens;
       "temperature" := dict_get req "temperature" (PInt 1);
       "messages" := PList [PDict {[ "role" := PStr "user"; "content" := PStr p ]}] ]} in
  let bed_params :=
    if negb use_thinking_mode
    then <["top_p" := dict_get req "top_p" (PInt 1)]> bed_params
    else bed_params in
  (if contains "claude-3-7" m
   then claude_37_features req max_tokens use_thinking_mode
          (dict_get req "enable_extended_output" (PBool false)) bed_params
   else Ok bed_params) = Ok feats →
  completions_request req
  = (Val {| model_name := PStr m;
            model_id := default DEFAULT_MODEL_ID (assoc m MODEL_MAPPING);
            reads_thinking := contains "claude-3-7" m && use_thinking_mode;
            bed_params :=
              if truthy (dict_get req "stop" PNone)
              then <["stop_sequences" := dict_get req "stop" PNone]> feats
              else feats |}, []).
Proof.
  intros [Hp Hstrip] [Hm Hn] max_tokens use_thinking_mode bp0 bp1 Hfeats.
  unfold completions_request. rewrite lift_bind, Hp.
  assert (Hp' : p ≠ "") by (intros ->; by apply Hstrip).
  cbn [truthy negb py_strip mbind res_bind].
  destruct (String.eqb_spec p ""); [done|]. cbn [negb].
  destruct (String.eqb_spec (strip p) ""); [done|]. cbn [negb].
  rewrite Hm. rewrite lift_bind. cbn [mapping_get].
  rewrite lift_bind. rewrite Hn. cbn [py_gt as_num].
  rewrite lift_bind. cbn [py_in]. rewrite capped_max_tokens.
  fold max_tokens. fold use_thinking_mode. fold bp0. fold bp1.
  rewrite lift_bind. rewrite Hfeats. done.
Qed.

Lemma role_user_not_assistant msg :
  role_is "user" msg = true → role_is "assistant" msg = false.
Proof.
  destruct msg as [| | | | |d]; try done. cbn.
  destruct (dict_get d "role" PNone) as [| | |s| |]; try done. cbn.
  destruct (String.eqb_spec s "user") as [->|]; done.
Qed.

Lemma readable_filled msg : readable msg → has_content msg = Ok (filled msg).
Proof. intros [b Hb]. unfold filled. by rewrite Hb. Qed.

Lemma readable_role msg :
  readable msg → py_get msg "role" PNone = Ok (dict_get (match msg with PDict d => d | _ => ∅ end) "role" PNone).
Proof. intros [b Hb]. by destruct msg. Qed.

Lemma filter_messages_kept_from i messages :
  Forall readable messages →
  filter_messages (i + length messages) i messages = Ok (kept_messages messages).
Proof.
  intros Hall. revert i. induction Hall as [|msg rest Hmsg Hrest IH]; intros i; [done|].
  cbn [filter_messages]. rewrite (readable_filled _ Hmsg). cbn [mbind res_bind].
  destruct rest as [|msg' rest'].
  - cbn [length]. replace (i + 1 - 1) with i by lia. rewrite Nat.eqb_refl.
    unfold kept_messages. cbn [removelast last filter app list_filter].
    destruct (filled msg) eqn:Hf; cbn [mbind res_bind orb]; [done|].
    rewrite (readable_role _ Hmsg). cbn [mbind res_bind].
    destruct Hmsg as [b Hb]. by destruct msg as [| | | | |d].
  - replace (i =? i + length (msg :: msg' :: rest') - 1) with false
      by (symmetry; apply Nat.eqb_neq; cbn [length]; lia).
    replace (i + length (msg :: msg' :: rest')) with (S i + length (msg' :: rest'))
      by (cbn [length]; lia).
    rewrite IH. unfold kept_messages.
    change (removelast (msg :: msg' :: rest')) with (msg :: removelast (msg' :: rest')).
    change (last (msg :: msg' :: rest')) with (last (msg' :: rest')).
    rewrite filter_cons.
    destruct (filled msg); cbn [mbind res_bind]; by case_decide.
Qed.

Lemma filter_messages_kept messages :
  Forall readable messages →
  filter_messages (length messages) 0 messages = Ok (kept_messages messages).
Proof. apply (filter_messages_kept_from 0). Qed.

Lemma removelast_last {A} (l : list A) :
  l = removelast l ++ match last l with Some x => [x] | None => [] end.
Proof.
  induction l as [|x l IH]; [done|].
  destruct l as [|y l]; [done|].
  change (removelast (x :: y :: l)) with (x :: removelast (y :: l)).
  change (last (x :: y :: l)) with (last (y :: l)).
  cbn [app]. by rewrite <- IH.
Qed.

Lemma kept_messages_elem msg messages :
  msg ∈ kept_messages messages →
  msg ∈ messages ∧ (filled msg = true ∨ role_is "assistant" msg = true).
Proof.
  unfold kept_messages. rewrite (removelast_last messages) at 3.
  intros [Hin|Hin]%elem_of_app.
  - apply list_elem_of_filter in Hin as [Hf Hin]. split; [|by left].
    apply elem_of_app. by left.
  - destruct (last messages) as [m|]; [|by apply elem_of_nil in Hin].
    destruct (filled m || role_is "assistant" m) eqn:Hk;
      [|by apply elem_of_nil in Hin].
    apply list_elem_of_singleton in Hin as ->. split.
    + apply elem_of_app. right. by apply list_elem_of_singleton.
    + by apply orb_true_iff in Hk.
Qed.

Lemma kept_messages_filled msg messages :
  msg ∈ messages → filled msg = true → msg ∈ kept_messages messages.
Proof.
  intros Hin Hf. unfold kept_messages.
  rewrite (removelast_last messages) in Hin.
  apply elem_of_app in Hin as [Hin|Hin]; apply elem_of_app.
  - left. by apply list_elem_of_filter.
  - right. destruct (last messages) as [m|]; [|done].
    apply list_elem_of_singleton in Hin as ->. rewrite Hf. cbn.
    by apply list_elem_of_singleton.
Qed.

Lemma kept_without_user messages :
  Forall (λ m, role_is "user" m = true → filled m = false) messages →
  existsb (role_is "user") (kept_messages messages) = false.
Proof.
  intros Hall. apply not_true_iff_false. intros Hex.
  apply existsb_exists in Hex as (m & Hin & Huser).
  apply list_elem_of_In, kept_messages_elem in Hin as [Hin [Hf|Ha]].
  - rewrite Forall_forall in Hall. specialize (Hall m Hin Huser). congruence.
  - rewrite (role_user_not_assistant _ Huser) in Ha. done.
Qed.

Lemma kept_with_user messages :
  Exists (λ m, role_is "user" m = true ∧ filled m = true) messages →
  existsb (role_is "user") (kept_messages messages) = true.
Proof.
  intros (m & Hin & Huser & Hf)%Exists_exists.
  apply existsb_exists. exists m. split; [|done].
  apply list_elem_of_In. by apply kept_messages_filled.
Qed.

(** The request of [/v1/chat/completions] up to the check of the
    messages. *)
Lemma chat_request_rejected req m n messages :
  typed_request req m n →
  dict_get req "messages" (PList []) = PList messages →
  Forall readable messages →
  Forall (λ msg, role_is "user" msg = true → filled msg = false) messages →
  chat_request req
  = (Return (Reply 400 (ErrorBody
       (ErrText "At least one user message with content is required"))), []).
Proof.
  intros [Hm Hn] Hmsgs Hread Hnone. unfold chat_request.
  rewrite Hm, lift_bind. cbn [mapping_get].
  rewrite Hn, lift_bind. cbn [py_gt as_num].
  rewrite Hmsgs, lift_bind. cbn [py_iter].
  rewrite lift_bind, (filter_messages_kept _ Hread).
  by rewrite (kept_without_user _ Hnone), orb_true_r.
Qed.

(** The request of [/v1/chat/completions] for accepted messages. *)
Lemma chat_request_ok req m n messages feats :
  accepted_messages req messages →
  typed_request req m n →
  let max_tokens := PInt (Z.min n MAX_OUTPUT_TOKENS) in
  let use_thinking_mode := thinking_mode req (PStr m) in
  let bed_params : gmap string pyval :=
    {[ "anthropic_version" := PStr "bedrock-2023-05-31";
       "max_tokens" := max_tokens;
       "temperature" := dict_get req "temperature" (PInt 1);
       "messages" := PList (kept_messages messages) ]} in
  let bed_params :=
    if negb use_thinking_mode
    then <["top_p" := dict_get req "top_p" (PInt 1)]> bed_params
    else bed_params in
  (if contains "claude-3-7" m
   then claude_37_features req max_tokens use_thinking_mode
          (dict_get req "enable_extended_output" (PBool false)) bed_params
   else Ok bed_params) = Ok feats →
  chat_request req
  = (Val ({| model_name := PStr m;
             model_id := default DEFAULT_MODEL_ID (assoc m MODEL_MAPPING);
             reads_thinking := contains "claude-3-7" m && use_thinking_mode;
             bed_params :=
               let stop := dict_get req "stop" PNone in
               if truthy stop
               then <["stop_sequences" := if is_list stop then stop else PList [stop]]> feats
               else feats |}, messages), []).
Proof.
  intros (Hmsgs & Hread & Huser) [Hm Hn] max_tokens use_thinking_mode bp0 bp1 Hfeats.
  unfold chat_request.
  rewrite Hm, lift_bind. cbn [mapping_get].
  rewrite Hn, lift_bind. cbn [py_gt as_num].
  rewrite Hmsgs, lift_bind. cbn [py_iter].
  rewrite lift_bind, (filter_messages_kept _ Hread).
  pose proof (kept_with_user _ Huser) as Hex. rewrite Hex.
  destruct (kept_messages messages) as [|k0 kept] eqn:Hkept; [done|].
  cbn [orb negb]. rewrite capped_max_tokens.
  fold max_tokens. fold use_thinking_mode. fold bp0. fold bp1.
  rewrite lift_bind. cbn [py_in]. rewrite lift_bind, Hfeats. done.
Qed.

(** *** The block for Claude 3.7 *)

Lemma thinking_budget_default req n :
  no_budget_field req →
  thinking_budget req (PInt n) = Ok (default_budget n).
Proof.
  intros (H1 & H2 & H3). unfold thinking_budget. rewrite H1, H2, H3.
  cbn. unfold default_budget. cbv zeta.
  rewrite (Z.max_r 1024) by lia. by case_match.
Qed.

Lemma claude_37_features_other req max_tokens use_thinking_mode extended bed bed' k :
  claude_37_features req max_tokens use_thinking_mode extended bed = Ok bed' →
  k ≠ "thinking" → k ≠ "anthropic_beta" →
  bed' !! k = bed !! k.
Proof.
  unfold claude_37_features. intros H Hk1 Hk2.
  destruct use_thinking_mode.
  - destruct (thinking_budget req max_tokens) as [b|]; [|done].
    cbn [mbind res_bind] in H.
    destruct (truthy extended).
    + destruct (py_gt max_tokens 64000) as [big|]; [|done].
      cbn [mbind res_bind] in H.
      destruct big, (truthy (dict_get req "enable_computer_use" (PBool false)));
        injection H as <-; by rewrite ?lookup_insert_ne by done.
    + cbn [mbind res_bind] in H.
      destruct (truthy (dict_get req "enable_computer_use" (PBool false)));
        injection H as <-; by rewrite ?lookup_insert_ne by done.
  - cbn [mbind res_bind] in H.
    destruct (truthy extended).
    + destruct (py_gt max_tokens 64000) as [big|]; [|done].
      cbn [mbind res_bind] in H.
      destruct big, (truthy (dict_get req "enable_computer_use" (PBool false)));
        injection H as <-; by rewrite ?lookup_insert_ne by done.
    + cbn [mbind res_bind] in H.
      destruct (truthy (dict_get req "enable_computer_use" (PBool false)));
        injection H as <-; by rewrite ?lookup_insert_ne by done.
Qed.

Lemma claude_37_features_thinking req max_tokens extended bed bed' :
  claude_37_features req max_tokens true extended bed = Ok bed' →
  ∃ b, thinking_budget req max_tokens = Ok b
    ∧ bed' !! "thinking" = Some (PDict (enabled_thinking b)).
Proof.
  unfold claude_37_features. intros H.
  destruct (thinking_budget req max_tokens) as [b|]; [|done].
  exists b. split; [done|].
  cbn [mbind res_bind] in H.
  destruct (truthy extended).
  - destruct (py_gt max_tokens 64000) as [big|]; [|done].
    cbn [mbind res_bind] in H.
    destruct big, (truthy (dict_get req "enable_computer_use" (PBool false)));
      injection H as <-; rewrite ?lookup_insert_ne by done; by rewrite lookup_insert_eq.
  - cbn [mbind res_bind] in H.
    destruct (truthy (dict_get req "enable_computer_use" (PBool false)));
      injection H as <-; rewrite ?lookup_insert_ne by done; by rewrite lookup_insert_eq.
Qed.

(** With an integer [max_tokens] the block fails only in the budget. *)
Lemma claude_37_features_total req n use_thinking_mode extended bed b :
  thinking_budget req (PInt n) = Ok b →
  ∃ bed', claude_37_features req (PInt n) use_thinking_mode extended bed = Ok bed'.
Proof.
  intros Hb. unfold claude_37_features. rewrite Hb.
  destruct use_thinking_mode; cbn; repeat case_match; by eexists.
Qed.


(** *** What reaches the backend *)

Lemma call_backend_trace {A} op
    (func : nat → string → gmap string pyval → outcome A) modelId body :
  (call_backend DEBUG_MODE int_of_str uniform op func modelId body).2
  = (invoke_with_retry DEBUG_MODE int_of_str uniform op func modelId body).2.
Proof.
  unfold call_backend.
  by destruct (invoke_with_retry _ _ _ _ _ _ _) as [[[response|]|e] t].
Qed.

Lemma bind_trace_quiet {A B} (m : io A) (f : A → io B) :
  (∀ a, (f a).2 = []) → (m ≫= f).2 = m.2.
Proof.
  intros Hf. destruct m as [[a|r|e] t]; [|done|done].
  unfold mbind, io_bind. specialize (Hf a). destruct (f a) as [x t'].
  cbn in *. subst. by rewrite app_nil_r.
Qed.

Lemma lift_trace {A} (m : res A) : (lift m).2 = [].
Proof. by destruct m. Qed.

Lemma lift_bind_quiet {A B} (m : res A) (f : A → io B) :
  (∀ a, (f a).2 = []) → (lift m ≫= f).2 = [].
Proof. intros Hf. by rewrite bind_trace_quiet, lift_trace. Qed.

Lemma catch_trace {A} (m : io A) handler : (catch m handler).2 = m.2.
Proof. destruct m as [[a|r|e] t]; try done. cbn. by case_match. Qed.

Lemma run_trace m : (run m).2 = m.2.
Proof. by destruct m as [[a|r|e] t]. Qed.

Lemma completions_sent req r :
  completions_request (log_request_info DEBUG_MODE req) = (Val r, []) →
  ∃ n, n ≤ MAX_RETRIES
    ∧ sent_bodies
        (completions DEBUG_MODE int_of_str str_of encode_length invoke_model
           invoke_model_with_response_stream uniform req).2
      = replicate (S n)
          (dispatched DEBUG_MODE int_of_str (model_id r) (bed_params r)).
Proof.
  intros Hreq. unfold completions, completions_io. cbv zeta.
  rewrite run_trace, Hreq, val_bind.
  destruct (truthy (dict_get _ "stream" (PBool false))).
  - rewrite catch_trace, bind_trace_quiet, call_backend_trace.
    + apply invoke_with_retry_sent.
    + intros body. by destruct (completions_generate_stream body).
  - rewrite bind_trace_quiet, call_backend_trace.
    + apply invoke_with_retry_sent.
    + intros bed_response. repeat (apply lift_bind_quiet; intros ?). done.
Qed.

Lemma chat_completions_sent req r message_list :
  chat_request (log_request_info DEBUG_MODE req) = (Val (r, message_list), []) →
  ∃ n, n ≤ MAX_RETRIES
    ∧ sent_bodies
        (chat_completions DEBUG_MODE int_of_str str_of encode_length invoke_model
           invoke_model_with_response_stream uniform req).2
      = replicate (S n)
          (dispatched DEBUG_MODE int_of_str (model_id r) (bed_params r)).
Proof.
  intros Hreq. unfold chat_completions, chat_completions_io. cbv zeta.
  rewrite run_trace, Hreq, val_bind.
  destruct (truthy (dict_get _ "stream" (PBool false))).
  - rewrite catch_trace, bind_trace_quiet, call_backend_trace.
    + apply invoke_with_retry_sent.
    + intros body. by destruct (chat_generate_stream (model_name r) body).
  - rewrite bind_trace_quiet, call_backend_trace.
    + apply invoke_with_retry_sent.
    + intros bed_response. repeat (apply lift_bind_quiet; intros ?). done.
Qed.


(** *** Replies *)

Lemma replies_bind {A B} (P : reply → Prop) (Q : B → Prop) (m : io A) (f : A → io B) :
  replies P (λ a, replies P Q (f a)) m → replies P Q (m ≫= f).
Proof.
  destruct m as [[a|r|e] t]; unfold replies; cbn; try done.
  by destruct (f a).
Qed.

Lemma replies_lift {A} (P : reply → Prop) (Q : A → Prop) (m : res A) :
  (∀ a, m = Ok a → Q a) → replies P Q (lift m).
Proof. destruct m; unfold replies; cbn; auto. Qed.

Lemma replies_call_backend {A} (P : reply → Prop) (Q : A → Prop) op
    (func : nat → string → gmap string pyval → outcome A) modelId body :
  (∀ a, Q a) →
  replies P Q (call_backend DEBUG_MODE int_of_str uniform op func modelId body).
Proof.
  intros HQ. unfold call_backend, replies.
  destruct (invoke_with_retry _ _ _ _ _ _ _) as [[[response|]|e] t]; cbn; auto.
Qed.

Lemma replies_catch {A} (P : reply → Prop) (Q : A → Prop) (m : io A) handler :
  (∀ e r, handler e = Some r → P r) →
  replies P Q m → replies P Q (catch m handler).
Proof.
  intros Hh. destruct m as [[a|r|e] t]; unfold replies; cbn; try done.
  intros _. destruct (handler e) eqn:He; cbn; [by eapply Hh|done].
Qed.

Lemma replies_run (P : reply → Prop) m :
  (∀ e, P (Reply 500 (ErrorBody (ErrUncaught e)))) →
  replies P P m → P (run m).1.
Proof. intros He. destruct m as [[a|r|e] t]; unfold replies; cbn; auto. Qed.

Lemma token_usage_consistent prompt content thinking_content u :
  token_usage encode_length prompt content thinking_content = Ok u →
  usage_adds_up u
  ∧ (is_Some (thinking_tokens u) ↔ truthy thinking_content = true).
Proof.
  unfold token_usage.
  destruct (count_tokens encode_length prompt) as [pt|]; [|done].
  destruct (count_tokens encode_length content) as [ct|]; [|done].
  cbn [mbind res_bind].
  destruct (truthy thinking_content).
  - destruct (count_tokens encode_length thinking_content) as [tt|]; [|done].
    cbn [mbind res_bind]. intros [= <-]. unfold usage_adds_up. cbn.
    split; [done|]. split; [done|by eexists].
  - cbn [mbind res_bind]. intros [= <-]. unfold usage_adds_up. cbn.
    split; [lia|]. split; [by intros [? ?]|done].
Qed.

Lemma thinking_field_present (thinking_content : pyval) (f : pyval → pyval) :
  is_Some (if truthy thinking_content then Some (f thinking_content) else None)
  ↔ truthy thinking_content = true.
Proof. destruct (truthy thinking_content); split; try done; by intros [? ?]. Qed.

Lemma completions_request_replies req :
  replies usage_consistent (λ _, True) (completions_request req).
Proof.
  unfold completions_request.
  apply replies_bind, replies_lift. intros blank _.
  destruct blank; [done|].
  repeat (apply replies_bind, replies_lift; intros ? _). done.
Qed.

Lemma chat_request_replies req :
  replies usage_consistent (λ _, True) (chat_request req).
Proof.
  unfold chat_request.
  repeat (apply replies_bind, replies_lift; intros ? _).
  case_match; [done|].
  repeat (apply replies_bind, replies_lift; intros ? _). done.
Qed.

Lemma completions_usage req :
  usage_consistent
    (completions DEBUG_MODE int_of_str str_of encode_length invoke_model
       invoke_model_with_response_stream uniform req).1.
Proof.
  unfold completions. apply replies_run; [done|].
  unfold completions_io. cbv zeta. apply replies_bind.
  pose proof (completions_request_replies (log_request_info DEBUG_MODE req)) as Hreq.
  unfold replies in *.
  destruct (completions_request (log_request_info DEBUG_MODE req)) as [[r|r|e] t];
    cbn in *; [|done|done].
  destruct (truthy (dict_get _ "stream" (PBool false))).
  - apply replies_catch; [intros e r' H; by repeat case_match; simplify_eq|].
    apply replies_bind, replies_call_backend. intros body.
    by destruct (completions_generate_stream body).
  - apply replies_bind, replies_call_backend. intros bed_response.
    do 3 (apply replies_bind, replies_lift; intros ? _).
    apply replies_bind, replies_lift. intros u Hu.
    apply token_usage_consistent in Hu as [Hsum Hfield].
    unfold replies, usage_consistent. cbn. split; [done|].
    by rewrite thinking_field_present.
Qed.

Lemma chat_completions_usage req :
  usage_consistent
    (chat_completions DEBUG_MODE int_of_str str_of encode_length invoke_model
       invoke_model_with_response_stream uniform req).1.
Proof.
  unfold chat_completions. apply replies_run; [done|].
  unfold chat_completions_io. cbv zeta. apply replies_bind.
  pose proof (chat_request_replies (log_request_info DEBUG_MODE req)) as Hreq.
  unfold replies in *.
  destruct (chat_request (log_request_info DEBUG_MODE req)) as [[[r msgs]|r|e] t];
    cbn in *; [|done|done].
  destruct (truthy (dict_get _ "stream" (PBool false))).
  - apply replies_catch; [intros e r' H; by repeat case_match; simplify_eq|].
    apply replies_bind, replies_call_backend. intros body.
    by destruct (chat_generate_stream (model_name r) body).
  - apply replies_bind, replies_call_backend. intros bed_response.
    do 4 (apply replies_bind, replies_lift; intros ? _).
    apply replies_bind, replies_lift. intros u Hu.
    apply token_usage_consistent in Hu as [Hsum Hfield].
    unfold replies, usage_consistent. cbn. split; [done|].
    by rewrite thinking_field_present.
Qed.

(** Claim C10.  Whenever either POST handler answers with a completion
    or chat-completion object, [usage.total_tokens] is the sum of
    [usage.prompt_tokens], [usage.completion_tokens] and the thinking
    count, which is the [usage.thinking_tokens] field when the reply
    carries thinking content and 0 when it carries none (the field is then
    absent). *)
Theorem usage_total_is_sum req :
  (∀ status c t,
     completions DEBUG_MODE int_of_str str_of encode_length invoke_model
       invoke_model_with_response_stream uniform req
     = (Reply status (CompletionBody c), t) →
     total_tokens (cr_usage c)
     = prompt_tokens (cr_usage c) + completion_tokens (cr_usage c)
       + default 0 (thinking_tokens (cr_usage c))
     ∧ (is_Some (thinking_tokens (cr_usage c)) ↔ is_Some (cr_thinking c)))
  ∧ (∀ status c t,
       chat_completions DEBUG_MODE int_of_str str_of encode_length invoke_model
         invoke_model_with_response_stream uniform req
       = (Reply status (ChatBody c), t) →
       total_tokens (ch_usage c)
       = prompt_tokens (ch_usage c) + completion_tokens (ch_usage c)
         + default 0 (thinking_tokens (ch_usage c))
       ∧ (is_Some (thinking_tokens (ch_usage c)) ↔ is_Some (ch_thinking c))).
Proof.
  split; intros status c t Heq.
  - pose proof (completions_usage req) as H. by rewrite Heq in H.
  - pose proof (chat_completions_usage req) as H. by rewrite Heq in H.
Qed.


(** *** What the handlers send *)

Lemma with_stop_lookup (stop : pyval) (v : pyval) (feats : gmap string pyval) k :
  k ≠ "stop_sequences" →
  (if truthy stop then <["stop_sequences" := v]> feats else feats) !! k = feats !! k.
Proof. intros Hk. case_match; [by rewrite lookup_insert_ne|done]. Qed.

(** A request for a Claude 3.7 alias with reasoning enabled and a budget
    the handler can compute: every attempt carries the body [bed] as
    [invoke_with_retry] hands it on, and [bed] holds that budget and the
    capped [max_tokens]. *)
Lemma completions_thinking_sent req p m n b :
  accepted_prompt req p →
  typed_request req m n →
  contains "claude-3-7" m = true →
  thinking_mode req (PStr m) = true →
  thinking_budget req (PInt (Z.min n MAX_OUTPUT_TOKENS)) = Ok b →
  ∃ k bed, k ≤ MAX_RETRIES
    ∧ sent_bodies
        (completions DEBUG_MODE int_of_str str_of encode_length invoke_model
           invoke_model_with_response_stream uniform req).2
      = replicate (S k)
          (dispatched DEBUG_MODE int_of_str
             (default DEFAULT_MODEL_ID (assoc m MODEL_MAPPING)) bed)
    ∧ bed !! "thinking" = Some (PDict (enabled_thinking b))
    ∧ bed !! "max_tokens" = Some (PInt (Z.min n MAX_OUTPUT_TOKENS)).
Proof.
  intros Hp%accepted_prompt_logged Htyped%typed_request_logged H37 Hmode Hbudget.
  rewrite <- (thinking_mode_logged req) in Hmode.
  rewrite <- (thinking_budget_logged req) in Hbudget.
  set (req' := log_request_info DEBUG_MODE req) in *.
  edestruct (claude_37_features_total req' (Z.min n MAX_OUTPUT_TOKENS) true)
    as [feats Hfeats]; [exact Hbudget|].
  epose proof (completions_request_ok req' p m n feats Hp Htyped) as Hreq.
  cbv zeta in Hreq. rewrite H37, Hmode in Hreq. specialize (Hreq Hfeats).
  destruct (completions_sent req _ Hreq) as (k & Hk & Hsent).
  eexists k, _. split; [done|]. split; [exact Hsent|].
  cbn [model_id bed_params]. rewrite !with_stop_lookup by done. split.
  - apply claude_37_features_thinking in Hfeats as (b1 & Hb1 & Hth).
    rewrite Hbudget in Hb1. by injection Hb1 as <-.
  - by rewrite (claude_37_features_other _ _ _ _ _ _ _ Hfeats).
Qed.

Lemma chat_thinking_sent req messages m n b :
  accepted_messages req messages →
  typed_request req m n →
  contains "claude-3-7" m = true →
  thinking_mode req (PStr m) = true →
  thinking_budget req (PInt (Z.min n MAX_OUTPUT_TOKENS)) = Ok b →
  ∃ k bed, k ≤ MAX_RETRIES
    ∧ sent_bodies
        (chat_completions DEBUG_MODE int_of_str str_of encode_length invoke_model
           invoke_model_with_response_stream uniform req).2
      = replicate (S k)
          (dispatched DEBUG_MODE int_of_str
             (default DEFAULT_MODEL_ID (assoc m MODEL_MAPPING)) bed)
    ∧ bed !! "thinking" = Some (PDict (enabled_thinking b))
    ∧ bed !! "max_tokens" = Some (PInt (Z.min n MAX_OUTPUT_TOKENS)).
Proof.
  intros Hmsgs%accepted_messages_logged Htyped%typed_request_logged H37 Hmode Hbudget.
  rewrite <- (thinking_mode_logged req) in Hmode.
  rewrite <- (thinking_budget_logged req) in Hbudget.
  set (req' := log_request_info DEBUG_MODE req) in *.
  edestruct (claude_37_features_total req' (Z.min n MAX_OUTPUT_TOKENS) true)
    as [feats Hfeats]; [exact Hbudget|].
  epose proof (chat_request_ok req' m n _ feats Hmsgs Htyped) as Hreq.
  cbv zeta in Hreq. rewrite H37, Hmode in Hreq. specialize (Hreq Hfeats).
  destruct (chat_completions_sent req _ _ Hreq) as (k & Hk & Hsent).
  eexists k, _. split; [done|]. split; [exact Hsent|].
  cbn [model_id bed_params]. rewrite !with_stop_lookup by done. split.
  - apply claude_37_features_thinking in Hfeats as (b1 & Hb1 & Hth).
    rewrite Hbudget in Hb1. by injection Hb1 as <-.
  - by rewrite (claude_37_features_other _ _ _ _ _ _ _ Hfeats).
Qed.

(** A request with reasoning enabled for an alias outside Claude 3.7:
    the body has no [thinking] and no [top_p]. *)
Lemma completions_plain_sent req p m n :
  accepted_prompt req p →
  typed_request req m n →
  contains "claude-3-7" m = false →
  thinking_mode req (PStr m) = true →
  ∃ k bed, k ≤ MAX_RETRIES
    ∧ sent_bodies
        (completions DEBUG_MODE int_of_str str_of encode_length invoke_model
           invoke_model_with_response_stream uniform req).2
      = replicate (S k)
          (dispatched DEBUG_MODE int_of_str
             (default DEFAULT_MODEL_ID (assoc m MODEL_MAPPING)) bed)
    ∧ bed !! "thinking" = None ∧ bed !! "top_p" = None
    ∧ bed !! "model" = None ∧ bed !! "_model_name" = None.
Proof.
  intros Hp%accepted_prompt_logged Htyped%typed_request_logged H37 Hmode.
  rewrite <- (thinking_mode_logged req) in Hmode.
  set (req' := log_request_info DEBUG_MODE req) in *.
  epose proof (completions_request_ok req' p m n _ Hp Htyped) as Hreq.
  cbv zeta in Hreq. rewrite H37, Hmode in Hreq. specialize (Hreq eq_refl).
  destruct (completions_sent req _ Hreq) as (k & Hk & Hsent).
  eexists k, _. split; [done|]. split; [exact Hsent|].
  cbn [model_id bed_params negb]. by rewrite !with_stop_lookup by done.
Qed.

Lemma chat_plain_sent req messages m n :
  accepted_messages req messages →
  typed_request req m n →
  contains "claude-3-7" m = false →
  thinking_mode req (PStr m) = true →
  ∃ k bed, k ≤ MAX_RETRIES
    ∧ sent_bodies
        (chat_completions DEBUG_MODE int_of_str str_of encode_length invoke_model
           invoke_model_with_response_stream uniform req).2
      = replicate (S k)
          (dispatched DEBUG_MODE int_of_str
             (default DEFAULT_MODEL_ID (assoc m MODEL_MAPPING)) bed)
    ∧ bed !! "thinking" = None ∧ bed !! "top_p" = None
    ∧ bed !! "model" = None ∧ bed !! "_model_name" = None.
Proof.
  intros Hmsgs%accepted_messages_logged Htyped%typed_request_logged H37 Hmode.
  rewrite <- (thinking_mode_logged req) in Hmode.
  set (req' := log_request_info DEBUG_MODE req) in *.
  epose proof (chat_request_ok req' m n _ _ Hmsgs Htyped) as Hreq.
  cbv zeta in Hreq. rewrite H37, Hmode in Hreq. specialize (Hreq eq_refl).
  destruct (chat_completions_sent req _ _ Hreq) as (k & Hk & Hsent).
  eexists k, _. split; [done|]. split; [exact Hsent|].
  cbn [model_id bed_params negb]. by rewrite !with_stop_lookup by done.
Qed.

(** *** The thinking budget that is sent *)

Lemma dispatched_budget modelId (bed : gmap string pyval) b :
  bed !! "thinking" = Some (PDict (enabled_thinking b)) →
  budget_tokens (dispatched DEBUG_MODE int_of_str modelId bed)
  = Some (PInt (if DEBUG_MODE then Z.max 1024 b else b)).
Proof.
  intros Hth. unfold dispatched. destruct DEBUG_MODE.
  - destruct (debug_body_with_thinking int_of_str modelId bed _ Hth)
      as (b' & _ & Hlook & Hbt & _).
    rewrite checked_enabled_thinking in Hlook. by injection Hlook as <-.
  - unfold budget_tokens. by rewrite Hth.
Qed.

(** The default budget meets the minimum of 1024 exactly from
    [max_tokens = 1280] on, and stays below [max_tokens]. *)
Lemma default_budget_bounds n :
  (1280 ≤ n)%Z → (1024 ≤ default_budget n < n)%Z.
Proof.
  intros Hn. unfold default_budget, int_half, int_08. cbv zeta.
  rewrite !Z.quot_div_nonneg by lia.
  pose proof (Z.div_mod (4 * n) 5 ltac:(lia)).
  pose proof (Z.mod_pos_bound (4 * n) 5 ltac:(lia)).
  pose proof (Z.div_mod n 2 ltac:(lia)).
  pose proof (Z.mod_pos_bound n 2 ltac:(lia)).
  destruct (Z.leb_spec n (Z.max 4000 (n / 2))); lia.
Qed.

Lemma default_budget_below_minimum n :
  (1 ≤ n < 1280)%Z → (default_budget n < 1024)%Z.
Proof.
  intros Hn. unfold default_budget, int_half, int_08. cbv zeta.
  rewrite !Z.quot_div_nonneg by lia.
  pose proof (Z.div_mod (4 * n) 5 ltac:(lia)).
  pose proof (Z.mod_pos_bound (4 * n) 5 ltac:(lia)).
  pose proof (Z.div_mod n 2 ltac:(lia)).
  pose proof (Z.mod_pos_bound n 2 ltac:(lia)).
  destruct (Z.leb_spec n (Z.max 4000 (n / 2))); lia.
Qed.

(** From 0 on the truncations are floors. *)
Lemma default_budget_exact n :
  (0 ≤ n)%Z →
  default_budget n
  = let half := Z.max 4000 (n / 2) in
    if (n <=? half)%Z then (4 * n / 5)%Z else half.
Proof.
  intros Hn. unfold default_budget, int_half, int_08. cbv zeta.
  by rewrite !Z.quot_div_nonneg by lia.
Qed.

(** Claim C1, as the code has it.  For a request to either POST handler
    that names a Claude 3.7 alias, has reasoning enabled, gives none of
    the three budget fields and has [max_tokens] of at least 1280, with
    [m] the value of [max_tokens] capped at 128000, the thinking budget
    the handler computes is [max(4000, trunc(m / 2))] when that is below
    [m], and [trunc(0.8 * m)] otherwise; it is at least 1024 and below
    [m], and it is the budget every attempt carries, in debug mode too.
    The two truncations are what the binary64 operations [int(m / 2)] and
    [int(m * 0.8)] of the code give.  For [max_tokens = 2000] the budget
    is 1600. *)
Theorem default_budget_sent req m n :
  typed_request req m n →
  (1280 ≤ n)%Z →
  contains "claude-3-7" m = true →
  thinking_mode req (PStr m) = true →
  no_budget_field req →
  let capped := Z.min n MAX_OUTPUT_TOKENS in
  let half := Z.max 4000 (capped / 2) in
  let budget := if (capped <=? half)%Z then (4 * capped / 5)%Z else half in
  (1024 ≤ budget < capped)%Z
  ∧ (float_int_half capped = (capped / 2)%Z
     ∧ float_int_08 capped = (4 * capped / 5)%Z)
  ∧ (∀ p, accepted_prompt req p →
     ∃ k sent, k ≤ MAX_RETRIES
       ∧ sent_bodies
           (completions DEBUG_MODE int_of_str str_of encode_length invoke_model
              invoke_model_with_response_stream uniform req).2
         = replicate (S k) sent
       ∧ budget_tokens sent = Some (PInt budget))
  ∧ (∀ messages, accepted_messages req messages →
       ∃ k sent, k ≤ MAX_RETRIES
         ∧ sent_bodies
             (chat_completions DEBUG_MODE int_of_str str_of encode_length invoke_model
                invoke_model_with_response_stream uniform req).2
           = replicate (S k) sent
         ∧ budget_tokens sent = Some (PInt budget))
  ∧ (n = 2000%Z → budget = 1600%Z).
Proof.
  intros Htyped Hn H37 Hmode Hnone capped half budget.
  assert (Hcap : (1280 ≤ capped)%Z) by (unfold capped, MAX_OUTPUT_TOKENS; lia).
  assert (Hdef : default_budget capped = budget).
  { rewrite default_budget_exact by lia. reflexivity. }
  pose proof (thinking_budget_default req capped Hnone) as Hbudget.
  rewrite Hdef in Hbudget.
  assert (Hbound : (1024 ≤ budget < capped)%Z).
  { rewrite <- Hdef. by apply default_budget_bounds. }
  split; [done|]. split; [apply capped_products_exact; lia|]. split; [|split].
  - intros p Hp.
    destruct (completions_thinking_sent req p m n budget Hp Htyped H37 Hmode Hbudget)
      as (k & bed & Hk & Hsent & Hth & _).
    eexists k, _. split; [done|]. split; [exact Hsent|].
    rewrite (dispatched_budget _ _ _ Hth).
    destruct DEBUG_MODE; [|done]. by rewrite Z.max_r by lia.
  - intros messages Hmsgs.
    destruct (chat_thinking_sent req messages m n budget Hmsgs Htyped H37 Hmode Hbudget)
      as (k & bed & Hk & Hsent & Hth & _).
    eexists k, _. split; [done|]. split; [exact Hsent|].
    rewrite (dispatched_budget _ _ _ Hth).
    destruct DEBUG_MODE; [|done]. by rewrite Z.max_r by lia.
  - intros ->. reflexivity.
Qed.

(** *** A budget that cannot be coerced *)

Lemma thinking_object_mode req model (thinking : gmap string pyval) :
  req !! "thinking" = Some (PDict thinking) →
  truthy (PDict thinking) = true →
  thinking_mode req model = true.
Proof.
  intros Hth Htruthy. unfold thinking_mode.
  by rewrite (dict_get_Some _ _ _ (PBool false) Hth), Htruthy.
Qed.

(** The validator on a budget it cannot coerce. *)
Lemma validate_malformed_budget params (thinking : gmap string pyval) v :
  params !! "thinking" = Some (PDict thinking) →
  thinking !! "budget_tokens" = Some v →
  py_int int_of_str v = None →
  budget_tokens (validate_bedrock_request int_of_str params) = Some (PInt 4000).
Proof.
  intros Hth Hv Hint.
  destruct (validate_with_thinking int_of_str params _ Hth)
    as (b & _ & Hlook & Hvt & _).
  unfold budget_tokens. rewrite Hvt, Hlook. f_equal. f_equal.
  unfold checked_thinking in Hlook. cbv zeta in Hlook.
  destruct (negb (dict_has thinking "type")
            || negb (eq_str (dict_get thinking "type" PNone) "enabled")).
  - rewrite lookup_insert_ne, Hv, Hint, lookup_insert_eq in Hlook by done.
    by injection Hlook as <-.
  - rewrite Hv, Hint, lookup_insert_eq in Hlook. by injection Hlook as <-.
Qed.

(** Claim C6, as the code has it.  A budget placed in the [thinking]
    object is not read by the handlers: whatever its value, the request
    (for a Claude 3.7 alias, with no budget field beside it and with
    [max_tokens] of at least 1280) raises no error and is sent, on every
    attempt and in debug mode too, with the budget of a request that
    names none: with [m] the value of [max_tokens] capped at 128000,
    [max(4000, trunc(m / 2))] when that is below [m], and
    [trunc(0.8 * m)] otherwise (the truncations being what the binary64
    operations of the code give), which is at least 1024 and below [m],
    and is 4000 at the default [max_tokens] of 4096.  The validator, when
    it meets a budget it cannot coerce to an integer, puts 4000 in its
    place. *)
Theorem uncoercible_budget_in_thinking_object req m n (thinking : gmap string pyval) :
  typed_request req m n →
  (1280 ≤ n)%Z →
  contains "claude-3-7" m = true →
  req !! "thinking" = Some (PDict thinking) →
  truthy (PDict thinking) = true →
  no_budget_field req →
  let capped := Z.min n MAX_OUTPUT_TOKENS in
  let half := Z.max 4000 (capped / 2) in
  let budget := if (capped <=? half)%Z then (4 * capped / 5)%Z else half in
  (1024 ≤ budget < capped)%Z
  ∧ (float_int_half capped = (capped / 2)%Z
     ∧ float_int_08 capped = (4 * capped / 5)%Z)
  ∧ (∀ p, accepted_prompt req p →
     ∃ k sent, k ≤ MAX_RETRIES
       ∧ sent_bodies
           (completions DEBUG_MODE int_of_str str_of encode_length invoke_model
              invoke_model_with_response_stream uniform req).2
         = replicate (S k) sent
       ∧ budget_tokens sent = Some (PInt budget))
  ∧ (∀ messages, accepted_messages req messages →
       ∃ k sent, k ≤ MAX_RETRIES
         ∧ sent_bodies
             (chat_completions DEBUG_MODE int_of_str str_of encode_length invoke_model
                invoke_model_with_response_stream uniform req).2
           = replicate (S k) sent
         ∧ budget_tokens sent = Some (PInt budget))
  ∧ (n = DEFAULT_MAX_TOKENS → budget = 4000%Z)
  ∧ (∀ params (body_thinking : gmap string pyval) v,
       params !! "thinking" = Some (PDict body_thinking) →
       body_thinking !! "budget_tokens" = Some v →
       py_int int_of_str v = None →
       budget_tokens (validate_bedrock_request int_of_str params) = Some (PInt 4000)).
Proof.
  intros Htyped Hn H37 Hth Htruthy Hnone capped half budget.
  pose proof (thinking_object_mode req (PStr m) thinking Hth Htruthy) as Hmode.
  assert (Hcap : (1280 ≤ capped)%Z) by (unfold capped, MAX_OUTPUT_TOKENS; lia).
  assert (Hdef : default_budget capped = budget).
  { rewrite default_budget_exact by lia. reflexivity. }
  pose proof (thinking_budget_default req capped Hnone) as Hbudget.
  rewrite Hdef in Hbudget.
  assert (Hbound : (1024 ≤ budget < capped)%Z).
  { rewrite <- Hdef. by apply default_budget_bounds. }
  split; [done|]. split; [apply capped_products_exact; lia|].
  split; [|split; [|split; [|exact validate_malformed_budget]]].
  - intros p Hp.
    destruct (completions_thinking_sent req p m n budget Hp Htyped H37 Hmode Hbudget)
      as (k & bed & Hk & Hsent & Hbed & _).
    eexists k, _. split; [done|]. split; [exact Hsent|].
    rewrite (dispatched_budget _ _ _ Hbed).
    destruct DEBUG_MODE; [|done]. by rewrite Z.max_r by lia.
  - intros messages Hmsgs.
    destruct (chat_thinking_sent req messages m n budget Hmsgs Htyped H37 Hmode Hbudget)
      as (k & bed & Hk & Hsent & Hbed & _).
    eexists k, _. split; [done|]. split; [exact Hsent|].
    rewrite (dispatched_budget _ _ _ Hbed).
    destruct DEBUG_MODE; [|done]. by rewrite Z.max_r by lia.
  - intros ->. reflexivity.
Qed.

(** *** A small [max_tokens] *)

Lemma int_08_small n : (n < 1024)%Z → (int_08 n < 1024)%Z.
Proof.
  intros Hn. unfold int_08. destruct (Z.le_gt_cases 0 n).
  - rewrite Z.quot_div_nonneg by lia. apply Z.div_lt_upper_bound; lia.
  - pose proof (Z.quot_opp_l (- (4 * n)) 5 ltac:(lia)) as Hq.
    rewrite Z.opp_involutive in Hq.
    assert (0 ≤ Z.quot (- (4 * n)) 5)%Z by (apply Z.quot_pos; lia). lia.
Qed.

(** Below 1024 the budget of the handlers is always the 80% of
    [max_tokens], itself below 1024. *)
Lemma thinking_budget_small req n b :
  (n < 1024)%Z → thinking_budget req (PInt n) = Ok b → b = int_08 n.
Proof.
  intros Hn. unfold thinking_budget.
  set (chosen := if truthy (dict_get req "max_thinking_tokens" PNone) then _ else _).
  destruct chosen as [v|]; [|done]. cbn [mbind res_bind].
  unfold py_max. destruct (as_num v) as [z|]; [|done].
  cbn [mbind res_bind num as_num].
  destruct (Z.leb_spec n (Z.max 1024 z)); [|lia]. by intros [= <-].
Qed.

Lemma dispatched_small_max_tokens modelId (bed : gmap string pyval) b n :
  DEBUG_MODE = true →
  bed !! "thinking" = Some (PDict (enabled_thinking b)) →
  bed !! "max_tokens" = Some (PInt n) →
  (n < 1024)%Z → (b < 1024)%Z →
  budget_tokens (dispatched DEBUG_MODE int_of_str modelId bed) = Some (PInt 1024)
  ∧ dispatched DEBUG_MODE int_of_str modelId bed !! "max_tokens" = Some (PInt 1025).
Proof.
  intros Hdebug Hth Hmt Hn Hb.
  pose proof (dispatched_budget modelId bed b Hth) as Hbudget.
  rewrite Hdebug in *. rewrite Z.max_l in Hbudget by lia.
  split; [done|]. unfold dispatched in *.
  destruct (debug_body_small_max_tokens int_of_str modelId bed _ n Hth Hmt Hn)
    as (b' & _ & Hbt & Hmt' & _).
  rewrite Hbudget in Hbt. injection Hbt as <-. exact Hmt'.
Qed.

(** Claim C5, as the code has it.  The validation that lifts
    [max_tokens] runs inside [invoke_with_retry] and only in debug mode.
    There, for a request to either POST handler that names a Claude 3.7
    alias, has reasoning enabled and has [max_tokens] from 1 to 1023, the
    body of every attempt has [budget_tokens = 1024] and
    [max_tokens = 1025]: [max_tokens] is first set to 1024 and then to one
    more than the budget. *)
Theorem debug_validation_raises_max_tokens req m n b :
  DEBUG_MODE = true →
  typed_request req m n →
  (1 ≤ n < 1024)%Z →
  contains "claude-3-7" m = true →
  thinking_mode req (PStr m) = true →
  thinking_budget req (PInt n) = Ok b →
  (∀ p, accepted_prompt req p →
     ∃ k sent, k ≤ MAX_RETRIES
       ∧ sent_bodies
           (completions DEBUG_MODE int_of_str str_of encode_length invoke_model
              invoke_model_with_response_stream uniform req).2
         = replicate (S k) sent
       ∧ budget_tokens sent = Some (PInt 1024)
       ∧ sent !! "max_tokens" = Some (PInt 1025))
  ∧ (∀ messages, accepted_messages req messages →
       ∃ k sent, k ≤ MAX_RETRIES
         ∧ sent_bodies
             (chat_completions DEBUG_MODE int_of_str str_of encode_length invoke_model
                invoke_model_with_response_stream uniform req).2
           = replicate (S k) sent
         ∧ budget_tokens sent = Some (PInt 1024)
         ∧ sent !! "max_tokens" = Some (PInt 1025)).
Proof.
  intros Hdebug Htyped [Hn1 Hn] H37 Hmode Hbudget.
  assert (Hmin : Z.min n MAX_OUTPUT_TOKENS = n) by (unfold MAX_OUTPUT_TOKENS; lia).
  pose proof (thinking_budget_small req n b Hn Hbudget) as Hb.
  pose proof (int_08_small n Hn) as Hb'. rewrite <- Hb in Hb'.
  rewrite <- Hmin in Hbudget.
  split.
  - intros p Hp.
    destruct (completions_thinking_sent req p m n b Hp Htyped H37 Hmode Hbudget)
      as (k & bed & Hk & Hsent & Hth & Hmt).
    rewrite Hmin in Hmt.
    eexists k, _. split; [done|]. split; [exact Hsent|].
    by apply (dispatched_small_max_tokens _ _ b n).
  - intros messages Hmsgs.
    destruct (chat_thinking_sent req messages m n b Hmsgs Htyped H37 Hmode Hbudget)
      as (k & bed & Hk & Hsent & Hth & Hmt).
    rewrite Hmin in Hmt.
    eexists k, _. split; [done|]. split; [exact Hsent|].
    by apply (dispatched_small_max_tokens _ _ b n).
Qed.

(** *** A thinking flag on another model *)

Lemma dispatched_plain modelId (bed : gmap string pyval) k :
  bed !! "thinking" = None →
  bed !! "model" = None →
  bed !! "_model_name" = None →
  k ≠ "_model_name" →
  dispatched DEBUG_MODE int_of_str modelId bed !! k = bed !! k.
Proof.
  intros Hth Hmodel Hname Hk. unfold dispatched. destruct DEBUG_MODE; [|done].
  by apply debug_body_without_thinking.
Qed.

Lemma thinking_flag_mode req model :
  req !! "thinking" = Some (PBool true) → thinking_mode req model = true.
Proof.
  intros Hth. unfold thinking_mode.
  by rewrite (dict_get_Some _ _ _ (PBool false) Hth).
Qed.

(** Claim C9.  A request that passes [thinking: true] and whose model
    name does not contain [claude-3-7] reaches the backend, on either POST
    handler and on every attempt, with a body that has no [thinking] entry
    and no [top_p] entry, whatever [top_p] the request gave. *)
Theorem thinking_flag_without_claude_37 req m n :
  typed_request req m n →
  contains "claude-3-7" m = false →
  req !! "thinking" = Some (PBool true) →
  (∀ p, accepted_prompt req p →
     ∃ k sent, k ≤ MAX_RETRIES
       ∧ sent_bodies
           (completions DEBUG_MODE int_of_str str_of encode_length invoke_model
              invoke_model_with_response_stream uniform req).2
         = replicate (S k) sent
       ∧ sent !! "thinking" = None ∧ sent !! "top_p" = None)
  ∧ (∀ messages, accepted_messages req messages →
       ∃ k sent, k ≤ MAX_RETRIES
         ∧ sent_bodies
             (chat_completions DEBUG_MODE int_of_str str_of encode_length invoke_model
                invoke_model_with_response_stream uniform req).2
           = replicate (S k) sent
         ∧ sent !! "thinking" = None ∧ sent !! "top_p" = None).
Proof.
  intros Htyped H37 Hflag.
  pose proof (thinking_flag_mode req (PStr m) Hflag) as Hmode.
  split.
  - intros p Hp.
    destruct (completions_plain_sent req p m n Hp Htyped H37 Hmode)
      as (k & bed & Hk & Hsent & Hth & Htp & Hmodel & Hname).
    eexists k, _. split; [done|]. split; [exact Hsent|].
    by rewrite !dispatched_plain.
  - intros messages Hmsgs.
    destruct (chat_plain_sent req messages m n Hmsgs Htyped H37 Hmode)
      as (k & bed & Hk & Hsent & Hth & Htp & Hmodel & Hname).
    eexists k, _. split; [done|]. split; [exact Hsent|].
    by rewrite !dispatched_plain.
Qed.

(** *** Requests turned away *)

Lemma lstrip_whitespace_only s : whitespace_only s → lstrip s = "".
Proof.
  unfold whitespace_only. induction s as [|c s IH]; [done|].
  cbn. intros [Hc Hs]%Forall_cons. rewrite Hc. by apply IH.
Qed.

Lemma strip_whitespace_only s : whitespace_only s → strip s = "".
Proof. intros H. unfold strip. by rewrite lstrip_whitespace_only. Qed.

Lemma logged_messages_unchanged req messages :
  dict_get req "messages" (PList []) = PList messages →
  (DEBUG_MODE = true → Forall (λ msg, logged_message msg = msg) messages) →
  dict_get (log_request_info DEBUG_MODE req) "messages" (PList []) = PList messages.
Proof.
  intros Hmsgs Hsame. rewrite (logged_messages req messages Hmsgs).
  destruct DEBUG_MODE; [|done]. f_equal.
  specialize (Hsame eq_refl). clear Hmsgs.
  induction Hsame as [|msg rest Hmsg _ IH]; [done|].
  rewrite fmap_cons. by rewrite Hmsg, IH.
Qed.

(** Where the request log leaves the messages as they are (always with
    debug mode off, and in debug mode when no content has more than 200
    characters), the handlers turn away what they should.  The chat
    handler keeps the messages that have content, and the last message
    also when it is empty and comes from the assistant; when no user
    message with content is among the messages it answers HTTP 400 with an
    error body.  The completions handler answers HTTP 400 with an error
    body when the prompt is missing, empty or only whitespace.  In both
    cases the log of backend calls is empty.  A longer content is cut
    by the request log in debug mode before the handler reads it. *)
Lemma invalid_requests_rejected :
  (∀ messages,
     Forall readable messages →
     filter_messages (length messages) 0 messages = Ok (kept_messages messages))
  ∧ (∀ req m n messages,
       typed_request req m n →
       dict_get req "messages" (PList []) = PList messages →
       (DEBUG_MODE = true → Forall (λ msg, logged_message msg = msg) messages) →
       Forall readable messages →
       Forall (λ msg, role_is "user" msg = true → filled msg = false) messages →
       chat_completions DEBUG_MODE int_of_str str_of encode_length invoke_model
         invoke_model_with_response_stream uniform req
       = (Reply 400 (ErrorBody
            (ErrText "At least one user message with content is required")), []))
  ∧ (∀ req,
       truthy (dict_get req "prompt" PNone) = false
       ∨ (∃ s, dict_get req "prompt" PNone = PStr s ∧ whitespace_only s) →
       completions DEBUG_MODE int_of_str str_of encode_length invoke_model
         invoke_model_with_response_stream uniform req
       = (Reply 400 (ErrorBody (ErrText "Prompt cannot be empty")), [])).
Proof.
  split; [exact filter_messages_kept|]. split.
  - intros req m n messages Htyped%typed_request_logged Hmsgs Hsame Hread Hnone.
    unfold chat_completions, chat_completions_io. cbv zeta.
    rewrite (chat_request_rejected _ m n messages); try done.
    by apply logged_messages_unchanged.
  - intros req Hblank.
    unfold completions, completions_io. cbv zeta.
    rewrite completions_request_blank; [done|].
    rewrite !dict_get_logged by done.
    destruct Hblank as [H|(s & Hs & Hw)]; [by left|right].
    exists s. split; [done|]. by apply strip_whitespace_only.
Qed.

End Handlers.
(* ------------------------------------------------------------------ *)
(** ** Lines of a byte stream *)

Section Lines.

Lemma find_newline_None buffer :
  find_newline buffer = None ↔ NEWLINE ∉ buffer.
Proof.
  induction buffer as [|b rest IH]; cbn.
  - split; [intros _; apply not_elem_of_nil|done].
  - destruct (Byte.eqb b NEWLINE) eqn:Hb.
    + apply Byte.byte_dec_bl in Hb as ->. split; [done|].
      intros H. exfalso. apply H. left.
    + apply Byte.eqb_false in Hb.
      rewrite not_elem_of_cons. destruct (find_newline rest); cbn.
      * split; [done|]. intros [_ H]. by apply IH in H.
      * split; [|done]. intros _. split; [congruence|by apply IH].
Qed.

Lemma find_newline_Some buffer n :
  find_newline buffer = Some n →
  (NEWLINE ∉ take n buffer)
  ∧ buffer = take n buffer ++ NEWLINE :: drop (S n) buffer.
Proof.
  revert n. induction buffer as [|b rest IH]; intros n; cbn; [done|].
  destruct (Byte.eqb b NEWLINE) eqn:Hb.
  - intros [= <-]. apply Byte.byte_dec_bl in Hb as ->. cbn.
    split; [apply not_elem_of_nil|]. by rewrite drop_0.
  - apply Byte.eqb_false in Hb.
    destruct (find_newline rest) as [k|]; [|done]. cbn. intros [= <-].
    destruct (IH k eq_refl) as [Hno Heq]. cbn. split.
    + rewrite not_elem_of_cons. split; [congruence|done].
    + by rewrite <- Heq.
Qed.

(** With more rounds than bytes the inner loop ends with a buffer free of
    newlines, and the lines it yields, each closed by a newline, followed
    by that buffer are the bytes it started from. *)
Lemma split_buffer_spec rounds buffer :
  length buffer < rounds →
  ∃ lines tail,
    split_buffer rounds buffer = Some (lines, tail)
    ∧ Forall (λ line, NEWLINE ∉ line) lines
    ∧ (NEWLINE ∉ tail)
    ∧ buffer = terminated lines ++ tail.
Proof.
  revert buffer. induction rounds as [|rounds IH]; intros buffer Hlen; [lia|].
  cbn [split_buffer]. destruct (find_newline buffer) as [n|] eqn:Hfind.
  - destruct (find_newline_Some _ _ Hfind) as [Hno Heq].
    destruct (IH (drop (S n) buffer)) as (lines & tail & Hs & Hl & Ht & Hb).
    { rewrite Heq in Hlen. rewrite length_app in Hlen. cbn in Hlen. lia. }
    exists (take n buffer :: lines), tail. rewrite Hs. cbn.
    repeat split; [by constructor|done|].
    unfold terminated. cbn. rewrite <- !app_assoc. cbn.
    unfold terminated in Hb. by rewrite <- Hb.
  - exists [], buffer. repeat split; [constructor|by apply find_newline_None].
Qed.

Lemma lines_of_line line rest :
  NEWLINE ∉ line → lines_of (line ++ NEWLINE :: rest) = line :: lines_of rest.
Proof.
  induction line as [|b line IH]; intros Hno; cbn.
  - done.
  - apply not_elem_of_cons in Hno as [Hb Hno].
    destruct (Byte.eqb b NEWLINE) eqn:E.
    { apply Byte.byte_dec_bl in E. congruence. }
    by rewrite (IH Hno).
Qed.

Lemma lines_of_terminated lines rest :
  Forall (λ line, NEWLINE ∉ line) lines →
  lines_of (terminated lines ++ rest) = lines ++ lines_of rest.
Proof.
  induction 1 as [|line lines Hline _ IH]; [done|].
  unfold terminated in *. cbn. rewrite <- !app_assoc. cbn.
  rewrite (lines_of_line _ _ Hline). by rewrite IH.
Qed.

Lemma lines_of_no_newline tail :
  NEWLINE ∉ tail → lines_of tail = match tail with [] => [] | _ => [tail] end.
Proof.
  induction tail as [|b tail IH]; intros Hno; [done|].
  apply not_elem_of_cons in Hno as [Hb Hno]. cbn.
  destruct (Byte.eqb b NEWLINE) eqn:E.
  { apply Byte.byte_dec_bl in E. congruence. }
  rewrite (IH Hno). by destruct tail.
Qed.

Lemma stream_iter_from_lines stream buffer :
  NEWLINE ∉ buffer →
  stream_iter_from stream buffer = Some (lines_of (buffer ++ concat stream)).
Proof.
  revert buffer. induction stream as [|chunk rest IH]; intros buffer Hno.
  - cbn. rewrite app_nil_r. by rewrite lines_of_no_newline.
  - cbn [stream_iter_from concat].
    destruct (split_buffer_spec (S (length (buffer ++ chunk))) (buffer ++ chunk))
      as (lines & tail & Hs & Hl & Ht & Hb); [lia|].
    rewrite Hs. cbn. rewrite (IH tail Ht). cbn.
    rewrite app_assoc, Hb, <- app_assoc. by rewrite lines_of_terminated.
Qed.

Lemma stream_iter_lines_lines stream :
  stream_iter_lines stream = Some (lines_of (concat stream)).
Proof.
  unfold stream_iter_lines. rewrite stream_iter_from_lines; [done|].
  apply not_elem_of_nil.
Qed.

Lemma lines_of_no_newlines bytes :
  Forall (λ line, NEWLINE ∉ line) (lines_of bytes).
Proof.
  induction bytes as [|b rest IH]; cbn; [constructor|].
  destruct (Byte.eqb b NEWLINE) eqn:E.
  - constructor; [apply not_elem_of_nil|done].
  - apply Byte.eqb_false in E.
    destruct (lines_of rest) as [|line lines].
    + constructor; [|constructor]. rewrite not_elem_of_cons. split; [congruence|].
      apply not_elem_of_nil.
    + apply Forall_cons in IH as [H1 H2]. constructor; [|done].
      rewrite not_elem_of_cons. split; [congruence|done].
Qed.

Lemma lines_of_terminated_bytes bytes :
  terminated (lines_of bytes)
  = match last bytes with
    | None => []
    | Some b => if Byte.eqb b NEWLINE then bytes else bytes ++ [NEWLINE]
    end.
Proof.
  induction bytes as [|b rest IH]; [done|].
  cbn [lines_of]. destruct (Byte.eqb b NEWLINE) eqn:E.
  - apply Byte.byte_dec_bl in E as ->.
    unfold terminated in *. cbn [fmap list_fmap concat app]. rewrite IH.
    destruct rest as [|c rest]; [done|].
    rewrite last_cons_cons. destruct (last (c :: rest)) as [x|] eqn:Hl.
    + by destruct (Byte.eqb x NEWLINE).
    + by apply last_None in Hl.
  - destruct rest as [|c rest].
    + cbn. by rewrite E.
    + rewrite last_cons_cons. destruct (last (c :: rest)) as [x|] eqn:Hl.
      2:{ by apply last_None in Hl. }
      destruct (lines_of (c :: rest)) as [|line lines] eqn:Hlines.
      * exfalso. unfold terminated in IH. cbn in IH.
        destruct (Byte.eqb x NEWLINE); [done|]. by destruct rest.
      * unfold terminated in *. cbn [fmap list_fmap concat app] in *.
        rewrite IH. by destruct (Byte.eqb x NEWLINE).
Qed.

(** Property X1. The generator always ends, and where the chunks are cut
    does not matter: it yields the lines it yields for the same bytes in one
    chunk. *)
Theorem stream_iter_lines_chunking stream :
  is_Some (stream_iter_lines stream)
  ∧ stream_iter_lines stream = stream_iter_lines [concat stream].
Proof.
  rewrite !stream_iter_lines_lines. cbn. by rewrite app_nil_r.
Qed.

(** Property X2. The generator ends with lines none of which holds a
    newline, and the lines, each closed by a newline, are the bytes of the
    stream, with one newline added when the stream does not end in one: no
    byte is lost, and an empty line is yielded for two newlines in a row but
    not after the last newline. *)
Theorem stream_iter_lines_round_trip stream :
  ∃ lines,
    stream_iter_lines stream = Some lines
    ∧ Forall (λ line, NEWLINE ∉ line) lines
    ∧ terminated lines
      = match last (concat stream) with
        | None => []
        | Some b =>
            if Byte.eqb b NEWLINE then concat stream else concat stream ++ [NEWLINE]
        end.
Proof.
  exists (lines_of (concat stream)). split; [apply stream_iter_lines_lines|].
  split; [apply lines_of_no_newlines|apply lines_of_terminated_bytes].
Qed.

End Lines.

(* ------------------------------------------------------------------ *)
(** ** More on the validator *)

Section ValidationMore.
Context (int_of_str : string → option Z).

Lemma eq_str_true v lit : eq_str v lit = true → v = PStr lit.
Proof.
  destruct v; try discriminate. cbn. intros H. by apply String.eqb_eq in H as ->.
Qed.

Lemma checked_thinking_shape thinking :
  ∃ b, (1024 ≤ b)%Z
    ∧ checked_thinking int_of_str thinking !! "budget_tokens" = Some (PInt b)
    ∧ checked_thinking int_of_str thinking !! "type" = Some (PStr "enabled").
Proof.
  unfold checked_thinking. cbv zeta.
  set (t0 := match thinking with PDict d => d | _ => enabled_thinking 4000 end).
  set (t1 := if negb (dict_has t0 "type") || _ then _ else t0).
  assert (Hty : t1 !! "type" = Some (PStr "enabled")).
  { unfold t1. destruct (negb (dict_has t0 "type")) eqn:Hhas; cbn [orb].
    - by rewrite lookup_insert_eq.
    - destruct (negb (eq_str (dict_get t0 "type" PNone) "enabled")) eqn:Heq.
      + by rewrite lookup_insert_eq.
      + apply negb_false_iff in Heq, Hhas. apply eq_str_true in Heq.
        unfold dict_has, dict_get in *. destruct (t0 !! "type"); [|done].
        by subst. }
  clearbody t1.
  destruct (t1 !! "budget_tokens") as [b0|].
  - destruct (py_int int_of_str b0) as [budget|].
    + destruct (Z.ltb_spec budget 1024).
      * exists 1024%Z. rewrite lookup_insert_eq, lookup_insert_ne by done. done.
      * exists budget. rewrite lookup_insert_eq, lookup_insert_ne by done. done.
    + exists 4000%Z. rewrite lookup_insert_eq, lookup_insert_ne by done. done.
  - exists 4000%Z. rewrite lookup_insert_eq, lookup_insert_ne by done. done.
Qed.

(** A [thinking] entry of the standard shape is left as it is. *)
Lemma checked_thinking_stable (thinking : gmap string pyval) b :
  thinking !! "type" = Some (PStr "enabled") →
  thinking !! "budget_tokens" = Some (PInt b) →
  (1024 ≤ b)%Z →
  checked_thinking int_of_str (PDict thinking) = thinking.
Proof.
  intros Hty Hb Hle. unfold checked_thinking.
  rewrite (dict_has_true _ _ _ Hty), (dict_get_Some _ _ _ _ Hty).
  change (eq_str (PStr "enabled") "enabled") with true. cbn [negb orb].
  rewrite Hb. cbn [py_int].
  rewrite (proj2 (Z.ltb_ge b 1024) Hle). by apply insert_id.
Qed.

(** The validator on a body that has a [thinking] entry. *)
Lemma validate_thinking_given params thinking :
  params !! "thinking" = Some thinking →
  thinking_well_formed int_of_str (validate_bedrock_request int_of_str params).
Proof.
  intros Hth.
  destruct (checked_thinking_shape thinking) as (b & Hb & Hlook & Hty).
  exists (checked_thinking int_of_str thinking), b.
  unfold validate_bedrock_request.
  set (mit := if dict_has params "_model_name" && _ then true else _).
  rewrite Hth, (dict_has_true _ _ _ Hth). cbn [orb].
  set (vp1 := <["thinking":=PDict (checked_thinking int_of_str thinking)]> params).
  set (vp2 := if true && dict_has vp1 "max_tokens" then _ else vp1).
  assert (Hth2 : vp2 !! "thinking" = Some (PDict (checked_thinking int_of_str thinking))).
  { unfold vp2. cbn [andb]. repeat case_match;
      rewrite ?lookup_insert_ne by done; unfold vp1; by rewrite lookup_insert_eq. }
  assert (Hmt2 : ∀ v, vp2 !! "max_tokens" = Some v → ∃ m, py_int int_of_str v = Some m).
  { unfold vp2. cbn [andb]. unfold dict_has, dict_get.
    destruct (vp1 !! "max_tokens") as [v0|] eqn:H0; [|intros v; congruence].
    destruct (py_int int_of_str v0) as [m0|] eqn:Hm0.
    - destruct (m0 <? 1024)%Z.
      + intros v. rewrite lookup_insert_eq. intros [= <-]. by eexists.
      + intros v. rewrite H0. intros [= <-]. by eexists.
    - intros v. rewrite lookup_insert_eq. intros [= <-]. by eexists. }
  clearbody vp2.
  rewrite (dict_has_true _ _ _ Hth2), andb_false_r.
  rewrite Hth2, (truthy_dict_lookup _ _ _ Hlook), (dict_get_Some _ _ _ _ Hlook).
  cbn [py_int].
  set (mt := default DEFAULT_MAX_TOKENS _).
  set (vp3 := if (mt <=? b)%Z then _ else vp2).
  assert (Hth3 : vp3 !! "thinking" = Some (PDict (checked_thinking int_of_str thinking))).
  { unfold vp3. case_match; by rewrite ?lookup_insert_ne by done. }
  assert (Hmt3 : match vp3 !! "max_tokens" with
                 | Some v => ∃ m, py_int int_of_str v = Some m ∧ (b < m)%Z
                 | None => (b < DEFAULT_MAX_TOKENS)%Z
                 end).
  { unfold vp3. destruct (Z.leb_spec mt b) as [Hle|Hgt].
    - rewrite lookup_insert_eq. exists (b + 1)%Z. split; [done|lia].
    - unfold mt, dict_get in Hgt.
      destruct (vp2 !! "max_tokens") as [v|] eqn:Hv.
      + destruct (Hmt2 v eq_refl) as [m Hm]. exists m. split; [done|].
        by rewrite Hm in Hgt.
      + exact Hgt. }
  clearbody vp3. unfold dict_has.
  destruct (vp3 !! "top_p") eqn:Htp.
  - rewrite lookup_delete_eq, !lookup_delete_ne by done. done.
  - done.
Qed.

(** The validator on a body without a [thinking] entry that names the
    thinking alias: it adds the entry, with the budget
    [max(1024, min(int(0.8 * mt), mt - 1))] for the value [mt] of
    [max_tokens] after its own correction. *)
Lemma validate_thinking_added params :
  params !! "thinking" = None →
  model_is_thinking params = true →
  ∃ mt, (1024 ≤ mt)%Z
    ∧ (∀ n, dict_get params "max_tokens" (PInt DEFAULT_MAX_TOKENS) = PInt n →
         mt = Z.max 1024 n)
    ∧ let budget := Z.max 1024 (Z.min (int_08 mt) (mt - 1)) in
      let out := validate_bedrock_request int_of_str params in
      out !! "thinking" = Some (PDict (enabled_thinking budget))
      ∧ out !! "top_p" = None
      ∧ py_int int_of_str (dict_get out "max_tokens" (PInt DEFAULT_MAX_TOKENS))
        = Some (Z.max mt (budget + 1))
      ∧ (params !! "max_tokens" = None → (budget < mt)%Z
         ∧ out !! "max_tokens" = None).
Proof.
  intros Hth Hmit.
  unfold validate_bedrock_request.
  set (mit := if dict_has params "_model_name" && _ then true else _).
  assert (Hm : mit = true) by exact Hmit. clearbody mit. subst mit.
  rewrite Hth, (dict_has_false _ _ Hth). cbn [orb andb].
  set (vp2 := if dict_has params "max_tokens" then _ else params).
  set (mt := default DEFAULT_MAX_TOKENS
               (py_int int_of_str (dict_get vp2 "max_tokens" (PInt DEFAULT_MAX_TOKENS)))).
  assert (H2 : vp2 !! "thinking" = None
               ∧ (1024 ≤ mt)%Z
               ∧ (∀ n, dict_get params "max_tokens" (PInt DEFAULT_MAX_TOKENS) = PInt n →
                       mt = Z.max 1024 n)
               ∧ py_int int_of_str (dict_get vp2 "max_tokens" (PInt DEFAULT_MAX_TOKENS))
                 = Some mt
               ∧ (params !! "max_tokens" = None → vp2 = params)).
  { unfold mt, vp2, dict_has, dict_get.
    destruct (params !! "max_tokens") as [v|] eqn:Hv.
    - destruct (py_int int_of_str v) as [m|] eqn:Hpm.
      + destruct (Z.ltb_spec m 1024).
        * rewrite lookup_insert_eq, lookup_insert_ne by done. cbn.
          repeat split; try done.
          intros n ->. cbn in Hpm. injection Hpm as ->. lia.
        * rewrite Hv, Hpm. cbn. repeat split; try done.
          intros n ->. cbn in Hpm. injection Hpm as ->. lia.
      + rewrite lookup_insert_eq, lookup_insert_ne by done. cbn.
        repeat split; try done. intros n ->. discriminate.
    - rewrite Hv. cbn. repeat split; try done.
      intros n [= <-]. done. }
  destruct H2 as (Hth2 & Hmt & Hn & Hpy & Habs).
  exists mt. split; [done|]. split; [done|].
  cbv zeta.
  rewrite (dict_has_false _ _ Hth2), (dict_get_None _ _ _ Hth2).
  cbn [negb is_False].
  fold mt. rewrite (proj2 (Z.ltb_ge mt 1024) Hmt).
  set (budget := Z.max 1024 (Z.min (int_08 mt) (mt - 1))).
  rewrite lookup_insert_eq.
  assert (Hbt : enabled_thinking budget !! "budget_tokens" = Some (PInt budget)) by done.
  rewrite (truthy_dict_lookup _ _ _ Hbt), (dict_get_Some _ _ _ _ Hbt). cbn [py_int].
  set (vp3 := <["thinking":=PDict (enabled_thinking budget)]> vp2).
  assert (Hmt3 : default DEFAULT_MAX_TOKENS
            (py_int int_of_str (dict_get vp3 "max_tokens" (PInt DEFAULT_MAX_TOKENS))) = mt).
  { unfold vp3, dict_get. rewrite lookup_insert_ne by done.
    unfold dict_get in Hpy. by rewrite Hpy. }
  rewrite Hmt3.
  set (vp4 := if (mt <=? budget)%Z then _ else vp3).
  assert (H4 : vp4 !! "thinking" = Some (PDict (enabled_thinking budget))
               ∧ py_int int_of_str (dict_get vp4 "max_tokens" (PInt DEFAULT_MAX_TOKENS))
                 = Some (Z.max mt (budget + 1))
               ∧ (params !! "max_tokens" = None →
                  (budget < mt)%Z ∧ vp4 !! "max_tokens" = None)).
  { unfold vp4. destruct (Z.leb_spec mt budget) as [Hle|Hgt].
    - rewrite lookup_insert_ne by done. unfold vp3 at 1. rewrite lookup_insert_eq.
      split; [done|]. split.
      + unfold dict_get. rewrite lookup_insert_eq. cbn. f_equal. lia.
      + intros Hnone. exfalso. rewrite (Habs Hnone) in Hpy.
        rewrite (dict_get_None _ _ _ Hnone) in Hpy. cbn in Hpy.
        injection Hpy as Hpy. subst budget. rewrite <- Hpy in Hle.
        vm_compute in Hle. by apply Hle.
    - unfold vp3 at 1. rewrite lookup_insert_eq. split; [done|]. split.
      + unfold vp3, dict_get. rewrite lookup_insert_ne by done.
        unfold dict_get in Hpy. rewrite Hpy. f_equal. lia.
      + intros Hnone. split; [done|]. unfold vp3.
        rewrite lookup_insert_ne by done. by rewrite (Habs Hnone). }
  clearbody vp4. destruct H4 as (Hth4 & Hpy4 & Habs4).
  unfold dict_has. destruct (vp4 !! "top_p") eqn:Htp.
  - rewrite lookup_delete_eq, lookup_delete_ne by done.
    split; [done|]. split; [done|]. split.
    + unfold dict_get in *. by rewrite lookup_delete_ne by done.
    + intros Hnone. rewrite lookup_delete_ne by done. by apply Habs4.
  - done.
Qed.

Lemma validate_added_well_formed params :
  params !! "thinking" = None →
  model_is_thinking params = true →
  thinking_well_formed int_of_str (validate_bedrock_request int_of_str params).
Proof.
  intros Hth Hmit.
  destruct (validate_thinking_added params Hth Hmit)
    as (mt & Hmt & _ & Hout & Htp & Hpy & Habs).
  exists (enabled_thinking (Z.max 1024 (Z.min (int_08 mt) (mt - 1)))),
         (Z.max 1024 (Z.min (int_08 mt) (mt - 1))).
  split; [done|]. split; [done|]. split; [done|]. split; [lia|]. split; [done|].
  unfold dict_get in Hpy.
  destruct (validate_bedrock_request int_of_str params !! "max_tokens") as [v|] eqn:Hv.
  - eexists. split; [exact Hpy|]. lia.
  - cbn in Hpy. injection Hpy as Hpy. unfold DEFAULT_MAX_TOKENS in *. lia.
Qed.

(** The validator changes nothing in a body without a [thinking] entry
    that does not name the thinking alias. *)
Lemma validate_plain params :
  params !! "thinking" = None →
  model_is_thinking params = false →
  validate_bedrock_request int_of_str params = params.
Proof.
  intros Hth Hmit. unfold validate_bedrock_request.
  set (mit := if dict_has params "_model_name" && _ then true else _).
  assert (Hm : mit = false) by exact Hmit. clearbody mit. subst mit.
  rewrite Hth, (dict_has_false _ _ Hth). cbn [orb andb]. by rewrite Hth.
Qed.

(** A well-formed body passes the validator unchanged. *)
Lemma validate_well_formed_stable body :
  thinking_well_formed int_of_str body →
  validate_bedrock_request int_of_str body = body.
Proof.
  intros (thinking & b & Hth & Hty & Hb & Hle & Htp & Hmt).
  unfold validate_bedrock_request.
  set (mit := if dict_has body "_model_name" && _ then true else _). clearbody mit.
  rewrite Hth, (dict_has_true _ _ _ Hth). cbn [orb andb].
  rewrite (checked_thinking_stable thinking b Hty Hb Hle).
  rewrite (insert_id body "thinking" (PDict thinking) Hth).
  assert (H2 : (if dict_has body "max_tokens"
                then match py_int int_of_str (dict_get body "max_tokens" PNone) with
                     | Some max_tokens =>
                         if (max_tokens <? 1024)%Z
                         then <["max_tokens":=PInt 1024]> body
                         else body
                     | None => <["max_tokens":=PInt 4096]> body
                     end
                else body) = body).
  { unfold dict_has, dict_get. destruct (body !! "max_tokens") as [v|]; [|done].
    destruct Hmt as (m & -> & Hm). by rewrite (proj2 (Z.ltb_ge m 1024)) by lia. }
  rewrite H2. rewrite (dict_has_true _ _ _ Hth), andb_false_r.
  rewrite Hth, (truthy_dict_lookup _ _ _ Hb), (dict_get_Some _ _ _ _ Hb).
  cbn [py_int].
  assert (H3 : (default DEFAULT_MAX_TOKENS
                  (py_int int_of_str (dict_get body "max_tokens" (PInt DEFAULT_MAX_TOKENS)))
                <=? b)%Z = false).
  { apply Z.leb_gt. unfold dict_get. destruct (body !! "max_tokens") as [v|].
    - destruct Hmt as (m & -> & Hm). exact Hm.
    - exact Hmt. }
  rewrite H3. by rewrite (dict_has_false _ _ Htp).
Qed.

Lemma validate_frame params k :
  k ≠ "thinking" → k ≠ "max_tokens" → k ≠ "top_p" →
  validate_bedrock_request int_of_str params !! k = params !! k.
Proof.
  intros K1 K2 K3. unfold validate_bedrock_request. cbv zeta.
  set (mit := if dict_has params "_model_name" && _ then true else _). clearbody mit.
  set (vp1 := match params !! "thinking" with Some _ => _ | None => params end).
  assert (H1 : vp1 !! k = params !! k).
  { unfold vp1. case_match; by rewrite ?lookup_insert_ne by done. }
  clearbody vp1. rewrite <- H1. clear H1.
  set (vp2 := if (dict_has params "thinking" || mit) && dict_has vp1 "max_tokens"
              then _ else vp1).
  assert (H2 : vp2 !! k = vp1 !! k).
  { unfold vp2. repeat case_match; by rewrite ?lookup_insert_ne by done. }
  clearbody vp2. rewrite <- H2. clear H2.
  set (vp3 := if mit && negb (dict_has vp2 "thinking") then _ else vp2).
  assert (H3 : vp3 !! k = vp2 !! k).
  { unfold vp3. repeat case_match; simplify_eq; by rewrite ?lookup_insert_ne by done. }
  clearbody vp3. rewrite <- H3. clear H3.
  destruct (vp3 !! "thinking") as [[| | | | |thinking]|]; try done.
  destruct (truthy (PDict thinking)); [|done].
  set (p := match py_int int_of_str (dict_get thinking "budget_tokens" (PInt 0)) with
            | Some b => (b, vp3)
            | None => _
            end).
  assert (Hp : p.2 !! k = vp3 !! k).
  { unfold p. case_match; cbn; by rewrite ?lookup_insert_ne by done. }
  clearbody p. destruct p as [tb vp4]. cbn [snd] in Hp. rewrite <- Hp.
  repeat case_match; by rewrite ?lookup_delete_ne, ?lookup_insert_ne by done.
Qed.

(** Property X8. The validator never lowers [max_tokens]: an integer
    [max_tokens] comes back as an integer that is at least as large.
    Where the body has no [thinking] entry, so that the validator may
    come to the product of line 269, [max_tokens] is taken below
    [EXACT_LIMIT]. *)
Theorem validate_never_lowers_max_tokens params n :
  params !! "max_tokens" = Some (PInt n) →
  (params !! "thinking" = None → (n < EXACT_LIMIT)%Z) →
  ∃ n', validate_bedrock_request int_of_str params !! "max_tokens" = Some (PInt n')
        ∧ (n ≤ n')%Z.
Proof.
  intros Hn _. unfold validate_bedrock_request. cbv zeta.
  set (mit := if dict_has params "_model_name" && _ then true else _). clearbody mit.
  set (vp1 := match params !! "thinking" with Some _ => _ | None => params end).
  assert (H1 : vp1 !! "max_tokens" = Some (PInt n)).
  { unfold vp1. case_match; by rewrite ?lookup_insert_ne by done. }
  clearbody vp1.
  set (vp2 := if (dict_has params "thinking" || mit) && dict_has vp1 "max_tokens"
              then _ else vp1).
  assert (H2 : ∃ n2, vp2 !! "max_tokens" = Some (PInt n2) ∧ (n ≤ n2)%Z).
  { unfold vp2. rewrite (dict_get_Some _ _ _ _ H1). cbn [py_int].
    destruct (_ && _); [|by exists n].
    destruct (Z.ltb_spec n 1024).
    - exists 1024%Z. rewrite lookup_insert_eq. split; [done|lia].
    - by exists n. }
  clearbody vp2. destruct H2 as (n2 & H2 & Hle2).
  set (vp3 := if mit && negb (dict_has vp2 "thinking") then _ else vp2).
  assert (H3 : ∃ n3, vp3 !! "max_tokens" = Some (PInt n3) ∧ (n ≤ n3)%Z).
  { unfold vp3. destruct (_ && _); [|by exists n2].
    destruct (negb _); [|by exists n2].
    rewrite (dict_get_Some _ _ _ _ H2). cbn [py_int default].
    unfold id. destruct (Z.ltb_spec n2 1024).
    - exists 1024%Z. rewrite lookup_insert_ne by done.
      rewrite lookup_insert_eq. split; [done|lia].
    - exists n2. by rewrite lookup_insert_ne by done. }
  clearbody vp3. destruct H3 as (n3 & H3 & Hle3).
  destruct (vp3 !! "thinking") as [[| | | | |thinking]|]; try by exists n3.
  destruct (truthy (PDict thinking)); [|by exists n3].
  set (p := match py_int int_of_str (dict_get thinking "budget_tokens" (PInt 0)) with
            | Some b => (b, vp3)
            | None => _
            end).
  assert (Hp : p.2 !! "max_tokens" = Some (PInt n3)).
  { unfold p. case_match; cbn; by rewrite ?lookup_insert_ne by done. }
  clearbody p. destruct p as [tb vp4]. cbn [snd] in Hp.
  rewrite (dict_get_Some _ _ _ _ Hp). cbn [py_int default]. unfold id.
  set (vp5 := if (n3 <=? tb)%Z then _ else vp4).
  assert (H5 : ∃ n5, vp5 !! "max_tokens" = Some (PInt n5) ∧ (n ≤ n5)%Z).
  { unfold vp5. destruct (Z.leb_spec n3 tb).
    - exists (tb + 1)%Z. rewrite lookup_insert_eq. split; [done|lia].
    - by exists n3. }
  clearbody vp5. destruct H5 as (n5 & H5 & Hle5).
  exists n5. split; [|done].
  case_match; by rewrite ?lookup_delete_ne by done.
Qed.

(** Property X3. Whenever the validator finds a [thinking] entry, of
    whatever value, or the thinking alias, what it returns meets the rules
    for reasoning: the [thinking] entry has type [enabled] and an integer
    budget of at least 1024, [max_tokens] (4096 where the body has none) is
    above the budget, and there is no [top_p]. A [thinking] entry of [False]
    is no exception: it is replaced by an enabled entry.  Where the body
    has no [thinking] entry, so that the validator comes to the product of
    line 269, the token limit it reads is taken below [EXACT_LIMIT]. *)
Theorem validate_enforces_thinking_rules params :
  is_Some (params !! "thinking") ∨ model_is_thinking params = true →
  (params !! "thinking" = None → max_tokens_exact int_of_str params) →
  thinking_well_formed int_of_str (validate_bedrock_request int_of_str params).
Proof.
  intros H _. destruct (params !! "thinking") as [thinking|] eqn:Hth.
  - by eapply validate_thinking_given.
  - destruct H as [[? ?]|Hmit]; [done|]. by apply validate_added_well_formed.
Qed.

(** Property X4. A body without a [thinking] entry that does not name the
    thinking alias comes back from the validator as it went in. *)
Theorem validate_leaves_plain_body params :
  params !! "thinking" = None →
  model_is_thinking params = false →
  validate_bedrock_request int_of_str params = params.
Proof. apply validate_plain. Qed.

(** Property X5. Validating twice is validating once. *)
Theorem validate_idempotent params :
  validate_bedrock_request int_of_str (validate_bedrock_request int_of_str params)
  = validate_bedrock_request int_of_str params.
Proof.
  destruct (params !! "thinking") as [thinking|] eqn:Hth.
  - apply validate_well_formed_stable. by eapply validate_thinking_given.
  - destruct (model_is_thinking params) eqn:Hmit.
    + apply validate_well_formed_stable. by apply validate_added_well_formed.
    + rewrite (validate_plain params Hth Hmit). by apply validate_plain.
Qed.

(** Property X6. The validator changes at most [thinking], [max_tokens] and
    [top_p]: every other entry of the body, present or absent, stays as it
    is. *)
Theorem validate_touches_three_keys params k :
  k ≠ "thinking" → k ≠ "max_tokens" → k ≠ "top_p" →
  validate_bedrock_request int_of_str params !! k = params !! k.
Proof. apply validate_frame. Qed.

Lemma int_08_div n : (0 ≤ n)%Z → int_08 n = (4 * n / 5)%Z.
Proof. intros Hn. unfold int_08. apply Z.quot_div_nonneg; lia. Qed.

(** Property X7. The budget the validator adds by itself, for a body that
    names the thinking alias and has no [thinking] entry: with [mt] the
    integer [max_tokens] of the body (4096 where it has none), taken below
    [EXACT_LIMIT] and raised to 1024, the budget is
    [max(1024, min(floor(0.8 * mt), mt - 1))], which is what the binary64
    product [int(mt * 0.8)] of line 269 gives, and [max_tokens] ends as
    [mt], or as the budget plus one when [mt] does not exceed the
    budget. *)
Theorem validate_adds_default_budget params n :
  params !! "thinking" = None →
  model_is_thinking params = true →
  dict_get params "max_tokens" (PInt DEFAULT_MAX_TOKENS) = PInt n →
  (n < EXACT_LIMIT)%Z →
  let mt := Z.max 1024 n in
  let out := validate_bedrock_request int_of_str params in
  budget_tokens out = Some (PInt (specified_default_budget mt))
  ∧ specified_default_budget mt = Z.max 1024 (Z.min (float_int_08 mt) (mt - 1))
  ∧ py_int int_of_str (dict_get out "max_tokens" (PInt DEFAULT_MAX_TOKENS))
    = Some (Z.max mt (specified_default_budget mt + 1)).
Proof.
  intros Hth Hmit Hn Hexact mt out.
  assert (Hfloat : float_int_08 mt = (4 * mt / 5)%Z).
  { rewrite float_int_08_exact by (unfold EXACT_LIMIT in Hexact; lia).
    apply int_08_div. lia. }
  destruct (validate_thinking_added params Hth Hmit)
    as (mt' & Hmt & Hfix & Hout & _ & Hpy & _).
  rewrite (Hfix n Hn) in Hout, Hpy. fold mt in Hout, Hpy. fold out in Hout, Hpy.
  unfold specified_default_budget. rewrite Hfloat. rewrite <- (int_08_div mt) by lia.
  split; [|split; done]. unfold budget_tokens. by rewrite Hout.
Qed.

End ValidationMore.

(* ------------------------------------------------------------------ *)
(** ** More on the retry loop *)

Section RetryMore.
Context (DEBUG_MODE : bool) (int_of_str : string → option Z) (uniform : nat → Q).
Context {A : Type} (op : backend_op)
  (func : nat → string → gmap string pyval → outcome A)
  (modelId : string).

Lemma settled_not_silent (o : outcome A) : settled o ≠ Ok None.
Proof. by destruct o. Qed.

Lemma invoke_with_retry_shape body :
  ∃ n, n ≤ MAX_RETRIES
    ∧ invoke_with_retry DEBUG_MODE int_of_str uniform op func modelId body
      = (settled (func n modelId (dispatched DEBUG_MODE int_of_str modelId body)),
         backoff uniform op modelId (dispatched DEBUG_MODE int_of_str modelId body) 0 n
           ++ [Call op modelId (dispatched DEBUG_MODE int_of_str modelId body)]).
Proof.
  unfold invoke_with_retry, dispatched.
  set (sent := if DEBUG_MODE then _ else body).
  destruct (retry_loop_shape uniform op func modelId sent (S MAX_RETRIES) 0)
    as (n & Hn & _ & _ & Heq); [lia|lia|].
  exists n. split; [lia|]. by rewrite Heq, Nat.sub_0_r.
Qed.

(** Property X9. The loop of [invoke_with_retry] is never left by its guard:
    a call ends with a response or with an exception, never with [None]. *)
Theorem invoke_with_retry_never_silent body :
  (invoke_with_retry DEBUG_MODE int_of_str uniform op func modelId body).1 ≠ Ok None.
Proof.
  destruct (invoke_with_retry_shape body) as (n & _ & ->). apply settled_not_silent.
Qed.

Lemma total_sleep_backoff body n :
  total_sleep (backoff uniform op modelId body 0 n ++ [Call op modelId body])
  = foldr Qplus 0%Q (delay uniform <$> seq 0 n).
Proof.
  unfold total_sleep. rewrite sleeps_app, sleeps_backoff. cbn. by rewrite app_nil_r.
Qed.

(** Property X10. With the jitter in [[0, 1)], the sleep before retry [k] is
    the binary64 sum of [2^k] and the jitter: at most [2^k + 1], so at
    most 17 seconds, and the cap [MAX_DELAY] of 30 seconds never applies;
    one call sleeps at most 36 seconds in all. *)
Theorem retry_sleep_bounded body :
  (∀ k, (0 <= uniform k)%Q ∧ (uniform k < 1)%Q) →
  let out := invoke_with_retry DEBUG_MODE int_of_str uniform op func modelId body in
  ∃ n, n ≤ MAX_RETRIES
    ∧ sleeps out.2 = delay uniform <$> seq 0 n
    ∧ (∀ k, k < n →
         (delay uniform k
          == float_round (inject_Z (2 ^ Z.of_nat k) + uniform k))%Q
         ∧ (delay uniform k <= inject_Z (2 ^ Z.of_nat k) + 1)%Q
         ∧ (delay uniform k < MAX_DELAY)%Q)
    ∧ (total_sleep out.2 <= 36)%Q.
Proof.
  intros Hu out.
  destruct (invoke_with_retry_shape body) as (n & Hn & Heq).
  subst out. rewrite Heq. cbn [snd]. exists n. split; [done|].
  split. { rewrite sleeps_app, sleeps_backoff. cbn. by rewrite app_nil_r. }
  assert (Hd : ∀ k, k < MAX_RETRIES →
            (delay uniform k
             == float_round (inject_Z (2 ^ Z.of_nat k) + uniform k))%Q
            ∧ (delay uniform k <= inject_Z (2 ^ Z.of_nat k) + 1)%Q).
  { intros k Hk. destruct (Hu k).
    destruct (delay_range uniform k) as (E & _ & Hup); done. }
  assert (Hb : ∀ k, k < MAX_RETRIES → (inject_Z (2 ^ Z.of_nat k) <= 16)%Q).
  { intros k Hk. unfold MAX_RETRIES in Hk.
    do 5 (destruct k as [|k]; [vm_compute; discriminate|]). lia. }
  split.
  { intros k Hk. destruct (Hd k) as [H1 H2]; [lia|]. split; [done|]. split; [done|].
    pose proof (Hb k ltac:(lia)). unfold MAX_DELAY. lra. }
  rewrite total_sleep_backoff.
  unfold MAX_RETRIES in *.
  destruct (Hd 0) as [_ E0]; [lia|]. destruct (Hd 1) as [_ E1]; [lia|].
  destruct (Hd 2) as [_ E2]; [lia|]. destruct (Hd 3) as [_ E3]; [lia|].
  destruct (Hd 4) as [_ E4]; [lia|].
  change (inject_Z (2 ^ Z.of_nat 0)) with 1%Q in E0.
  change (inject_Z (2 ^ Z.of_nat 1)) with 2%Q in E1.
  change (inject_Z (2 ^ Z.of_nat 2)) with 4%Q in E2.
  change (inject_Z (2 ^ Z.of_nat 3)) with 8%Q in E3.
  change (inject_Z (2 ^ Z.of_nat 4)) with 16%Q in E4.
  do 6 (destruct n as [|n]; [cbn [seq fmap list_fmap foldr]; lra|]). lia.
Qed.

(** Property X11. What the debug block of [invoke_with_retry] may change in
    a body: [thinking], [max_tokens] and [top_p]; every other entry reaches
    the backend as given, on every attempt.  The helper entry
    [_model_name] does not reach it in debug mode when the token limit of
    the body is below [EXACT_LIMIT]; for a token limit too large for a
    float the validation raises and the body is sent as it came, with a
    [_model_name] of its own if it has one. *)
Theorem debug_rewrite_frame body k :
  k ≠ "thinking" → k ≠ "max_tokens" → k ≠ "top_p" → k ≠ "_model_name" →
  Forall (λ sent, sent !! k = body !! k
                  ∧ (DEBUG_MODE = true → max_tokens_exact int_of_str body →
                     sent !! "_model_name" = None))
    (sent_bodies
       (invoke_with_retry DEBUG_MODE int_of_str uniform op func modelId body).2).
Proof.
  intros K1 K2 K3 K4.
  destruct (invoke_with_retry_sent DEBUG_MODE int_of_str uniform op func modelId body)
    as (n & _ & ->).
  apply Forall_replicate. unfold dispatched. split.
  - destruct DEBUG_MODE; [|done].
    rewrite debug_body_lookup by done. rewrite validate_frame by done.
    by apply named_lookup.
  - intros -> _. unfold debug_body. unfold dict_has.
    case_match eqn:E; [by rewrite lookup_delete_eq|].
    by destruct (validate_bedrock_request _ _ !! "_model_name").
Qed.

Lemma dispatched_plain_body body :
  body !! "thinking" = None →
  body !! "model" = None →
  body !! "_model_name" = None →
  dispatched DEBUG_MODE int_of_str modelId body = body.
Proof.
  intros Hth Hmodel Hname. unfold dispatched. destruct DEBUG_MODE; [|done].
  apply map_eq. intros k. destruct (decide (k = "_model_name")) as [->|Hk].
  - rewrite Hname. unfold debug_body, dict_has.
    case_match eqn:E; [by rewrite lookup_delete_eq|].
    by destruct (validate_bedrock_request _ _ !! "_model_name").
  - by apply debug_body_without_thinking.
Qed.

(** Property X12. A body without [thinking], [model] and [_model_name]
    entries is sent as given, in debug mode too and whatever the model id:
    the alias recovered from a backend id is never the thinking alias, so
    the validator adds nothing. *)
Theorem plain_body_sent_as_given body :
  body !! "thinking" = None →
  body !! "model" = None →
  body !! "_model_name" = None →
  ∃ n, n ≤ MAX_RETRIES
    ∧ sent_bodies
        (invoke_with_retry DEBUG_MODE int_of_str uniform op func modelId body).2
      = replicate (S n) body.
Proof.
  intros Hth Hmodel Hname.
  destruct (invoke_with_retry_sent DEBUG_MODE int_of_str uniform op func modelId body)
    as (n & Hn & ->).
  exists n. split; [done|]. by rewrite dispatched_plain_body.
Qed.

End RetryMore.

(* ------------------------------------------------------------------ *)
(** ** More on streams, payloads and the message filter *)

Section StreamsMore.
Context (model : pyval).

Lemma completions_stream_step_stop chunk yielded stop :
  completions_stream_step chunk = Ok (yielded, stop) → stop = bears_stop_reason chunk.
Proof.
  destruct chunk as [| | | | |d]; try discriminate.
  unfold completions_stream_step. cbn [py_get mbind res_bind].
  destruct (dict_get d "delta" (PDict ∅)) as [| | | | |delta]; try discriminate.
  cbn [py_get mbind res_bind]. by intros [= _ <-].
Qed.

(** Property X13. The stream of [/v1/completions] ends with the first frame
    that bears a stop reason: the frames after it are not read. *)
Theorem completions_stream_ends_at_stop before stop after :
  bears_stop_reason stop = true →
  completions_generate_stream (before ++ stop :: after)
  = completions_generate_stream (before ++ [stop]).
Proof.
  intros Hstop. induction before as [|chunk before IH].
  - cbn [app completions_generate_stream].
    destruct (completions_stream_step stop) as [[yielded s]|e] eqn:Hstep; [|done].
    apply completions_stream_step_stop in Hstep. rewrite Hstop in Hstep. by subst s.
  - cbn [app completions_generate_stream]. rewrite IH. done.
Qed.

Lemma chat_generate_stream_prefix body1 body2 :
  ∃ more, (chat_generate_stream model (body1 ++ body2)).1
          = (chat_generate_stream model body1).1 ++ more.
Proof.
  induction body1 as [|chunk body1 IH].
  - eexists. reflexivity.
  - cbn [app chat_generate_stream].
    destruct (chat_stream_step model chunk) as [yielded|e]; [|by exists []].
    destruct IH as [more IH].
    destruct (chat_generate_stream model (body1 ++ body2)) as [ev2 a2].
    destruct (chat_generate_stream model body1) as [ev1 a1].
    cbn [fst] in *. exists more. by rewrite IH, app_assoc.
Qed.

Lemma completions_generate_stream_prefix body1 body2 :
  ∃ more, (completions_generate_stream (body1 ++ body2)).1
          = (completions_generate_stream body1).1 ++ more.
Proof.
  induction body1 as [|chunk body1 IH].
  - eexists. reflexivity.
  - cbn [app completions_generate_stream].
    destruct (completions_stream_step chunk) as [[yielded [|]]|e];
      [exists []; by rewrite app_nil_r| |by exists []].
    destruct IH as [more IH].
    destruct (completions_generate_stream (body1 ++ body2)) as [ev2 a2].
    destruct (completions_generate_stream body1) as [ev1 a1].
    cbn [fst] in *. exists more. by rewrite IH, app_assoc.
Qed.

(** Property X14. What a stream has yielded for the frames read so far
    stays: the events for a longer sequence of frames begin with the events
    for each of its prefixes, on both endpoints. *)
Theorem stream_events_extend body1 body2 :
  (∃ more, (chat_generate_stream model (body1 ++ body2)).1
           = (chat_generate_stream model body1).1 ++ more)
  ∧ (∃ more, (completions_generate_stream (body1 ++ body2)).1
             = (completions_generate_stream body1).1 ++ more).
Proof.
  split; [apply chat_generate_stream_prefix|apply completions_generate_stream_prefix].
Qed.

Lemma chat_stream_step_substantial chunk yielded :
  chat_stream_step model chunk = Ok yielded → Forall substantial yielded.
Proof.
  destruct chunk as [| | | | |d]; try discriminate.
  unfold chat_stream_step. cbn [py_get mbind res_bind].
  destruct (eq_str (dict_get d "type" (PStr "")) "content_block_delta").
  { destruct (dict_get d "delta" (PDict ∅)) as [| | | | |delta]; try discriminate.
    cbn [py_get mbind res_bind].
    destruct (eq_str (dict_get delta "type" PNone) "thinking_delta").
    { destruct (truthy (dict_get delta "thinking" (PStr ""))) eqn:E;
        intros [= <-]; repeat constructor. exact E. }
    destruct (eq_str (dict_get delta "type" PNone) "text_delta"); [|by intros [= <-]].
    destruct (truthy (dict_get delta "text" (PStr ""))) eqn:E;
      intros [= <-]; repeat constructor. exact E. }
  destruct (eq_str (dict_get d "type" (PStr "")) "message_delta").
  { destruct (dict_get d "delta" (PDict ∅)) as [| | | | |delta]; try discriminate.
    cbn [py_get mbind res_bind].
    destruct (truthy (dict_get delta "stop_reason" PNone)) eqn:E;
      intros [= <-]; repeat constructor. cbn.
    destruct (eq_str (dict_get delta "stop_reason" PNone) "end_turn"); [done|exact E]. }
  destruct (negb (truthy (dict_get d "type" (PStr "")))); [|by intros [= <-]].
  destruct (dict_get d "delta" (PDict ∅)) as [| | | | |delta]; try discriminate.
  cbn [py_get mbind res_bind]. intros [= <-]. apply Forall_app. split.
  - destruct (truthy (dict_get delta "text" (PStr ""))) eqn:E; repeat constructor.
    exact E.
  - destruct (truthy (dict_get d "stop_reason" PNone)); repeat constructor.
Qed.

Lemma completions_stream_step_substantial chunk yielded stop :
  completions_stream_step chunk = Ok (yielded, stop) → Forall substantial yielded.
Proof.
  destruct chunk as [| | | | |d]; try discriminate.
  unfold completions_stream_step. cbn [py_get mbind res_bind].
  destruct (dict_get d "delta" (PDict ∅)) as [| | | | |delta]; try discriminate.
  cbn [py_get mbind res_bind]. intros [= <- _].
  destruct (truthy (dict_get delta "text" (PStr ""))) eqn:E; repeat constructor.
  exact E.
Qed.

(** Property X15. Neither stream yields an empty chunk: every text or
    thinking chunk has a non-empty text, and a chunk with an empty delta has
    a finish reason. *)
Theorem streams_yield_no_empty_chunk body :
  Forall substantial (chat_generate_stream model body).1
  ∧ Forall substantial (completions_generate_stream body).1.
Proof.
  split.
  - induction body as [|chunk body IH]; [constructor|].
    cbn [chat_generate_stream].
    destruct (chat_stream_step model chunk) as [yielded|e] eqn:Hstep; [|constructor].
    destruct (chat_generate_stream model body) as [more a]. cbn [fst] in *.
    apply Forall_app. split; [by eapply chat_stream_step_substantial|done].
  - induction body as [|chunk body IH]; [constructor|].
    cbn [completions_generate_stream].
    destruct (completions_stream_step chunk) as [[yielded stop]|e] eqn:Hstep;
      [|constructor].
    apply completions_stream_step_substantial in Hstep.
    destruct stop; [done|].
    destruct (completions_generate_stream body) as [more a]. cbn [fst] in *.
    apply Forall_app. by split.
Qed.

End StreamsMore.

Section Extraction.
Context (str_of : pyval → string).

Lemma append_nil_r s : s +:+ "" = s.
Proof. induction s as [|c s IH]; [done|]. change (String c (s +:+ "") = String c s). by rewrite IH. Qed.

Lemma append_assoc s1 s2 s3 : (s1 +:+ s2) +:+ s3 = s1 +:+ (s2 +:+ s3).
Proof.
  induction s1 as [|c s1 IH]; [done|].
  change (String c ((s1 +:+ s2) +:+ s3) = String c (s1 +:+ (s2 +:+ s3))).
  by rewrite IH.
Qed.

Lemma concat_text_blocks items content :
  Forall content_block items →
  concat_text items content
  = Ok (content +:+ String.concat "" (omap block_text items)).
Proof.
  intros Hitems. revert content.
  induction Hitems as [|item items (d & -> & Htext & _) _ IH]; intros content.
  - cbn. by rewrite append_nil_r.
  - cbn [concat_text py_get mbind res_bind omap list_omap block_text].
    destruct (eq_str (dict_get d "type" PNone) "text") eqn:Hty.
    + destruct (Htext eq_refl) as [s Hs]. rewrite Hs. cbn [str_add mbind res_bind].
      rewrite IH. f_equal.
      rewrite append_assoc. f_equal.
      destruct (omap block_text items) as [|x xs]; [by rewrite append_nil_r|done].
    + by rewrite IH.
Qed.

Lemma extract_content_blocks (bed_response : gmap string pyval) items :
  bed_response !! "content" = Some (PList items) →
  Forall content_block items →
  extract_content str_of (PDict bed_response)
  = Ok (PStr (String.concat "" (omap block_text items))).
Proof.
  intros Hc Hitems. unfold extract_content.
  cbn [py_in py_index mbind res_bind].
  rewrite (dict_has_true _ _ _ Hc), Hc. cbn [is_list mbind res_bind py_iter].
  by rewrite (concat_text_blocks _ _ Hitems).
Qed.

(** Property X16. A reply whose [content] is a list of blocks: the text
    extracted is the texts of the blocks of type [text], in order and put
    together with nothing between them; blocks of other types, [thinking]
    blocks among them, and a [completion] field add nothing. *)
Theorem extract_content_of_blocks (bed_response : gmap string pyval) items :
  bed_response !! "content" = Some (PList items) →
  Forall content_block items →
  extract_content str_of (PDict bed_response)
  = Ok (PStr (String.concat "" (omap block_text items))).
Proof. apply extract_content_blocks. Qed.

Lemma thinking_blocks_of items :
  Forall content_block items →
  thinking_blocks items = Ok (PStr <$> omap block_thinking items).
Proof.
  induction 1 as [|item items (d & -> & _ & Hth) _ IH]; [done|].
  cbn [thinking_blocks py_get mbind res_bind omap list_omap block_thinking].
  destruct (eq_str (dict_get d "type" PNone) "thinking") eqn:Hty.
  - destruct (Hth eq_refl) as [s Hs]. rewrite Hs, IH. done.
  - by rewrite IH.
Qed.

Lemma join_space_strings (l : list string) :
  join_space (PStr <$> l) = Ok (String.concat " " l).
Proof.
  induction l as [|s l IH]; [done|].
  destruct l as [|s' l]; [done|].
  change (join_space (PStr <$> s :: s' :: l))
    with (r ← join_space (PStr <$> s' :: l); Ok (s +:+ " " +:+ r)).
  by rewrite IH.
Qed.

(** Property X17. A reply without a top-level [thinking] field whose
    [content] is a list of blocks: the thinking extracted is the [thinking]
    texts of the blocks of type [thinking], in order and joined by single
    spaces, and the empty string when there is no such block. *)
Theorem extract_thinking_of_blocks (bed_response : gmap string pyval) items :
  bed_response !! "thinking" = None →
  bed_response !! "content" = Some (PList items) →
  Forall content_block items →
  extract_thinking (PDict bed_response)
  = Ok (PStr (String.concat " " (omap block_thinking items))).
Proof.
  intros Hth Hc Hitems. unfold extract_thinking.
  cbn [py_in py_get mbind res_bind].
  rewrite (dict_has_false _ _ Hth). cbn [truthy String.eqb negb mbind res_bind].
  rewrite (dict_has_true _ _ _ Hc), (dict_get_Some _ _ _ _ Hc).
  cbn [py_iter mbind res_bind].
  rewrite (thinking_blocks_of _ Hitems). cbn [mbind res_bind].
  destruct (omap block_thinking items) as [|s l] eqn:E; [done|].
  rewrite <- E. change (PStr <$> s :: l) with (PStr s :: (PStr <$> l)).
  cbv iota. rewrite E.
  change (PStr s :: (PStr <$> l)) with (PStr <$> s :: l).
  by rewrite join_space_strings.
Qed.

End Extraction.

Section Filter.

Lemma has_content_raises msg e : has_content msg = Raise e → e = AttributeError.
Proof.
  destruct msg as [| | | | |d]; cbn; try by intros [= <-].
  unfold has_content. cbn [py_get mbind res_bind].
  destruct (dict_get d "content" (PStr "")) as [| | |s|items|c] eqn:Hc;
    cbn; try discriminate; try (case_match; try discriminate; by intros [= <-]).
  clear Hc. induction items as [|item items IH]; [discriminate|].
  cbn [any_text].
  destruct item as [| | | | |i]; cbn; try by intros [= <-].
  destruct (eq_str (dict_get i "type" PNone) "text"); [|exact IH].
  destruct (truthy (dict_get i "text" (PStr ""))); [discriminate|exact IH].
Qed.

Lemma filter_messages_readable len i messages kept :
  filter_messages len i messages = Ok kept → Forall readable messages.
Proof.
  revert i kept. induction messages as [|msg rest IH]; intros i kept; [constructor|].
  cbn [filter_messages].
  destruct (has_content msg) as [b|e] eqn:Hc; [|discriminate].
  cbn [mbind res_bind].
  destruct (if b then _ else _) as [keep|]; [|discriminate]. cbn [mbind res_bind].
  destruct (filter_messages len (S i) rest) as [f|] eqn:Hf; [|discriminate].
  intros _. constructor; [by exists b|by eapply IH].
Qed.

Lemma filter_all (P : pyval → Prop) `{∀ x, Decision (P x)} (l : list pyval) :
  Forall P l → filter P l = l.
Proof.
  induction 1 as [|x l Hx _ IH]; [done|].
  rewrite filter_cons. case_decide; [by rewrite IH|done].
Qed.

Lemma kept_messages_snoc init m :
  kept_messages (init ++ [m])
  = filter (λ m, filled m = true) init
    ++ (if filled m || role_is "assistant" m then [m] else []).
Proof. unfold kept_messages. by rewrite List.removelast_last, last_snoc. Qed.

Lemma kept_messages_idempotent messages :
  kept_messages (kept_messages messages) = kept_messages messages.
Proof.
  destruct (last messages) as [m|] eqn:Hlast.
  2:{ apply last_None in Hlast. by subst. }
  apply last_Some in Hlast as [init ->].
  rewrite kept_messages_snoc.
  set (F := filter (λ m, filled m = true) init).
  assert (HF : Forall (λ m, filled m = true) F).
  { apply Forall_forall. intros x Hx. by apply list_elem_of_filter in Hx as [? _]. }
  destruct (filled m || role_is "assistant" m) eqn:Hm.
  - rewrite kept_messages_snoc, Hm. by rewrite filter_all.
  - rewrite app_nil_r.
    destruct (last F) as [x|] eqn:HlastF.
    2:{ apply last_None in HlastF. by rewrite HlastF. }
    apply last_Some in HlastF as [F' HF'].
    rewrite HF' in *. apply Forall_app in HF as [HF1 HF2].
    apply Forall_cons in HF2 as [Hx _].
    rewrite kept_messages_snoc, Hx. cbn [orb]. by rewrite filter_all.
Qed.

Lemma kept_messages_sublist messages : kept_messages messages `sublist_of` messages.
Proof.
  destruct (last messages) as [m|] eqn:Hlast.
  2:{ apply last_None in Hlast. by subst. }
  apply last_Some in Hlast as [init ->].
  rewrite kept_messages_snoc. apply sublist_app; [apply sublist_filter|].
  case_match; [done|apply sublist_nil_l].
Qed.

(** Property X18. The message filter of the chat handler keeps the order of
    the messages it keeps, and what it has filtered passes the filter
    unchanged. *)
Theorem filter_messages_idempotent messages kept :
  filter_messages (length messages) 0 messages = Ok kept →
  kept `sublist_of` messages
  ∧ filter_messages (length kept) 0 kept = Ok kept.
Proof.
  intros Hf. pose proof (filter_messages_readable _ _ _ _ Hf) as Hr.
  rewrite (filter_messages_kept _ Hr) in Hf. injection Hf as <-.
  split; [apply kept_messages_sublist|].
  rewrite filter_messages_kept.
  - by rewrite kept_messages_idempotent.
  - apply Forall_forall. intros x Hx.
    pose proof (elem_of_sublist _ _ _ Hx (kept_messages_sublist messages)) as Hin.
    by eapply Forall_forall in Hr.
Qed.

End Filter.

(* ------------------------------------------------------------------ *)
(** ** More on the handlers *)

Section HandlersMore.
Context (DEBUG_MODE : bool) (int_of_str : string → option Z)
  (str_of : pyval → string) (encode_length : string → option nat)
  (invoke_model : nat → string → gmap string pyval → outcome pyval)
  (invoke_model_with_response_stream :
     nat → string → gmap string pyval → outcome (list pyval))
  (uniform : nat → Q).

Lemma invoke_with_retry_full {A} op
    (func : nat → string → gmap string pyval → outcome A) modelId body :
  let sent := dispatched DEBUG_MODE int_of_str modelId body in
  ∃ n, n ≤ MAX_RETRIES
    ∧ (∀ k, k < n → throttled (func k modelId sent) = true)
    ∧ invoke_with_retry DEBUG_MODE int_of_str uniform op func modelId body
      = (settled (func n modelId sent),
         backoff uniform op modelId sent 0 n ++ [Call op modelId sent]).
Proof.
  intros sent. unfold invoke_with_retry. fold (dispatched DEBUG_MODE int_of_str modelId body).
  fold sent.
  destruct (retry_loop_shape uniform op func modelId sent (S MAX_RETRIES) 0)
    as (n & Hn & Hthr & _ & Heq); [lia|lia|].
  exists n. split; [lia|]. split; [intros k Hk; apply Hthr; lia|].
  by rewrite Heq, Nat.sub_0_r.
Qed.

Lemma call_backend_result {A} op
    (func : nat → string → gmap string pyval → outcome A) modelId body :
  let sent := dispatched DEBUG_MODE int_of_str modelId body in
  ∃ n, n ≤ MAX_RETRIES
    ∧ (∀ k, k < n → throttled (func k modelId sent) = true)
    ∧ call_backend DEBUG_MODE int_of_str uniform op func modelId body
      = (match func n modelId sent with
         | Returns response => Val response
         | Fails e => Throw e
         end,
         backoff uniform op modelId sent 0 n ++ [Call op modelId sent]).
Proof.
  intros sent.
  destruct (invoke_with_retry_full op func modelId body) as (n & Hn & Hthr & Heq).
  exists n. split; [done|]. split; [done|].
  unfold call_backend. rewrite Heq. fold sent. by destruct (func n modelId sent).
Qed.

Lemma call_backend_first {A} op
    (func : nat → string → gmap string pyval → outcome A) modelId body :
  let sent := dispatched DEBUG_MODE int_of_str modelId body in
  throttled (func 0 modelId sent) = false →
  call_backend DEBUG_MODE int_of_str uniform op func modelId body
  = (match func 0 modelId sent with
     | Returns response => Val response
     | Fails e => Throw e
     end, [Call op modelId sent]).
Proof.
  intros sent Hfirst.
  destruct (call_backend_result op func modelId body) as (n & Hn & Hthr & Heq).
  fold sent in Hthr, Heq.
  destruct n as [|n]; [exact Heq|].
  rewrite Hthr in Hfirst; [done|lia].
Qed.

Lemma attempts_backoff op modelId (sent : gmap string pyval) n :
  calls (backoff uniform op modelId sent 0 n ++ [Call op modelId sent])
  = replicate (S n) (op, modelId, sent).
Proof.
  rewrite calls_app, calls_backoff.
  change (calls [Call op modelId sent]) with [(op, modelId, sent)].
  by rewrite replicate_S_end.
Qed.

Lemma val_trace_bind {A B} (a : A) t (f : A → io B) :
  ((Val a, t) : io A) ≫= f = ((f a).1, t ++ (f a).2).
Proof. unfold mbind, io_bind. by destruct (f a). Qed.

Lemma throw_bind {A B} e t (f : A → io B) :
  ((Throw e, t) : io A) ≫= f = (Throw e, t).
Proof. done. Qed.

Lemma claude_37_features_plain req n extended bed :
  truthy extended = false →
  truthy (dict_get req "enable_computer_use" (PBool false)) = false →
  claude_37_features req (PInt n) false extended bed = Ok bed.
Proof. intros He Hc. unfold claude_37_features. cbn. by rewrite He, Hc. Qed.

Lemma no_beta_feature_logged req :
  no_beta_feature req → no_beta_feature (log_request_info DEBUG_MODE req).
Proof. intros [H1 H2]. split; by rewrite dict_get_logged. Qed.

Lemma plain_params_logged req n messages :
  plain_params (log_request_info DEBUG_MODE req) n messages = plain_params req n messages.
Proof. unfold plain_params. by rewrite !(dict_get_logged DEBUG_MODE). Qed.

(** The request [/v1/completions] builds when reasoning and the beta
    features are off. *)
Lemma completions_request_plain req p m n :
  accepted_prompt req p →
  typed_request req m n →
  thinking_mode req (PStr m) = false →
  no_beta_feature req →
  completions_request req
  = (Val {| model_name := PStr m;
            model_id := default DEFAULT_MODEL_ID (assoc m MODEL_MAPPING);
            reads_thinking := false;
            bed_params :=
              if truthy (dict_get req "stop" PNone)
              then <["stop_sequences" := dict_get req "stop" PNone]>
                     (plain_params req n [prompt_message p])
              else plain_params req n [prompt_message p] |}, []).
Proof.
  intros Hp Htyped Hmode [He Hc].
  epose proof (completions_request_ok req p m n _ Hp Htyped) as Hreq.
  cbv zeta in Hreq. rewrite Hmode in Hreq. cbn [negb] in Hreq.
  rewrite Hreq.
  - by rewrite andb_false_r.
  - destruct (contains "claude-3-7" m); [|done].
    by apply claude_37_features_plain.
Qed.

Lemma chat_request_plain req messages m n :
  accepted_messages req messages →
  typed_request req m n →
  thinking_mode req (PStr m) = false →
  no_beta_feature req →
  chat_request req
  = (Val ({| model_name := PStr m;
             model_id := default DEFAULT_MODEL_ID (assoc m MODEL_MAPPING);
             reads_thinking := false;
             bed_params :=
               let stop := dict_get req "stop" PNone in
               if truthy stop
               then <["stop_sequences" := if is_list stop then stop else PList [stop]]>
                      (plain_params req n (kept_messages messages))
               else plain_params req n (kept_messages messages) |}, messages), []).
Proof.
  intros Hmsgs Htyped Hmode [He Hc].
  epose proof (chat_request_ok req m n messages _ Hmsgs Htyped) as Hreq.
  cbv zeta in Hreq. rewrite Hmode in Hreq. cbn [negb] in Hreq.
  rewrite Hreq.
  - by rewrite andb_false_r.
  - destruct (contains "claude-3-7" m); [|done].
    by apply claude_37_features_plain.
Qed.

Lemma plain_params_lookup req n messages (stop v : pyval) k :
  k = "thinking" ∨ k = "model" ∨ k = "_model_name" →
  (if truthy stop
   then <["stop_sequences" := v]> (plain_params req n messages)
   else plain_params req n messages) !! k = None.
Proof.
  intros Hk. rewrite with_stop_lookup by (by destruct Hk as [->|[->| ->]]).
  unfold plain_params. by destruct Hk as [->|[->| ->]].
Qed.

Lemma dispatched_plain_params modelId req n messages (stop v : pyval) :
  dispatched DEBUG_MODE int_of_str modelId
    (if truthy stop
     then <["stop_sequences" := v]> (plain_params req n messages)
     else plain_params req n messages)
  = (if truthy stop
     then <["stop_sequences" := v]> (plain_params req n messages)
     else plain_params req n messages).
Proof. apply dispatched_plain_body; apply plain_params_lookup; auto. Qed.

(** Property X19. One exchange on [/v1/completions] from end to end, for a
    request without reasoning, beta features and streaming whose first
    backend call is answered with a list of content blocks. The backend is
    called once, with the id the alias maps to (the default id for an
    unknown alias) and a body that holds the prompt as one user message,
    [max_tokens] capped at 128000, and [temperature], [top_p] and [stop] as
    given; the reply has status 200, the texts of the text blocks as its
    text (cut by the debug log when that is on), the backend's [stop_reason]
    as finish reason ([stop] when it has none), no thinking, and the token
    counts of the prompt and of the text. *)
Theorem completions_plain_exchange req p m n (payload : gmap string pyval) items
    prompt_count text_count :
  accepted_prompt req p →
  typed_request req m n →
  thinking_mode req (PStr m) = false →
  no_beta_feature req →
  truthy (dict_get req "stream" (PBool false)) = false →
  let stop := dict_get req "stop" PNone in
  let body :=
    if truthy stop
    then <["stop_sequences" := stop]> (plain_params req n [prompt_message p])
    else plain_params req n [prompt_message p] in
  let modelId := default DEFAULT_MODEL_ID (assoc m MODEL_MAPPING) in
  let text := String.concat "" (omap block_text items) in
  invoke_model 0 modelId body = Returns (PDict payload) →
  payload !! "content" = Some (PList items) →
  Forall content_block items →
  encode_length p = Some prompt_count →
  encode_length text = Some text_count →
  completions DEBUG_MODE int_of_str str_of encode_length invoke_model
    invoke_model_with_response_stream uniform req
  = (Reply 200 (CompletionBody
       {| cr_model := PStr m;
          cr_text := log_response_info DEBUG_MODE (PStr text);
          cr_finish_reason := dict_get payload "stop_reason" (PStr "stop");
          cr_thinking := None;
          cr_usage := {| prompt_tokens := prompt_count;
                         completion_tokens := text_count;
                         total_tokens := prompt_count + text_count + 0;
                         thinking_tokens := None |} |}),
     [Call InvokeModel modelId body]).
Proof.
  intros Hp Htyped Hmode Hbeta Hstream stop body modelId text
    Hcall Hcontent Hitems Hpc Htc.
  unfold completions, completions_io. cbv zeta.
  rewrite (completions_request_plain _ p m n
             (accepted_prompt_logged DEBUG_MODE _ _ Hp)
             (typed_request_logged DEBUG_MODE _ _ _ Htyped)
             (eq_trans (thinking_mode_logged DEBUG_MODE _ _) Hmode)
             (no_beta_feature_logged _ Hbeta)).
  rewrite val_bind.
  rewrite !(dict_get_logged DEBUG_MODE) by done.
  rewrite plain_params_logged. fold stop. fold body. rewrite Hstream.
  cbn [model_id bed_params reads_thinking model_name].
  fold modelId.
  rewrite call_backend_first; unfold body at 1; rewrite dispatched_plain_params;
    fold body; rewrite Hcall; [|done].
  rewrite val_trace_bind.
  rewrite (extract_content_blocks str_of payload items Hcontent Hitems).
  fold text. cbn [lift]. rewrite val_bind. cbn [lift]. rewrite val_bind.
  cbn [py_get lift]. rewrite val_bind.
  destruct Hp as [Hprompt _]. rewrite Hprompt.
  unfold token_usage. cbn [count_tokens truthy String.eqb negb mbind res_bind].
  rewrite Hpc, Htc. cbn [mbind res_bind lift]. rewrite val_bind.
  cbn [truthy String.eqb negb fst snd mret io_ret run]. rewrite app_nil_r.
  unfold body. by rewrite dispatched_plain_params.
Qed.

End HandlersMore.

Section HandlersLast.
Context (DEBUG_MODE : bool) (int_of_str : string → option Z)
  (str_of : pyval → string) (encode_length : string → option nat)
  (invoke_model : nat → string → gmap string pyval → outcome pyval)
  (invoke_model_with_response_stream :
     nat → string → gmap string pyval → outcome (list pyval))
  (uniform : nat → Q).

Abbreviation completions' :=
  (completions DEBUG_MODE int_of_str str_of encode_length invoke_model
     invoke_model_with_response_stream uniform).
Abbreviation chat_completions' :=
  (chat_completions DEBUG_MODE int_of_str str_of encode_length invoke_model
     invoke_model_with_response_stream uniform).

(** *** What the chat handler calls *)

Lemma invoke_with_retry_calls {A} op
    (func : nat → string → gmap string pyval → outcome A) modelId body :
  ∃ n, n ≤ MAX_RETRIES
    ∧ calls (invoke_with_retry DEBUG_MODE int_of_str uniform op func modelId body).2
      = replicate (S n) (op, modelId, dispatched DEBUG_MODE int_of_str modelId body).
Proof.
  destruct (invoke_with_retry_full DEBUG_MODE int_of_str uniform op func modelId body)
    as (n & Hn & _ & Heq).
  exists n. split; [done|]. rewrite Heq. cbn [snd]. apply attempts_backoff.
Qed.

Lemma chat_completions_trace req r message_list :
  chat_request (log_request_info DEBUG_MODE req) = (Val (r, message_list), []) →
  (chat_completions' req).2
  = if truthy (dict_get req "stream" (PBool false))
    then (invoke_with_retry DEBUG_MODE int_of_str uniform InvokeModelWithResponseStream
            invoke_model_with_response_stream (model_id r) (bed_params r)).2
    else (invoke_with_retry DEBUG_MODE int_of_str uniform InvokeModel
            invoke_model (model_id r) (bed_params r)).2.
Proof.
  intros Hreq. unfold chat_completions, chat_completions_io. cbv zeta.
  rewrite run_trace, Hreq, val_bind. rewrite (dict_get_logged DEBUG_MODE) by done.
  destruct (truthy (dict_get _ "stream" (PBool false))).
  - rewrite catch_trace, bind_trace_quiet, call_backend_trace; [done|].
    intros body. by destruct (chat_generate_stream (model_name r) body).
  - rewrite bind_trace_quiet, call_backend_trace; [done|].
    intros bed_response. repeat (apply lift_bind_quiet; intros ?). done.
Qed.

(** Property X20. What [/v1/chat/completions] calls for a request without
    reasoning and beta features: the streaming operation when [stream] is
    set and the plain one otherwise, every attempt with the id the alias
    maps to (the default id for an unknown alias) and with the same body.
    The body holds the messages the filter keeps, [max_tokens] capped at
    128000, [temperature] and [top_p] as given, and [stop] as a list; in
    debug mode the messages are those the debug log has cut. *)
Theorem chat_plain_calls req messages m n :
  accepted_messages req messages →
  typed_request req m n →
  thinking_mode req (PStr m) = false →
  no_beta_feature req →
  let sent_messages :=
    kept_messages (if DEBUG_MODE then logged_message <$> messages else messages) in
  let stop := dict_get req "stop" PNone in
  let body :=
    if truthy stop
    then <["stop_sequences" := if is_list stop then stop else PList [stop]]>
           (plain_params req n sent_messages)
    else plain_params req n sent_messages in
  let op :=
    if truthy (dict_get req "stream" (PBool false))
    then InvokeModelWithResponseStream else InvokeModel in
  ∃ k, k ≤ MAX_RETRIES
    ∧ calls (chat_completions' req).2
      = replicate (S k) (op, default DEFAULT_MODEL_ID (assoc m MODEL_MAPPING), body).
Proof.
  intros Hmsgs Htyped Hmode Hbeta sent_messages stop body op.
  pose proof (chat_request_plain _ _ m n
                (accepted_messages_logged DEBUG_MODE _ _ Hmsgs)
                (typed_request_logged DEBUG_MODE _ _ _ Htyped)
                (eq_trans (thinking_mode_logged DEBUG_MODE _ _) Hmode)
                (no_beta_feature_logged DEBUG_MODE _ Hbeta)) as Hreq.
  cbv zeta in Hreq.
  rewrite !(dict_get_logged DEBUG_MODE) in Hreq by done.
  rewrite plain_params_logged in Hreq. fold sent_messages stop body in Hreq.
  rewrite (chat_completions_trace _ _ _ Hreq). cbn [model_id bed_params].
  subst op. destruct (truthy (dict_get req "stream" (PBool false))).
  - destruct (invoke_with_retry_calls InvokeModelWithResponseStream
                invoke_model_with_response_stream
                (default DEFAULT_MODEL_ID (assoc m MODEL_MAPPING)) body)
      as (k & Hk & ->).
    exists k. split; [done|]. unfold body. by rewrite dispatched_plain_params.
  - destruct (invoke_with_retry_calls InvokeModel invoke_model
                (default DEFAULT_MODEL_ID (assoc m MODEL_MAPPING)) body)
      as (k & Hk & ->).
    exists k. split; [done|]. unfold body. by rewrite dispatched_plain_params.
Qed.

(** *** A budget the request names *)

Lemma given_budget_logged req :
  given_budget (log_request_info DEBUG_MODE req) = given_budget req.
Proof. unfold given_budget. by rewrite !(dict_get_logged DEBUG_MODE). Qed.

Lemma thinking_budget_given req n v :
  given_budget req = Some (PInt v) →
  thinking_budget req (PInt n) = Ok (fitted_budget v n).
Proof.
  unfold given_budget, thinking_budget, fitted_budget. intros Hg.
  assert (Hfirst : (if truthy (dict_get req "max_thinking_tokens" PNone)
                    then Ok (dict_get req "max_thinking_tokens" PNone)
                    else if truthy (dict_get req "thinking_max_tokens" PNone)
                    then Ok (dict_get req "thinking_max_tokens" PNone)
                    else if truthy (dict_get req "max_thinking_length" PNone)
                    then Ok (dict_get req "max_thinking_length" PNone)
                    else n0 ← num (PInt n); Ok (PInt (Z.max 4000 (int_half n0))))
                   = Ok (PInt v)).
  { repeat case_match; simplify_eq; by f_equal. }
  rewrite Hfirst. cbn. by destruct (n <=? Z.max 1024 v)%Z.
Qed.

Lemma int_08_below n : (1 ≤ n)%Z → (int_08 n < n)%Z.
Proof.
  intros Hn. unfold int_08. rewrite Z.quot_div_nonneg by lia.
  pose proof (Z.div_mod (4 * n) 5 ltac:(lia)).
  pose proof (Z.mod_pos_bound (4 * n) 5 ltac:(lia)). lia.
Qed.

Lemma int_08_minimum n : (1280 ≤ n)%Z → (1024 ≤ int_08 n)%Z.
Proof.
  intros Hn. unfold int_08. rewrite Z.quot_div_nonneg by lia.
  pose proof (Z.div_mod (4 * n) 5 ltac:(lia)).
  pose proof (Z.mod_pos_bound (4 * n) 5 ltac:(lia)). lia.
Qed.

(** Property X21. Whatever budget a request names or leaves out, the budget
    the handlers compute stays below [max_tokens], and it reaches the
    minimum of 1024 once [max_tokens] is 1280 or more. *)
Theorem thinking_budget_bounds req n b :
  thinking_budget req (PInt n) = Ok b →
  (1 ≤ n)%Z →
  (b < n)%Z ∧ ((1280 ≤ n)%Z → (1024 ≤ b)%Z).
Proof.
  unfold thinking_budget. intros H Hn.
  set (first := if truthy (dict_get req "max_thinking_tokens" PNone) then _ else _) in H.
  destruct first as [tb|]; [|done]. cbn [mbind res_bind] in H.
  unfold py_max in H. destruct (as_num tb) as [z|]; [|done].
  cbn [mbind res_bind num as_num] in H.
  destruct (Z.leb_spec n (Z.max 1024 z)); injection H as <-.
  - split; [by apply int_08_below|apply int_08_minimum].
  - split; [done|lia].
Qed.

(** Property X22. A request for a Claude 3.7 alias with reasoning on and a
    [max_tokens] of at least 1 that names a budget in
    [max_thinking_tokens], or else in [thinking_max_tokens], or else in
    [max_thinking_length]: with [m] the value of [max_tokens] capped at
    128000, both handlers send, on every attempt, that budget raised to
    1024, or [floor(0.8 * m)], which is what the binary64 product
    [int(m * 0.8)] of the code gives, when the raised budget does not stay
    below [m] (and the debug validation lifts what is sent to 1024). *)
Theorem given_budget_sent req m n v :
  typed_request req m n →
  (1 ≤ n)%Z →
  contains "claude-3-7" m = true →
  thinking_mode req (PStr m) = true →
  given_budget req = Some (PInt v) →
  let capped := Z.min n MAX_OUTPUT_TOKENS in
  let raised := Z.max 1024 v in
  let budget := if (capped <=? raised)%Z then (4 * capped / 5)%Z else raised in
  let sent_budget := if DEBUG_MODE then Z.max 1024 budget else budget in
  float_int_08 capped = (4 * capped / 5)%Z
  ∧ (∀ p, accepted_prompt req p →
     ∃ k sent, k ≤ MAX_RETRIES
       ∧ sent_bodies (completions' req).2 = replicate (S k) sent
       ∧ budget_tokens sent = Some (PInt sent_budget))
  ∧ (∀ messages, accepted_messages req messages →
       ∃ k sent, k ≤ MAX_RETRIES
         ∧ sent_bodies (chat_completions' req).2 = replicate (S k) sent
         ∧ budget_tokens sent = Some (PInt sent_budget)).
Proof.
  intros Htyped Hn H37 Hmode Hgiven capped raised budget sent_budget.
  pose proof (thinking_budget_given req capped v Hgiven) as Hb.
  assert (Hfit : fitted_budget v capped = budget).
  { unfold fitted_budget, int_08. cbv zeta. fold raised.
    rewrite Z.quot_div_nonneg by (unfold capped, MAX_OUTPUT_TOKENS; lia). done. }
  rewrite Hfit in Hb.
  split; [by apply capped_products_exact|]. split.
  - intros p Hp.
    destruct (completions_thinking_sent DEBUG_MODE int_of_str str_of encode_length
                invoke_model invoke_model_with_response_stream uniform
                req p m n _ Hp Htyped H37 Hmode Hb)
      as (k & bed & Hk & Hsent & Hth & _).
    exists k, (dispatched DEBUG_MODE int_of_str
                 (default DEFAULT_MODEL_ID (assoc m MODEL_MAPPING)) bed).
    split; [done|]. split; [done|]. by apply dispatched_budget.
  - intros messages Hmsgs.
    destruct (chat_thinking_sent DEBUG_MODE int_of_str str_of encode_length
                invoke_model invoke_model_with_response_stream uniform
                req messages m n _ Hmsgs Htyped H37 Hmode Hb)
      as (k & bed & Hk & Hsent & Hth & _).
    exists k, (dispatched DEBUG_MODE int_of_str
                 (default DEFAULT_MODEL_ID (assoc m MODEL_MAPPING)) bed).
    split; [done|]. split; [done|]. by apply dispatched_budget.
Qed.

End HandlersLast.

Section HandlersEdge.
Context (DEBUG_MODE : bool) (int_of_str : string → option Z)
  (str_of : pyval → string) (encode_length : string → option nat)
  (invoke_model : nat → string → gmap string pyval → outcome pyval)
  (invoke_model_with_response_stream :
     nat → string → gmap string pyval → outcome (list pyval))
  (uniform : nat → Q).

Abbreviation completions' :=
  (completions DEBUG_MODE int_of_str str_of encode_length invoke_model
     invoke_model_with_response_stream uniform).
Abbreviation chat_completions' :=
  (chat_completions DEBUG_MODE int_of_str str_of encode_length invoke_model
     invoke_model_with_response_stream uniform).

(** *** Status codes and backend calls *)

Lemma quiet_lift_bind {A B} P (Q : B → Prop) (m : res A) (f : A → io B) :
  (∀ a, m = Ok a → quiet P Q (f a)) → quiet P Q (lift m ≫= f).
Proof.
  intros Hf. rewrite lift_bind. destruct m as [a|e]; [by apply Hf|done].
Qed.

Lemma quiet_mret {A} P (Q : A → Prop) (a : A) : Q a → quiet P Q (mret a).
Proof. done. Qed.

Lemma quiet_return {A} (P : reply → Prop) (Q : A → Prop) r :
  P r → quiet P Q (return_ r).
Proof. done. Qed.

Lemma completions_request_quiet req :
  quiet (answers_with 400 true) (λ _, True) (completions_request req).
Proof.
  unfold completions_request.
  apply quiet_lift_bind. intros blank _. destruct blank; [by apply quiet_return|].
  repeat (apply quiet_lift_bind; intros ? _). by apply quiet_mret.
Qed.

Lemma chat_request_quiet req :
  quiet (answers_with 400 true) (λ _, True) (chat_request req).
Proof.
  unfold chat_request.
  repeat (apply quiet_lift_bind; intros ? _).
  case_match; [by apply quiet_return|].
  repeat (apply quiet_lift_bind; intros ? _). by apply quiet_mret.
Qed.

Lemma catch_none {A} (m : io A) : catch m (λ _, None) = m.
Proof. by destruct m as [[a|r|e] t]. Qed.

Lemma well_answered_call {A} op
    (func : nat → string → gmap string pyval → outcome A) modelId body
    (g : A → io reply) handler :
  (∀ a, quiet (answers_with 200 false) (answers_with 200 false) (g a)) →
  (∀ e r, handler e = Some r → answers_with 500 true r) →
  well_answered
    (run (catch (call_backend DEBUG_MODE int_of_str uniform op func modelId body ≫= g)
            handler)).
Proof.
  intros Hg Hh.
  destruct (call_backend_result DEBUG_MODE int_of_str uniform op func modelId body)
    as (n & Hn & _ & ->).
  set (sent := dispatched DEBUG_MODE int_of_str modelId body).
  set (t := backoff uniform op modelId sent 0 n ++ [Call op modelId sent]).
  assert (Ht : attempts t = S n).
  { unfold attempts, t. by rewrite attempts_backoff, length_replicate. }
  assert (Hle : attempts t ≤ S MAX_RETRIES) by lia.
  assert (Hpos : 1 ≤ attempts t) by lia.
  clearbody t.
  assert (Hfail : ∀ e : exn,
            well_answered (run (catch ((Throw e, t) : io reply) handler))).
  { intros e. cbn [catch]. destruct (handler e) as [r|] eqn:He.
    - destruct (Hh e r He) as [Hs Herr]. split; [exact Hle|]. right. by left.
    - split; [exact Hle|]. right. by left. }
  destruct (func n modelId sent) as [a|e]; [|apply Hfail].
  rewrite val_trace_bind. destruct (Hg a) as [Hquiet Hrep].
  rewrite Hquiet, app_nil_r. unfold replies in Hrep.
  destruct (g a).1 as [r|r|e]; [| |apply Hfail];
    destruct Hrep as [Hs Herr]; (split; [exact Hle|]); right; right; done.
Qed.

Lemma well_answered_plain_call {A} op
    (func : nat → string → gmap string pyval → outcome A) modelId body
    (g : A → io reply) :
  (∀ a, quiet (answers_with 200 false) (answers_with 200 false) (g a)) →
  well_answered
    (run (call_backend DEBUG_MODE int_of_str uniform op func modelId body ≫= g)).
Proof.
  intros Hg.
  rewrite <- (catch_none
                (call_backend DEBUG_MODE int_of_str uniform op func modelId body ≫= g)).
  by apply well_answered_call.
Qed.

Lemma well_answered_handler {A} (m : io A) (k : A → io reply) :
  quiet (answers_with 400 true) (λ _, True) m →
  (∀ a, well_answered (run (k a))) →
  well_answered (run (m ≫= k)).
Proof.
  intros [Ht Hrep] Hk. destruct m as [[a|r|e] t]; cbn in Ht; subst t.
  - rewrite val_bind. apply Hk.
  - destruct Hrep as [Hs Herr]. split; [cbn; lia|]. by left.
  - split; [cbn; lia|]. right. by left.
Qed.

Lemma completions_well_answered req : well_answered (completions' req).
Proof.
  unfold completions, completions_io. cbv zeta.
  apply well_answered_handler; [apply completions_request_quiet|]. intros r.
  destruct (truthy (dict_get _ "stream" (PBool false))).
  - apply well_answered_call.
    + intros body. by destruct (completions_generate_stream body).
    + intros e r' H. by repeat case_match; simplify_eq.
  - apply well_answered_plain_call.
    intros bed_response.
    repeat (apply quiet_lift_bind; intros ? _). by apply quiet_mret.
Qed.

Lemma chat_completions_well_answered req : well_answered (chat_completions' req).
Proof.
  unfold chat_completions, chat_completions_io. cbv zeta.
  apply well_answered_handler; [apply chat_request_quiet|]. intros [r message_list].
  destruct (truthy (dict_get _ "stream" (PBool false))).
  - apply well_answered_call.
    + intros body. by destruct (chat_generate_stream (model_name r) body).
    + intros e r' H. by repeat case_match; simplify_eq.
  - apply well_answered_plain_call.
    intros bed_response.
    repeat (apply quiet_lift_bind; intros ? _). by apply quiet_mret.
Qed.

(** Property X23. Both POST handlers answer every request in one of three
    ways: with an error and status 400 without calling the backend, with an
    error and status 500, or with status 200 and no error after at least one
    backend call; and no request costs more than six backend calls. *)
Theorem handlers_well_answered req :
  well_answered (completions' req) ∧ well_answered (chat_completions' req).
Proof.
  split; [apply completions_well_answered|apply chat_completions_well_answered].
Qed.

(** *** Malformed requests *)

Lemma filter_messages_raises len i messages e :
  filter_messages len i messages = Raise e → e = AttributeError.
Proof.
  revert i. induction messages as [|msg rest IH]; intros i; [done|].
  cbn [filter_messages].
  destruct (has_content msg) as [b|e0] eqn:Hc.
  2:{ cbn. intros [= <-]. by eapply has_content_raises. }
  cbn [mbind res_bind].
  assert (Hkeep : ∃ keep, (if b then Ok true
                           else if i =? len - 1
                           then role ← py_get msg "role" PNone;
                                Ok (eq_str role "assistant")
                           else Ok false) = Ok keep).
  { destruct b; [by eexists|]. destruct (i =? len - 1); [|by eexists].
    destruct msg; try discriminate. by eexists. }
  destruct Hkeep as [keep ->]. cbn [mbind res_bind].
  destruct (filter_messages len (S i) rest) as [f|e1] eqn:Hf; [done|].
  cbn. intros [= <-]. by eapply IH.
Qed.

Lemma filter_messages_unreadable len i messages :
  Exists (λ msg, ¬ readable msg) messages →
  filter_messages len i messages = Raise AttributeError.
Proof.
  intros Hex. destruct (filter_messages len i messages) as [kept|e] eqn:Hf.
  - apply filter_messages_readable in Hf.
    apply Exists_exists in Hex as (msg & Hin & Hno).
    rewrite Forall_forall in Hf. by specialize (Hf msg Hin).
  - by rewrite (filter_messages_raises _ _ _ _ Hf).
Qed.

Lemma logged_message_unreadable msg : ¬ readable msg → logged_message msg = msg.
Proof.
  intros Hno. destruct msg as [| | | | |d]; try done. unfold logged_message.
  destruct (d !! "content") as [[| | |s| |]|] eqn:Hc; try done.
  destruct (200 <? String.length s) eqn:Hlen; [|done].
  exfalso. apply Hno. unfold readable, has_content. cbn [py_get mbind res_bind].
  rewrite (dict_get_Some _ _ _ _ Hc). cbn.
  destruct (negb (String.eqb s "")); by eexists.
Qed.

Lemma logged_messages_unreadable messages :
  Exists (λ msg, ¬ readable msg) messages →
  Exists (λ msg, ¬ readable msg)
    (if DEBUG_MODE then logged_message <$> messages else messages).
Proof.
  intros Hex. destruct DEBUG_MODE; [|done].
  apply Exists_fmap. eapply Exists_impl; [exact Hex|].
  intros msg Hno. cbn. by rewrite logged_message_unreadable.
Qed.

Lemma eq_str_false v lit : v ≠ PStr lit → eq_str v lit = false.
Proof.
  intros Hne. destruct v as [| | |s| |]; try done. cbn.
  apply String.eqb_neq. congruence.
Qed.

Lemma any_text_ill_formed before item after :
  Forall passed_over before → (∀ d, item ≠ PDict d) →
  any_text (before ++ item :: after) = Raise AttributeError.
Proof.
  intros Hbefore Hitem. induction Hbefore as [|x before (d & -> & Hx) _ IH].
  - cbn. destruct item; try done. by specialize (Hitem d).
  - cbn [app any_text py_get mbind res_bind]. destruct Hx as [Hty|Htext].
    + by rewrite (eq_str_false _ _ Hty).
    + rewrite Htext. by destruct (eq_str _ _).
Qed.

Lemma ill_formed_unreadable msg : ill_formed_message msg → ¬ readable msg.
Proof.
  intros Hill [b Hb]. unfold has_content in Hb.
  destruct msg as [| | | | |d]; try done.
  cbn [py_get mbind res_bind ill_formed_message] in *.
  destruct (dict_get d "content" (PStr "")) as [|c|z|s|items|d']; cbn in Hill, Hb.
  - done.
  - by subst c.
  - apply Z.eqb_neq in Hill. by rewrite Hill in Hb.
  - done.
  - destruct Hill as (before & item & after & -> & Hbefore & Hitem).
    by rewrite any_text_ill_formed in Hb.
  - apply map_size_non_empty_iff in Hill.
    destruct (size d') as [|k] eqn:E; done.
Qed.

(** Property X24. Requests the handlers cannot read are answered with status
    500, not 400, and without a backend call.  For [/v1/completions]: a
    prompt that is not a string and not empty in Python's sense.  For
    [/v1/chat/completions]: a list of messages one of which is not an
    object, or has as content a number other than 0, [True], an object
    that is not empty, or a list in which an item that is not an object
    comes before every text block with text.  The error is the
    [AttributeError] of the failed method call; in the chat handler it is
    that error when [model] is a string and [max_tokens] an integer, which
    the handler reads before the messages. *)
Theorem malformed_requests_fail :
  (∀ req,
     truthy (dict_get req "prompt" PNone) = true →
     (∀ s, dict_get req "prompt" PNone ≠ PStr s) →
     completions' req = (Reply 500 (ErrorBody (ErrUncaught AttributeError)), []))
  ∧ (∀ req messages,
       dict_get req "messages" (PList []) = PList messages →
       Exists ill_formed_message messages →
       ∃ e, chat_completions' req = (Reply 500 (ErrorBody (ErrUncaught e)), [])
            ∧ (∀ m n, typed_request req m n → e = AttributeError)).
Proof.
  split.
  - intros req Htrue Hstr. unfold completions, completions_io. cbv zeta.
    unfold completions_request. cbv zeta.
    rewrite !(dict_get_logged DEBUG_MODE _ "prompt") by done.
    rewrite lift_bind, Htrue. cbn [negb].
    destruct (dict_get req "prompt" PNone) as [| | |s| |]; try done.
    by specialize (Hstr s).
  - intros req messages Hmsgs Hex.
    assert (Hun : Exists (λ msg, ¬ readable msg) messages).
    { eapply Exists_impl; [exact Hex|]. apply ill_formed_unreadable. }
    apply (logged_messages DEBUG_MODE) in Hmsgs.
    apply logged_messages_unreadable in Hun.
    unfold chat_completions, chat_completions_io. cbv zeta.
    unfold chat_request. cbv zeta.
    rewrite !(dict_get_logged DEBUG_MODE _ "model") by done.
    rewrite !(dict_get_logged DEBUG_MODE _ "max_tokens") by done.
    rewrite lift_bind.
    destruct (mapping_get (dict_get req "model" (PStr "claude-3-7-sonnet")))
      as [model_id|e1] eqn:Hmap.
    2:{ exists e1. split; [done|]. intros m n [Hm _]. rewrite Hm in Hmap. done. }
    rewrite lift_bind.
    destruct (py_gt (dict_get req "max_tokens" (PInt DEFAULT_MAX_TOKENS)) MAX_OUTPUT_TOKENS)
      as [over|e2] eqn:Hgt.
    2:{ exists e2. split; [done|]. intros m n [_ Hn]. rewrite Hn in Hgt. done. }
    exists AttributeError. split; [|done].
    rewrite Hmsgs, lift_bind. cbn [py_iter].
    by rewrite lift_bind, (filter_messages_unreadable _ _ _ Hun).
Qed.

(** *** A backend that fails *)

Lemma throttled_fails {A} e : throttled (Fails e : outcome A) = is_throttling e.
Proof. done. Qed.

(** Property X25. The chat handler on a request without reasoning and beta
    features when the first backend call fails with an error the retry loop
    does not retry: one call is made, and the reply has status 500; its
    error is the backend's, worded as a stream error when [stream] is set. *)
Theorem chat_backend_failure req messages m n e :
  accepted_messages req messages →
  typed_request req m n →
  thinking_mode req (PStr m) = false →
  no_beta_feature req →
  is_throttling e = false →
  let sent_messages :=
    kept_messages (if DEBUG_MODE then logged_message <$> messages else messages) in
  let stop := dict_get req "stop" PNone in
  let body :=
    if truthy stop
    then <["stop_sequences" := if is_list stop then stop else PList [stop]]>
           (plain_params req n sent_messages)
    else plain_params req n sent_messages in
  let modelId := default DEFAULT_MODEL_ID (assoc m MODEL_MAPPING) in
  (truthy (dict_get req "stream" (PBool false)) = false →
   invoke_model 0 modelId body = Fails e →
   chat_completions' req
   = (Reply 500 (ErrorBody (ErrUncaught e)), [Call InvokeModel modelId body]))
  ∧ (truthy (dict_get req "stream" (PBool false)) = true →
     invoke_model_with_response_stream 0 modelId body = Fails e →
     chat_completions' req
     = (Reply 500 (ErrorBody
          match e with
          | AttributeError => ErrStreamingUnsupported e
          | _ => ErrStream e
          end),
        [Call InvokeModelWithResponseStream modelId body])).
Proof.
  intros Hmsgs Htyped Hmode Hbeta Hthr sent_messages stop body modelId.
  pose proof (chat_request_plain _ _ m n
                (accepted_messages_logged DEBUG_MODE _ _ Hmsgs)
                (typed_request_logged DEBUG_MODE _ _ _ Htyped)
                (eq_trans (thinking_mode_logged DEBUG_MODE _ _) Hmode)
                (no_beta_feature_logged DEBUG_MODE _ Hbeta)) as Hreq.
  cbv zeta in Hreq.
  rewrite !(dict_get_logged DEBUG_MODE) in Hreq by done.
  rewrite plain_params_logged in Hreq. fold sent_messages stop body modelId in Hreq.
  assert (Hsent : dispatched DEBUG_MODE int_of_str modelId body = body).
  { unfold body. apply dispatched_plain_params. }
  split; intros Hstream Hcall.
  - unfold chat_completions, chat_completions_io. cbv zeta.
    rewrite Hreq, val_bind. rewrite (dict_get_logged DEBUG_MODE) by done.
    rewrite Hstream. cbn [model_id bed_params].
    rewrite call_backend_first; rewrite Hsent, Hcall; [done|].
    by rewrite throttled_fails.
  - unfold chat_completions, chat_completions_io. cbv zeta.
    rewrite Hreq, val_bind. rewrite (dict_get_logged DEBUG_MODE) by done.
    rewrite Hstream. cbn [model_id bed_params].
    rewrite call_backend_first; rewrite Hsent, Hcall; [|by rewrite throttled_fails].
    by destruct e.
Qed.

(** *** Messages with a list as content *)

Lemma join_space_strings_only l s :
  join_space l = Ok s → Forall (λ v, is_list v = false) l.
Proof.
  revert s. induction l as [|x l IH]; intros s; [constructor|].
  destruct x as [| | |x| |]; try by destruct l.
  destruct l as [|y l]; [by repeat constructor|].
  change (join_space (PStr x :: y :: l))
    with (r ← join_space (y :: l); Ok (x +:+ " " +:+ r)).
  destruct (join_space (y :: l)) as [r|] eqn:Hr; [|done].
  intros _. constructor; [done|]. by eapply IH.
Qed.

Lemma contents_list_content messages cs :
  contents messages = Ok cs →
  Exists list_content messages → Exists (λ v, is_list v = true) cs.
Proof.
  revert cs. induction messages as [|msg rest IH]; intros cs Hc Hex.
  - by apply Exists_nil in Hex.
  - cbn [contents] in Hc.
    destruct (py_get msg "content" (PStr "")) as [c|] eqn:Hget; [|done].
    destruct (contents rest) as [cs'|]; [|done]. injection Hc as <-.
    apply Exists_cons in Hex as [(d & items & -> & Hitems)|Hex].
    + left. cbn in Hget. rewrite (dict_get_Some _ _ _ _ Hitems) in Hget.
      by injection Hget as <-.
    + right. by apply IH.
Qed.

Lemma prompt_text_fails messages a :
  Exists list_content messages →
  (cs ← contents messages; s ← join_space cs; Ok (PStr s)) ≠ Ok a.
Proof.
  intros Hex H. destruct (contents messages) as [cs|] eqn:Hc; [|done].
  cbn [mbind res_bind] in H.
  destruct (join_space cs) as [s|] eqn:Hj; [|done].
  apply join_space_strings_only in Hj.
  apply (contents_list_content _ _ Hc) in Hex.
  apply Exists_exists in Hex as (v & Hin & Hv).
  rewrite Forall_forall in Hj. specialize (Hj v Hin). congruence.
Qed.

Lemma replies_impl {A} (P : reply → Prop) (Q Q' : A → Prop) (m : io A) :
  replies P Q m → (∀ a, Q a → Q' a) → replies P Q' m.
Proof. unfold replies. destruct m.1; auto. Qed.

Lemma chat_request_messages req messages :
  dict_get req "messages" (PList []) = PList messages →
  replies (λ r, is_error r = true) (λ x, x.2 = messages) (chat_request req).
Proof.
  intros Hmsgs. unfold chat_request. rewrite Hmsgs.
  do 2 (apply replies_bind, replies_lift; intros ? _).
  apply replies_bind, replies_lift. intros message_list [= <-].
  apply replies_bind, replies_lift; intros ? _.
  case_match; [done|].
  repeat (apply replies_bind, replies_lift; intros ? _). done.
Qed.

Lemma logged_message_list_content msg :
  list_content msg → list_content (logged_message msg).
Proof.
  intros (d & items & -> & Hc). exists d, items. cbn. by rewrite Hc.
Qed.

(** Property X26. Without streaming, a chat request one of whose messages
    has a list as content is never answered with a completion: the handler
    sums up the prompt by joining the contents as strings, which fails on
    the list, so the reply is an error, also after a backend call that
    succeeded. *)
Theorem chat_list_content_fails req messages :
  dict_get req "messages" (PList []) = PList messages →
  Exists list_content messages →
  truthy (dict_get req "stream" (PBool false)) = false →
  is_error (chat_completions' req).1 = true.
Proof.
  intros Hmsgs Hex Hstream.
  apply (logged_messages DEBUG_MODE) in Hmsgs.
  assert (Hex' : Exists list_content
                   (if DEBUG_MODE then logged_message <$> messages else messages)).
  { destruct DEBUG_MODE; [|done]. apply Exists_fmap.
    eapply Exists_impl; [exact Hex|]. intros msg. apply logged_message_list_content. }
  unfold chat_completions.
  apply (replies_run (λ r, is_error r = true)); [done|].
  unfold chat_completions_io. cbv zeta.
  rewrite (dict_get_logged DEBUG_MODE) by done. rewrite Hstream.
  apply replies_bind.
  eapply replies_impl; [apply (chat_request_messages _ _ Hmsgs)|].
  intros [r message_list] Hml. cbn in Hml. subst message_list.
  apply replies_bind, replies_call_backend. intros bed_response.
  do 3 (apply replies_bind, replies_lift; intros ? _).
  apply replies_bind, replies_lift. intros prompt_text Hprompt.
  by apply prompt_text_fails in Hprompt.
Qed.

(** *** The debug log and the reply *)

Lemma length_append s1 s2 :
  String.length (s1 +:+ s2) = String.length s1 + String.length s2.
Proof.
  induction s1 as [|c s1 IH]; [done|].
  change (S (String.length (s1 +:+ s2)) = S (String.length s1 + String.length s2)).
  by rewrite IH.
Qed.

Lemma substring_append s1 s2 :
  String.substring 0 (String.length s1) (s1 +:+ s2) = s1.
Proof.
  induction s1 as [|c s1 IH]; [by destruct s2|].
  change (String c (String.substring 0 (String.length s1) (s1 +:+ s2)) = String c s1).
  by rewrite IH.
Qed.

Lemma length_substring n s :
  n ≤ String.length s → String.length (String.substring 0 n s) = n.
Proof.
  revert s. induction n as [|n IH]; intros s Hn; [by destruct s|].
  destruct s as [|c s]; [cbn in Hn; lia|].
  cbn. f_equal. apply IH. cbn in Hn. lia.
Qed.


Lemma cut_long_idempotent v : cut_long (cut_long v) = cut_long v.
Proof.
  destruct v as [| | |s| |]; try done. unfold cut_long.
  destruct (200 <? String.length s) eqn:Hlen; [|by rewrite Hlen].
  apply Nat.ltb_lt in Hlen.
  assert (Hk : String.length (String.substring 0 200 s) = 200)
    by (apply length_substring; lia).
  rewrite length_append, Hk.
  replace (200 <? 200 + String.length CUT_MARK) with true by done.
  pose proof (substring_append (String.substring 0 200 s) CUT_MARK) as Hs.
  rewrite Hk in Hs. by rewrite Hs.
Qed.

Lemma logged_message_idempotent msg :
  logged_message (logged_message msg) = logged_message msg.
Proof.
  destruct msg as [| | | | |d]; try done.
  destruct (d !! "content") as [c|] eqn:Hc.
  2:{ assert (H : logged_message (PDict d) = PDict d)
        by (unfold logged_message; by rewrite Hc).
      by rewrite !H. }
  destruct c as [| | |s| |];
    try (assert (H : logged_message (PDict d) = PDict d)
           by (unfold logged_message; by rewrite Hc);
         by rewrite !H).
  destruct (200 <? String.length s) eqn:Hlen.
  2:{ assert (H : logged_message (PDict d) = PDict d)
        by (unfold logged_message; by rewrite Hc, Hlen).
      by rewrite !H. }
  assert (H : logged_message (PDict d)
              = PDict (<["content" := cut_long (PStr s)]> d))
    by (unfold logged_message; by rewrite Hc, Hlen).
  rewrite H.
  pose proof (cut_long_idempotent (PStr s)) as Hcut.
  destruct (cut_long (PStr s)) as [| | |s'| |] eqn:Hs';
    try (unfold cut_long in Hs'; rewrite Hlen in Hs'; discriminate).
  unfold logged_message. rewrite lookup_insert_eq.
  destruct (200 <? String.length s') eqn:Hlen'; [|done].
  by rewrite Hcut, insert_insert_eq.
Qed.

(** Property X27. Logging a request twice leaves it as logging it once
    does: a content the log has cut to 200 characters and the mark is cut
    to the same by the next pass. *)
Theorem log_request_info_idempotent req :
  log_request_info DEBUG_MODE (log_request_info DEBUG_MODE req)
  = log_request_info DEBUG_MODE req.
Proof.
  unfold log_request_info. destruct DEBUG_MODE; [|done].
  destruct (req !! "messages") as [[| | | |messages|]|] eqn:Hm;
    rewrite ?Hm; try done.
  rewrite lookup_insert_eq, insert_insert_eq. f_equal. f_equal.
  rewrite <- list_fmap_compose. apply list_fmap_ext. intros i msg _. cbn.
  apply logged_message_idempotent.
Qed.


End HandlersEdge.

(* ------------------------------------------------------------------ *)
(** ** The service on sample requests *)

Section Cases.
Import Sample.

Abbreviation completions_on dbg backend req :=
  (completions dbg int_of_str str_of encode_length backend streams_nothing jitter req).
Abbreviation chat_completions_on dbg backend req :=
  (chat_completions dbg int_of_str str_of encode_length backend streams_nothing jitter req).

Lemma jitter_in_range k : (0 <= jitter k)%Q ∧ (jitter k < 1)%Q.
Proof. split; [discriminate|reflexivity]. Defined.

(** *** The retry loop *)

(** Against claim C3 as stated: a backend that always throttles is
    called six times, not five; and with a jitter of [1 - 2^-53], the
    largest the generator draws, the first sleep is the binary64 sum
    [1 + (1 - 2^-53) = 2], which is not in [[1, 2)]. *)
Lemma retry_exceeds_stated_bounds :
  attempts (invoke_with_retry false int_of_str jitter InvokeModel
              always_throttled "m" ∅).2 = 6
  ∧ ¬ attempts (invoke_with_retry false int_of_str jitter InvokeModel
                  always_throttled "m" ∅).2 ≤ 5
  ∧ (0 <= late_jitter 0)%Q ∧ (late_jitter 0 < 1)%Q
  ∧ sleeps (invoke_with_retry false int_of_str late_jitter InvokeModel
              throttled_twice "m" ∅).2
    = [delay late_jitter 0; delay late_jitter 1]
  ∧ (delay late_jitter 0 == 2)%Q
  ∧ ¬ (delay late_jitter 0 < inject_Z (2 ^ 0) + 1)%Q.
Proof.
  split; [reflexivity|]. split; [vm_compute; lia|].
  split; [discriminate|]. split; [reflexivity|]. split; [reflexivity|].
  split; [vm_compute; reflexivity|].
  vm_compute. discriminate.
Qed.

Lemma invoke_with_retry_backoff_witness :
  ∃ n, n = 2
    ∧ attempts (invoke_with_retry false int_of_str jitter InvokeModel
                  throttled_twice "m" ∅).2 = S n
    ∧ sleeps (invoke_with_retry false int_of_str jitter InvokeModel
                throttled_twice "m" ∅).2 = delay jitter <$> seq 0 n.
Proof.
  destruct (invoke_with_retry_backoff false int_of_str jitter InvokeModel
              throttled_twice "m" ∅ jitter_in_range)
    as (n & _ & _ & Hattempts & Hsleeps & _ & _ & _ & Htwo).
  exists n. split; [|split; assumption].
  apply Htwo; reflexivity.
Defined.

(** *** Streams *)

(** Against claim C4 as stated: a chat stream whose backend frames hold
    no stop reason has no sentinel, and one with two stop frames has
    two. *)
Lemma chat_stream_sentinel_count :
  count_done (chat_generate_stream (PStr "claude-3-7-sonnet") [text_delta "a"]).1 = 0
  ∧ count_done (chat_generate_stream (PStr "claude-3-7-sonnet")
                  [message_delta "end_turn"; message_delta "end_turn"]).1 = 2.
Proof. split; reflexivity. Qed.

Lemma chat_stream_done_per_stop_witness :
  ∃ before,
    (chat_generate_stream (PStr "claude-3-7-sonnet")
       [text_delta "a"; message_delta "max_tokens"]).1 = before ++ [SseDone]
    ∧ count_done before = 0.
Proof.
  destruct (chat_stream_done_per_stop (PStr "claude-3-7-sonnet")
              [text_delta "a"; message_delta "max_tokens"] _ eq_refl)
    as [_ Hlast].
  apply (Hlast [text_delta "a"] (message_delta "max_tokens")).
  - reflexivity.
  - reflexivity.
  - repeat constructor.
Defined.

Lemma text_delta_is_frame s : text_delta_frame (text_delta s) s.
Proof. eexists _, _. repeat split; reflexivity. Defined.

Lemma message_delta_is_frame s : message_delta_frame (message_delta s) s.
Proof. eexists _, _. repeat split; reflexivity. Defined.

Lemma chat_stream_text_then_stop_witness :
  chat_generate_stream (PStr "claude-3-7-sonnet")
    ([text_delta "Hel"; text_delta "lo"] ++ [message_delta "end_turn"])
  = ([SseChat {| chunk_model := PStr "claude-3-7-sonnet";
                 chunk_delta := DContent (PStr "Hel");
                 chunk_finish_reason := PNone |};
      SseChat {| chunk_model := PStr "claude-3-7-sonnet";
                 chunk_delta := DContent (PStr "lo");
                 chunk_finish_reason := PNone |};
      SseChat {| chunk_model := PStr "claude-3-7-sonnet";
                 chunk_delta := DEmpty;
                 chunk_finish_reason := PStr "stop" |};
      SseDone], None).
Proof.
  apply (chat_stream_text_then_stop (PStr "claude-3-7-sonnet")
           [text_delta "Hel"; text_delta "lo"] ["Hel"; "lo"]
           (message_delta "end_turn")).
  - repeat constructor; apply text_delta_is_frame.
  - repeat constructor; discriminate.
  - apply message_delta_is_frame.
Defined.

(** *** The thinking budget *)

(** Against claim C1 as stated: with [max_tokens = 10000] and no budget
    field both handlers send a budget of 5000, where the formula of the
    specification gives 8000. *)
Lemma default_budget_is_not_specified :
  summary (sent_bodies (completions_on false answers (thinking_request 10000)).2)
  = [(Some (PInt 10000), Some (PInt 5000), None)]
  ∧ summary (sent_bodies (chat_completions_on false answers (thinking_request 10000)).2)
    = [(Some (PInt 10000), Some (PInt 5000), None)]
  ∧ specified_default_budget 10000 = 8000%Z.
Proof. repeat split; vm_compute; reflexivity. Qed.

Lemma thinking_request_typed n :
  typed_request (thinking_request n) "claude-3-7-sonnet-thinking" n.
Proof. split; reflexivity. Defined.

Lemma thinking_request_prompt n : accepted_prompt (thinking_request n) "hi".
Proof. split; [reflexivity|discriminate]. Defined.

Lemma user_message_readable s : readable (user_message s).
Proof.
  unfold readable, has_content.
  change (py_get (user_message s) "content" (PStr "")) with (Ok (PStr s)).
  cbn. destruct (negb (String.eqb s "")); eexists; reflexivity.
Defined.

Lemma thinking_request_messages n :
  accepted_messages (thinking_request n) [user_message "hi"].
Proof.
  split; [reflexivity|]. split.
  - repeat constructor. apply user_message_readable.
  - constructor. split; reflexivity.
Defined.

Lemma thinking_request_no_budget_field n : no_budget_field (thinking_request n).
Proof. repeat split; reflexivity. Defined.

Lemma default_budget_sent_witness :
  (∃ k sent, k ≤ MAX_RETRIES
     ∧ sent_bodies (completions_on false answers (thinking_request 2000)).2
       = replicate (S k) sent
     ∧ budget_tokens sent = Some (PInt 1600))
  ∧ (∃ k sent, k ≤ MAX_RETRIES
       ∧ sent_bodies (chat_completions_on false answers (thinking_request 2000)).2
         = replicate (S k) sent
       ∧ budget_tokens sent = Some (PInt 1600)).
Proof.
  destruct (default_budget_sent false int_of_str str_of encode_length answers
              streams_nothing jitter (thinking_request 2000)
              "claude-3-7-sonnet-thinking" 2000
              (thinking_request_typed 2000) ltac:(lia) eq_refl eq_refl
              (thinking_request_no_budget_field 2000))
    as (_ & _ & Hcompletions & Hchat & _).
  split.
  - apply (Hcompletions "hi"), thinking_request_prompt.
  - apply (Hchat [user_message "hi"]), thinking_request_messages.
Defined.

(** Claim C2 at [max_tokens = 1000], debug mode off: both handlers send
    [budget_tokens = 800] with [max_tokens = 1000], below the minimum of
    1024 that the claim and the handlers' own comment require; [top_p] is
    absent as the claim says. *)
Theorem budget_below_minimum_sent :
  summary (sent_bodies (completions_on false answers (thinking_request 1000)).2)
  = [(Some (PInt 1000), Some (PInt 800), None)]
  ∧ summary (sent_bodies (chat_completions_on false answers (thinking_request 1000)).2)
    = [(Some (PInt 1000), Some (PInt 800), None)].
Proof. split; vm_compute; reflexivity. Qed.

(** Against claim C5 as stated: with [max_tokens = 1000] the request is
    sent with [max_tokens = 1025] in debug mode and with
    [max_tokens = 1000] otherwise, never with 1024. *)
Lemma max_tokens_is_not_1024 :
  summary (sent_bodies (completions_on true answers (thinking_request 1000)).2)
  = [(Some (PInt 1025), Some (PInt 1024), None)]
  ∧ summary (sent_bodies (completions_on false answers (thinking_request 1000)).2)
    = [(Some (PInt 1000), Some (PInt 800), None)].
Proof. split; vm_compute; reflexivity. Qed.

Lemma debug_validation_raises_max_tokens_witness :
  (∃ k sent, k ≤ MAX_RETRIES
     ∧ sent_bodies (completions_on true answers (thinking_request 1000)).2
       = replicate (S k) sent
     ∧ budget_tokens sent = Some (PInt 1024)
     ∧ sent !! "max_tokens" = Some (PInt 1025))
  ∧ (∃ k sent, k ≤ MAX_RETRIES
       ∧ sent_bodies (chat_completions_on true answers (thinking_request 1000)).2
         = replicate (S k) sent
       ∧ budget_tokens sent = Some (PInt 1024)
       ∧ sent !! "max_tokens" = Some (PInt 1025)).
Proof.
  destruct (debug_validation_raises_max_tokens true int_of_str str_of encode_length
              answers streams_nothing jitter (thinking_request 1000)
              "claude-3-7-sonnet-thinking" 1000 800
              eq_refl (thinking_request_typed 1000) ltac:(lia) eq_refl eq_refl eq_refl)
    as (Hcompletions & Hchat).
  split.
  - apply (Hcompletions "hi"), thinking_request_prompt.
  - apply (Hchat [user_message "hi"]), thinking_request_messages.
Defined.

(** A budget field that is no number: [max(1024, 'abc')] raises, the
    handler answers HTTP 500 and the backend is never called, in debug
    mode or not and whatever the backend would answer. *)
Lemma malformed_budget_is_server_error dbg backend :
  completions_on dbg backend malformed_budget_request
  = (Reply 500 (ErrorBody (ErrUncaught TypeError)), [])
  ∧ chat_completions_on dbg backend malformed_budget_request
    = (Reply 500 (ErrorBody (ErrUncaught TypeError)), []).
Proof. destruct dbg; split; reflexivity. Qed.

(** Against claim C6 as stated: a budget of ['abc'] in the [thinking]
    object, with [max_tokens = 20000], is sent as a budget of 10000, not
    4000; and the same value in [max_thinking_tokens] ends in HTTP 500
    with nothing sent. *)
Lemma uncoercible_budget_no_fallback :
  summary (sent_bodies (completions_on false answers (thinking_object_request 20000)).2)
  = [(Some (PInt 20000), Some (PInt 10000), None)]
  ∧ completions_on false answers malformed_budget_request
    = (Reply 500 (ErrorBody (ErrUncaught TypeError)), []).
Proof. split; vm_compute; reflexivity. Qed.

Lemma thinking_object_request_typed n :
  typed_request (thinking_object_request n) "claude-3-7-sonnet" n.
Proof. split; reflexivity. Defined.

Lemma thinking_object_request_no_budget_field n :
  no_budget_field (thinking_object_request n).
Proof. repeat split; reflexivity. Defined.

Lemma uncoercible_budget_in_thinking_object_witness :
  (∃ k sent, k ≤ MAX_RETRIES
     ∧ sent_bodies (completions_on false answers (thinking_object_request 4096)).2
       = replicate (S k) sent
     ∧ budget_tokens sent = Some (PInt 4000))
  ∧ budget_tokens
      (validate_bedrock_request int_of_str (thinking_object_request 4096))
    = Some (PInt 4000).
Proof.
  destruct (uncoercible_budget_in_thinking_object false int_of_str str_of
              encode_length answers streams_nothing jitter
              (thinking_object_request 4096) "claude-3-7-sonnet" 4096
              {[ "type" := PStr "enabled"; "budget_tokens" := PStr "abc" ]}
              (thinking_object_request_typed 4096) ltac:(lia) eq_refl eq_refl eq_refl
              (thinking_object_request_no_budget_field 4096))
    as (_ & _ & Hcompletions & _ & _ & Hvalidate).
  split.
  - apply (Hcompletions "hi"). split; [reflexivity|discriminate].
  - apply (Hvalidate (thinking_object_request 4096)
             {[ "type" := PStr "enabled"; "budget_tokens" := PStr "abc" ]}
             (PStr "abc")); reflexivity.
Defined.

(** *** Other models, rejected requests, usage *)

Lemma opus_request_typed : typed_request opus_request "claude-3-opus" DEFAULT_MAX_TOKENS.
Proof. split; reflexivity. Defined.

Lemma thinking_flag_without_claude_37_witness :
  (∃ k sent, k ≤ MAX_RETRIES
     ∧ sent_bodies (completions_on true answers opus_request).2 = replicate (S k) sent
     ∧ sent !! "thinking" = None ∧ sent !! "top_p" = None)
  ∧ (∃ k sent, k ≤ MAX_RETRIES
       ∧ sent_bodies (chat_completions_on true answers opus_request).2
         = replicate (S k) sent
       ∧ sent !! "thinking" = None ∧ sent !! "top_p" = None).
Proof.
  destruct (thinking_flag_without_claude_37 true int_of_str str_of encode_length
              answers streams_nothing jitter opus_request "claude-3-opus"
              DEFAULT_MAX_TOKENS opus_request_typed eq_refl eq_refl)
    as (Hcompletions & Hchat).
  split.
  - apply (Hcompletions "hi"). split; [reflexivity|discriminate].
  - apply (Hchat [user_message "hi"]). split; [reflexivity|]. split.
    + repeat constructor. apply user_message_readable.
    + constructor. split; reflexivity.
Defined.

Lemma blank_request_typed :
  typed_request blank_request "claude-3-7-sonnet" DEFAULT_MAX_TOKENS.
Proof. split; reflexivity. Defined.

Lemma invalid_requests_rejected_witness :
  filter_messages 2 0 [user_message " "; assistant_message ""]
  = Ok [assistant_message ""]
  ∧ chat_completions_on false answers blank_request
    = (Reply 400 (ErrorBody
         (ErrText "At least one user message with content is required")), [])
  ∧ completions_on false answers blank_request
    = (Reply 400 (ErrorBody (ErrText "Prompt cannot be empty")), []).
Proof.
  destruct (invalid_requests_rejected false int_of_str str_of encode_length
              answers streams_nothing jitter)
    as (Hfilter & Hchat & Hcompletions).
  split; [|split].
  - apply (Hfilter [user_message " "; assistant_message ""]).
    repeat constructor; eexists; reflexivity.
  - apply (Hchat blank_request "claude-3-7-sonnet" DEFAULT_MAX_TOKENS
             [user_message " "; assistant_message ""]).
    + apply blank_request_typed.
    + reflexivity.
    + discriminate.
    + repeat constructor; eexists; reflexivity.
    + constructor; [intros _; reflexivity|].
      constructor; [discriminate|]. constructor.
  - apply (Hcompletions blank_request). right. exists "  ".
    split; [reflexivity|]. repeat constructor.
Defined.

Lemma usage_total_is_sum_witness :
  ∃ c t,
    completions_on false answers_with_thinking (thinking_request 4096)
    = (Reply 200 (CompletionBody c), t)
    ∧ thinking_tokens (cr_usage c) = Some 2
    ∧ total_tokens (cr_usage c)
      = prompt_tokens (cr_usage c) + completion_tokens (cr_usage c) + 2.
Proof.
  destruct (usage_total_is_sum false int_of_str str_of encode_length
              answers_with_thinking streams_nothing jitter (thinking_request 4096))
    as [Hcompletions _].
  eexists _, _. split; [vm_compute; reflexivity|]. split; [reflexivity|].
  eapply (Hcompletions 200). vm_compute. reflexivity.
Defined.

Lemma spaces_blank n : whitespace_only (spaces n).
Proof.
  unfold whitespace_only, spaces.
  induction n as [|n IH]; cbn; constructor; [reflexivity|exact IH].
Qed.

(** Claim C8 at a lone user message of 201 spaces.  The content is
    whitespace only, and with debug mode off the chat handler answers
    HTTP 400 without a backend call, as the claim says.  With debug mode
    on, the request log has cut the content to 200 spaces and the mark by
    the time the handler reads it: the message counts as one with
    content, the backend is called with it, and the reply is HTTP 200. *)
Theorem blank_message_sent_in_debug_mode :
  whitespace_only (spaces 201)
  ∧ strip (spaces 201) = ""
  ∧ chat_completions_on false answers long_blank_request
    = (Reply 400 (ErrorBody
         (ErrText "At least one user message with content is required")), [])
  ∧ (∃ c body,
       chat_completions_on true answers long_blank_request
       = (Reply 200 (ChatBody c), [Call InvokeModel DEFAULT_MODEL_ID body])
       ∧ body !! "messages"
         = Some (PList [user_message (spaces 200 +:+ CUT_MARK)])).
Proof.
  split; [apply spaces_blank|]. split; [vm_compute; reflexivity|]. split.
  - vm_compute. reflexivity.
  - eexists _, _. split; [vm_compute; reflexivity|]. vm_compute. reflexivity.
Qed.

End Cases.
(* ------------------------------------------------------------------ *)
(** ** More of the service on sample inputs *)

Section MoreCases.
Import Sample.

Abbreviation completions_with dbg backend req :=
  (completions dbg int_of_str str_of encode_length backend streams_nothing jitter req).
Abbreviation chat_completions_with dbg backend stream_backend req :=
  (chat_completions dbg int_of_str str_of encode_length backend stream_backend jitter req).

Lemma jitter_bounds k : (0 <= jitter k)%Q ∧ (jitter k < 1)%Q.
Proof. split; [discriminate|reflexivity]. Defined.

(** *** Lines *)

Example stream_iter_lines_two_chunks :
  stream_iter_lines [first_chunk; second_chunk]
  = Some [[Byte.x61; Byte.x62]; [Byte.x63; Byte.x64]; []; [Byte.x65]].
Proof. reflexivity. Qed.

(** *** The validator *)

Lemma alias_body_exact : max_tokens_exact int_of_str alias_body.
Proof. intros n H. vm_compute in H. injection H as <-. reflexivity. Defined.

Lemma validate_enforces_thinking_rules_witness :
  thinking_well_formed int_of_str (validate_bedrock_request int_of_str alias_body).
Proof.
  apply (validate_enforces_thinking_rules int_of_str alias_body).
  - right. reflexivity.
  - intros _. apply alias_body_exact.
Defined.

(** [thinking: false] with [max_tokens = 100] and a [top_p] comes back
    as an enabled entry with a budget of 4000, [max_tokens = 4001] and
    no [top_p]. *)
Example validate_disabled_thinking :
  validate_bedrock_request int_of_str disabled_thinking_body
  = {[ "thinking" := PDict (enabled_thinking 4000);
       "max_tokens" := PInt 4001;
       "temperature" := PInt 1 ]}.
Proof. vm_compute. reflexivity. Qed.

Lemma validate_leaves_plain_body_witness :
  validate_bedrock_request int_of_str plain_body = plain_body.
Proof.
  apply (validate_leaves_plain_body int_of_str plain_body); reflexivity.
Defined.

Lemma validate_touches_three_keys_witness :
  validate_bedrock_request int_of_str disabled_thinking_body !! "temperature"
  = disabled_thinking_body !! "temperature".
Proof.
  apply (validate_touches_three_keys int_of_str disabled_thinking_body "temperature");
    discriminate.
Defined.

Lemma validate_adds_default_budget_witness :
  budget_tokens (validate_bedrock_request int_of_str alias_body)
  = Some (PInt (specified_default_budget (Z.max 1024 10000)))
  ∧ specified_default_budget (Z.max 1024 10000)
    = Z.max 1024 (Z.min (float_int_08 (Z.max 1024 10000)) (Z.max 1024 10000 - 1))
  ∧ py_int int_of_str
      (dict_get (validate_bedrock_request int_of_str alias_body) "max_tokens"
         (PInt DEFAULT_MAX_TOKENS))
    = Some (Z.max (Z.max 1024 10000)
              (specified_default_budget (Z.max 1024 10000) + 1)).
Proof.
  apply (validate_adds_default_budget int_of_str alias_body 10000); reflexivity.
Defined.

(** With the thinking alias and [max_tokens = 10000] the validator adds
    a budget of 8000. *)
Example validate_alias_body :
  validate_bedrock_request int_of_str alias_body
  = {[ "_model_name" := PStr "claude-3-7-sonnet-thinking";
       "max_tokens" := PInt 10000;
       "thinking" := PDict (enabled_thinking 8000) ]}.
Proof. vm_compute. reflexivity. Qed.

Lemma validate_never_lowers_max_tokens_witness :
  ∃ n', validate_bedrock_request int_of_str alias_body !! "max_tokens"
        = Some (PInt n')
        ∧ (10000 ≤ n')%Z.
Proof.
  apply (validate_never_lowers_max_tokens int_of_str alias_body 10000);
    reflexivity.
Defined.

(** *** The retry loop *)

Lemma retry_sleep_bounded_witness :
  ∃ n, n ≤ MAX_RETRIES
    ∧ sleeps (invoke_with_retry false int_of_str jitter InvokeModel
                always_throttled "m" ∅).2 = delay jitter <$> seq 0 n
    ∧ (∀ k, k < n →
         (delay jitter k == float_round (inject_Z (2 ^ Z.of_nat k) + jitter k))%Q
         ∧ (delay jitter k <= inject_Z (2 ^ Z.of_nat k) + 1)%Q
         ∧ (delay jitter k < MAX_DELAY)%Q)
    ∧ (total_sleep (invoke_with_retry false int_of_str jitter InvokeModel
                      always_throttled "m" ∅).2 <= 36)%Q.
Proof.
  apply (retry_sleep_bounded false int_of_str jitter InvokeModel always_throttled
           "m" ∅ jitter_bounds).
Defined.

(** A backend that always throttles costs 33.5 seconds of sleep with a
    jitter of half a second. *)
Example total_sleep_when_throttled :
  (total_sleep (invoke_with_retry false int_of_str jitter InvokeModel
                  always_throttled "m" ∅).2 == 67 # 2)%Q.
Proof. vm_compute. reflexivity. Qed.

Lemma debug_rewrite_frame_witness :
  Forall (λ sent, sent !! "temperature" = disabled_thinking_body !! "temperature"
                  ∧ (true = true → max_tokens_exact int_of_str disabled_thinking_body →
                     sent !! "_model_name" = None))
    (sent_bodies
       (invoke_with_retry true int_of_str jitter InvokeModel answers
          DEFAULT_MODEL_ID disabled_thinking_body).2).
Proof.
  apply (debug_rewrite_frame true int_of_str jitter InvokeModel answers
           DEFAULT_MODEL_ID disabled_thinking_body "temperature"); discriminate.
Defined.

Lemma plain_body_sent_as_given_witness :
  ∃ n, n ≤ MAX_RETRIES
    ∧ sent_bodies
        (invoke_with_retry true int_of_str jitter InvokeModel answers
           DEFAULT_MODEL_ID plain_body).2
      = replicate (S n) plain_body.
Proof.
  apply (plain_body_sent_as_given true int_of_str jitter InvokeModel answers
           DEFAULT_MODEL_ID plain_body); reflexivity.
Defined.

(** *** Streams *)

Lemma completions_stream_ends_at_stop_witness :
  completions_generate_stream ([text_delta "a"] ++ stop_frame :: [text_delta "b"])
  = completions_generate_stream ([text_delta "a"] ++ [stop_frame]).
Proof.
  apply (completions_stream_ends_at_stop [text_delta "a"] stop_frame [text_delta "b"]).
  reflexivity.
Defined.

(** *** Reading a backend payload *)

Lemma text_block_is_block s : content_block (text_block s).
Proof.
  eexists. split; [reflexivity|]. split.
  - intros _. eexists. reflexivity.
  - discriminate.
Defined.

Lemma thinking_block_is_block s : content_block (thinking_block s).
Proof.
  eexists. split; [reflexivity|]. split.
  - discriminate.
  - intros _. eexists. reflexivity.
Defined.

Lemma extract_content_of_blocks_witness :
  extract_content str_of
    (PDict {[ "content" := PList [thinking_block "hm"; text_block "Hel"; text_block "lo"];
              "completion" := PStr "other" ]})
  = Ok (PStr (String.concat ""
                (omap block_text [thinking_block "hm"; text_block "Hel"; text_block "lo"]))).
Proof.
  apply (extract_content_of_blocks str_of
           {[ "content" := PList [thinking_block "hm"; text_block "Hel"; text_block "lo"];
              "completion" := PStr "other" ]}
           [thinking_block "hm"; text_block "Hel"; text_block "lo"]).
  - reflexivity.
  - repeat constructor;
      [apply thinking_block_is_block|apply text_block_is_block|apply text_block_is_block].
Defined.

Example extract_content_ignores_thinking :
  String.concat "" (omap block_text [thinking_block "hm"; text_block "Hel"; text_block "lo"])
  = "Hello".
Proof. reflexivity. Qed.

Lemma extract_thinking_of_blocks_witness :
  extract_thinking
    (PDict {[ "content" := PList [thinking_block "a"; text_block "c"; thinking_block "b"] ]})
  = Ok (PStr (String.concat " "
                (omap block_thinking
                   [thinking_block "a"; text_block "c"; thinking_block "b"]))).
Proof.
  apply (extract_thinking_of_blocks
           {[ "content" := PList [thinking_block "a"; text_block "c"; thinking_block "b"] ]}
           [thinking_block "a"; text_block "c"; thinking_block "b"]).
  - reflexivity.
  - reflexivity.
  - repeat constructor;
      [apply thinking_block_is_block|apply text_block_is_block|apply thinking_block_is_block].
Defined.

Example extract_thinking_joins_blocks :
  String.concat " "
    (omap block_thinking [thinking_block "a"; text_block "c"; thinking_block "b"])
  = "a b".
Proof. reflexivity. Qed.

(** *** The message filter *)

Lemma filter_messages_idempotent_witness :
  [user_message "hi"; assistant_message ""]
    `sublist_of` [user_message " "; user_message "hi"; assistant_message ""]
  ∧ filter_messages 2 0 [user_message "hi"; assistant_message ""]
    = Ok [user_message "hi"; assistant_message ""].
Proof.
  apply (filter_messages_idempotent
           [user_message " "; user_message "hi"; assistant_message ""]
           [user_message "hi"; assistant_message ""]).
  reflexivity.
Defined.

(** *** Requests without reasoning *)

Lemma haiku_request_prompt : accepted_prompt haiku_request "hi".
Proof. split; [reflexivity|discriminate]. Defined.

Lemma haiku_request_typed : typed_request haiku_request "claude-3-haiku" 200000.
Proof. split; reflexivity. Defined.

Lemma haiku_request_messages : accepted_messages haiku_request [user_message "hi"].
Proof.
  split; [reflexivity|]. split.
  - repeat constructor. eexists. reflexivity.
  - constructor. split; reflexivity.
Defined.

Lemma haiku_request_no_beta : no_beta_feature haiku_request.
Proof. split; reflexivity. Defined.

Lemma haiku_stream_request_typed :
  typed_request haiku_stream_request "claude-3-haiku" 200000.
Proof. split; reflexivity. Defined.

Lemma haiku_stream_request_messages :
  accepted_messages haiku_stream_request [user_message "hi"].
Proof.
  split; [reflexivity|]. split.
  - repeat constructor. eexists. reflexivity.
  - constructor. split; reflexivity.
Defined.

Lemma haiku_stream_request_no_beta : no_beta_feature haiku_stream_request.
Proof. split; reflexivity. Defined.

Lemma completions_plain_exchange_witness :
  completions_with true answers haiku_request
  = (Reply 200 (CompletionBody
       {| cr_model := PStr "claude-3-haiku";
          cr_text := PStr "hello";
          cr_finish_reason := PStr "end_turn";
          cr_thinking := None;
          cr_usage := {| prompt_tokens := 2;
                         completion_tokens := 5;
                         total_tokens := 7;
                         thinking_tokens := None |} |}),
     [Call InvokeModel "anthropic.claude-3-haiku-20240307-v1:0"
        (haiku_body (PStr "END"))]).
Proof.
  apply (completions_plain_exchange true int_of_str str_of encode_length answers
           streams_nothing jitter haiku_request "hi" "claude-3-haiku" 200000
           {[ "content" := PList [text_block "hello"];
              "stop_reason" := PStr "end_turn" ]}
           [text_block "hello"] 2 5
           haiku_request_prompt haiku_request_typed eq_refl haiku_request_no_beta
           eq_refl eq_refl eq_refl).
  - repeat constructor. apply text_block_is_block.
  - reflexivity.
  - reflexivity.
Defined.

Lemma chat_plain_calls_witness :
  ∃ k, k ≤ MAX_RETRIES
    ∧ calls (chat_completions_with true answers streams_nothing haiku_stream_request).2
      = replicate (S k)
          (InvokeModelWithResponseStream, "anthropic.claude-3-haiku-20240307-v1:0",
           haiku_body (PList [PStr "END"])).
Proof.
  apply (chat_plain_calls true int_of_str str_of encode_length answers
           streams_nothing jitter haiku_stream_request [user_message "hi"]
           "claude-3-haiku" 200000
           haiku_stream_request_messages haiku_stream_request_typed eq_refl
           haiku_stream_request_no_beta).
Defined.

Lemma chat_backend_failure_witness :
  chat_completions_with false rejects rejects_stream haiku_request
  = (Reply 500 (ErrorBody (ErrUncaught rejected)),
     [Call InvokeModel "anthropic.claude-3-haiku-20240307-v1:0"
        (haiku_body (PList [PStr "END"]))])
  ∧ chat_completions_with false rejects rejects_stream haiku_stream_request
    = (Reply 500 (ErrorBody (ErrStream rejected)),
       [Call InvokeModelWithResponseStream "anthropic.claude-3-haiku-20240307-v1:0"
          (haiku_body (PList [PStr "END"]))]).
Proof.
  split.
  - apply (chat_backend_failure false int_of_str str_of encode_length rejects
             rejects_stream jitter haiku_request [user_message "hi"]
             "claude-3-haiku" 200000 rejected
             haiku_request_messages haiku_request_typed eq_refl
             haiku_request_no_beta eq_refl); reflexivity.
  - apply (chat_backend_failure false int_of_str str_of encode_length rejects
             rejects_stream jitter haiku_stream_request [user_message "hi"]
             "claude-3-haiku" 200000 rejected
             haiku_stream_request_messages haiku_stream_request_typed eq_refl
             haiku_stream_request_no_beta eq_refl); reflexivity.
Defined.

(** *** The thinking budget *)

Lemma thinking_budget_bounds_witness :
  (1600 < 2000)%Z ∧ ((1280 ≤ 2000)%Z → (1024 ≤ 1600)%Z).
Proof.
  apply (thinking_budget_bounds (thinking_request 2000) 2000 1600);
    [reflexivity|lia].
Defined.

Lemma budget_request_typed :
  typed_request budget_request "claude-3-7-sonnet-thinking" 4096.
Proof. split; reflexivity. Defined.

Lemma budget_request_prompt : accepted_prompt budget_request "hi".
Proof. split; [reflexivity|discriminate]. Defined.

Lemma budget_request_messages : accepted_messages budget_request [user_message "hi"].
Proof.
  split; [reflexivity|]. split.
  - repeat constructor. eexists. reflexivity.
  - constructor. split; reflexivity.
Defined.

Lemma given_budget_sent_witness :
  (∃ k sent, k ≤ MAX_RETRIES
     ∧ sent_bodies (completions_with false answers budget_request).2
       = replicate (S k) sent
     ∧ budget_tokens sent = Some (PInt 3276))
  ∧ (∃ k sent, k ≤ MAX_RETRIES
       ∧ sent_bodies
           (chat_completions_with false answers streams_nothing budget_request).2
         = replicate (S k) sent
       ∧ budget_tokens sent = Some (PInt 3276)).
Proof.
  destruct (given_budget_sent false int_of_str str_of encode_length answers
              streams_nothing jitter budget_request "claude-3-7-sonnet-thinking"
              4096 5000 budget_request_typed ltac:(lia) eq_refl eq_refl eq_refl)
    as (_ & Hcompletions & Hchat).
  split.
  - apply (Hcompletions "hi"), budget_request_prompt.
  - apply (Hchat [user_message "hi"]), budget_request_messages.
Defined.

(** *** Requests the handlers cannot read *)

Lemma malformed_requests_fail_witness :
  completions_with false answers numeric_prompt_request
  = (Reply 500 (ErrorBody (ErrUncaught AttributeError)), [])
  ∧ chat_completions_with false answers streams_nothing bare_string_request
    = (Reply 500 (ErrorBody (ErrUncaught AttributeError)), []).
Proof.
  destruct (malformed_requests_fail false int_of_str str_of encode_length answers
              streams_nothing jitter) as (Hcompletions & Hchat).
  split.
  - apply (Hcompletions numeric_prompt_request); [reflexivity|discriminate].
  - destruct (Hchat bare_string_request [PStr "hi"]) as (e & Hreply & He).
    + reflexivity.
    + constructor. exact I.
    + rewrite Hreply.
      rewrite (He "claude-3-7-sonnet" DEFAULT_MAX_TOKENS); [reflexivity|].
      split; reflexivity.
Defined.

(** A number in a content list is fatal before the text block and goes
    unseen after it, where [any] has stopped. *)
Example number_in_content_list :
  chat_completions_with false answers streams_nothing number_first_request
  = (Reply 500 (ErrorBody (ErrUncaught AttributeError)), [])
  ∧ attempts
      (chat_completions_with false answers streams_nothing number_last_request).2 = 1.
Proof. split; vm_compute; reflexivity. Qed.

Lemma chat_list_content_fails_witness :
  is_error
    (chat_completions_with false answers streams_nothing list_content_request).1 = true.
Proof.
  apply (chat_list_content_fails false int_of_str str_of encode_length answers
           streams_nothing jitter list_content_request [list_content_message]).
  - reflexivity.
  - constructor. eexists _, _. split; reflexivity.
  - reflexivity.
Defined.

(** The message with a list as content passes the filter and the backend
    is called; the reply is the error of joining a list into the prompt
    text. *)
Example chat_list_content_after_call :
  (chat_completions_with false answers streams_nothing list_content_request).1
  = Reply 500 (ErrorBody (ErrUncaught TypeError))
  ∧ attempts
      (chat_completions_with false answers streams_nothing list_content_request).2 = 1.
Proof. split; vm_compute; reflexivity. Qed.

(** *** The debug log and the reply *)


End MoreCases.

